(** * DWC server state coordinator: the database manager and its models

    A shallow embedding of [dwc_admin/models.py] and
    [dwc_admin/database_manager.py].  Tables are lists of rows, the ORM
    calls the manager relies on ([get], [filter], [create],
    [get_or_create], [update_or_create], [delete]) are functions on those
    lists, exceptions are values of [Res], and the operations that write
    thread the database through a small state-and-exception monad.

    Modelling conventions:
    - a [DateTimeField] is a number of microseconds on the time line ([Z]),
      and [timezone.now()] is the argument [now] of the operation reading it;
    - the integer columns of a NAT negotiation and of a game server take
      a signed 64-bit value, and an address column stores the text that
      [GenericIPAddressField] prepares; every other column keeps the value
      it was given (no length check);
    - columns that no operation below reads (location, personal data,
      notes, JSON payloads) are left out of the records. *)

From stdpp Require Import base decidable numbers option list sorting strings.
From Stdlib.Strings Require Byte.
From Stdlib.Strings Require Import Ascii.

Local Open Scope Z_scope.
Local Open Scope string_scope.
Local Open Scope list_scope.

(** ** Exceptions and results *)

Inductive exn : Type :=
  | DoesNotExist
  | MultipleObjectsReturned
  | IntegrityError
  | CodecError
  | OverflowError.

Global Instance exn_eq_dec : EqDecision exn.
Proof. solve_decision. Defined.

Inductive Res (A : Type) : Type :=
  | Ok (a : A)
  | Raise (e : exn).
Arguments Ok {A} a.
Arguments Raise {A} e.

Definition res_bind {A B} (r : Res A) (k : A → Res B) : Res B :=
  match r with
  | Ok a => k a
  | Raise e => Raise e
  end.

(** [try: body except e: handler]. *)
Definition try_except {A} (body : Res A) (e : exn) (handler : Res A) : Res A :=
  match body with
  | Ok a => Ok a
  | Raise e' => if decide (e' = e) then handler else Raise e'
  end.

(** ** Python truthiness and time deltas *)

(** [if s:] on a [str]: the empty string is false.  On an [Optional[str]]
    the test is also false for [None]. *)
Definition truthy (s : string) : bool :=
  match s with
  | EmptyString => false
  | String _ _ => true
  end.

(** [timedelta(minutes=m)], in microseconds. *)
Definition timedelta_minutes (m : Z) : Z := m * 60 * 1000000.

(** [timedelta(seconds=s)], in microseconds. *)
Definition timedelta_seconds (s : Z) : Z := s * 1000000.

(** [timedelta(minutes=m)] for an [m] that the caller chooses: a delta of
    more than 999999999 days, either way, raises [OverflowError]. *)
Definition timedelta_max_days : Z := 999999999.

Definition timedelta_minutes_checked (m : Z) : Res Z :=
  if bool_decide (- timedelta_max_days ≤ (m * 60) `div` 86400 ≤ timedelta_max_days)%Z
  then Ok (timedelta_minutes m)
  else Raise OverflowError.

(** [datetime.min] and [datetime.max], in microseconds from the epoch:
    the first instant of year 1 and the last of year 9999. *)
Definition datetime_min : Z := -62135596800000000.
Definition datetime_max : Z := 253402300799999999.

(** [t - delta] on a [datetime]: a result outside the years 1 to 9999
    raises [OverflowError]. *)
Definition datetime_sub (t delta : Z) : Res Z :=
  if bool_decide (datetime_min ≤ t - delta ≤ datetime_max)%Z
  then Ok (t - delta)
  else Raise OverflowError.

(** ** Column types of the backend *)

(** An integer parameter of a statement is bound as a signed 64-bit value;
    a larger one raises [OverflowError] before the statement runs. *)
Definition fits_integer (n : Z) : bool :=
  bool_decide (- 2 ^ 63 ≤ n < 2 ^ 63)%Z.

(** [GenericIPAddressField] hands a text with a colon in it to
    [clean_ipv6_address] of [django.utils.ipv6], which gives the canonical
    spelling of an IPv6 address and rejects every other text ([None] here,
    [ValidationError] there).  The function is taken as an interface. *)
Class IPv6Validation : Type := {
  clean_ipv6_address : string → option string;
  (** the spelling it gives is that of an address, never the empty text *)
  clean_ipv6_address_nonempty :
    ∀ ip_str address, clean_ipv6_address ip_str = Some address → address ≠ ""
}.

Fixpoint has_colon (s : string) : bool :=
  match s with
  | EmptyString => false
  | String c s' => Ascii.eqb c ":"%char || has_colon s'
  end.

(** [get_prep_value]: the canonical spelling of a text that
    [clean_ipv6_address] accepts; any other text as it is. *)
Definition get_prep_value `{IPv6Validation} (value : string) : string :=
  if has_colon value
  then match clean_ipv6_address value with
       | Some address => address
       | None => value
       end
  else value.

(** What a [GenericIPAddressField] column without [null=True] stores: the
    prepared text, the empty text being bound as [NULL], which the column
    refuses. *)
Definition ip_column `{IPv6Validation} (value : string) : Res string :=
  if truthy (get_prep_value value) then Ok (get_prep_value value)
  else Raise IntegrityError.

Definition SESSION_TIMEOUT_MINUTES : Z := 30.
Definition HEARTBEAT_TIMEOUT_MINUTES : Z := 2.

(** ** The ORM calls used by the manager *)

Section ORM.
Context {R : Type}.
Context (P : R → Prop) `{!∀ r, Decision (P r)}.

(** [Model.objects.get(...)]: the single matching row. *)
Definition objects_get (tbl : list R) : Res R :=
  match filter P tbl with
  | [] => Raise DoesNotExist
  | [r] => Ok r
  | _ :: _ :: _ => Raise MultipleObjectsReturned
  end.

(** [Model.objects.filter(...).update(...)]: rewrites the matching rows in
    place and counts them. *)
Definition objects_update (f : R → R) (tbl : list R) : list R * nat :=
  ((λ r, if decide (P r) then f r else r) <$> tbl, length (filter P tbl)).

(** [Model.objects.filter(...).delete()]: the remaining rows and the number
    of rows deleted. *)
Definition objects_delete (tbl : list R) : list R * nat :=
  (filter (λ r, ¬ P r) tbl, length (filter P tbl)).

(** [Model.objects.filter(...).exists()]. *)
Definition objects_exists (tbl : list R) : bool :=
  match filter P tbl with
  | [] => false
  | _ :: _ => true
  end.
End ORM.

(** ** The friend-code codec

    [models.py] and [database_manager.py] both import [generate_friend_code]
    and [format_friend_code] from [friendcode.py]; the two functions are
    taken as an interface.  Either may raise, which [Profile.friend_code]
    guards against. *)

Class FriendCodeCodec : Type := {
  generate_friend_code : Z → string → Res Z;
  format_friend_code : Z → Res string
}.

(** ** Models *)

Inductive platform : Type := DS | DSi | Wii.

Module Console.
Record t : Type := mk {
  mac_address : string;
  user_id : string;
  device_name : string;
  platform_ : platform;
  enabled : bool;
  registered_at : Z;
  last_seen : Z
}.
End Console.

Module Profile.
Record t : Type := mk {
  profile_id : Z;
  user_id : string;
  game_id : string;
  gs_broadcast_code : string;
  uniquenick : string;
  cfc : string;
  enabled : bool;
  created_at : Z
}.

Definition set_cfc (code : string) (self : t) : t :=
  mk (profile_id self) (user_id self) (game_id self) (gs_broadcast_code self)
     (uniquenick self) code (enabled self) (created_at self).

(** The code handed to the codec by the [friend_code] property:
    [self.gs_broadcast_code if self.gs_broadcast_code else self.game_id]. *)
Definition game_code (self : t) : string :=
  if truthy (gs_broadcast_code self) then gs_broadcast_code self else game_id self.

(** The [friend_code] property; any exception gives ["N/A"]. *)
Definition friend_code `{FriendCodeCodec} (self : t) : string :=
  match res_bind (generate_friend_code (profile_id self) (game_code self))
                 format_friend_code with
  | Ok code => code
  | Raise _ => "N/A"
  end.
End Profile.

Module BannedItem.
Record t : Type := mk {
  ban_type : string;
  identifier : string;
  reason : string;
  banned_at : Z;
  expires_at : option Z;
  banned_by : string
}.

(** [is_active]: a [datetime] is always true in [if self.expires_at:], so
    the test only separates a stored date from [None]. *)
Definition is_active (self : t) (now : Z) : bool :=
  match expires_at self with
  | Some e => bool_decide (now < e)
  | None => true
  end.
End BannedItem.

Module GameServer.
Record t : Type := mk {
  server_id : string;
  game_name : string;
  host_profile : option Z;
  ip_address : string;
  port : Z;
  max_players : Z;
  current_players : Z;
  registered_at : Z;
  last_heartbeat : Z
}.

Definition is_online (self : t) (now : Z) : bool :=
  let threshold := now - timedelta_minutes 2 in
  bool_decide (last_heartbeat self > threshold).
End GameServer.

Module Session.
Record t : Type := mk {
  session_key : string;
  profile : Z;
  login_time : Z
}.

Definition is_active (self : t) (now : Z) : bool :=
  let threshold := now - timedelta_minutes 30 in
  bool_decide (login_time self > threshold).
End Session.

Module Pending.
Record t : Type := mk {
  id : Z;
  profile : Z;
  group_id : Z;
  created_at : Z
}.
End Pending.

Module NatNeg.
Record t : Type := mk {
  cookie : Z;
  client_addr : string;
  client_port : Z;
  created_at : Z
}.
End NatNeg.

(** ** The database

    One list of rows per table.  [profiles_seq] and [pending_seq] are the
    next values of the two auto-increment primary keys. *)

Record DB : Type := mkDB {
  consoles : list Console.t;
  profiles : list Profile.t;
  profiles_seq : Z;
  pending : list Pending.t;
  pending_seq : Z;
  natneg : list NatNeg.t;
  game_servers : list GameServer.t;
  banned : list BannedItem.t
}.

Definition empty_db : DB := mkDB [] [] 1 [] 1 [] [] [].

Definition with_profiles (tbl : list Profile.t) (seq : Z) (db : DB) : DB :=
  mkDB (consoles db) tbl seq (pending db) (pending_seq db)
       (natneg db) (game_servers db) (banned db).

Definition with_pending (tbl : list Pending.t) (seq : Z) (db : DB) : DB :=
  mkDB (consoles db) (profiles db) (profiles_seq db) tbl seq
       (natneg db) (game_servers db) (banned db).

Definition with_natneg (tbl : list NatNeg.t) (db : DB) : DB :=
  mkDB (consoles db) (profiles db) (profiles_seq db) (pending db) (pending_seq db)
       tbl (game_servers db) (banned db).

(** ** Operations that write: state and exceptions *)

Definition M (A : Type) : Type := DB → Res A * DB.

Global Instance M_ret : MRet M := λ A a db, (Ok a, db).

Global Instance M_bind : MBind M := λ A B k m db,
  match m db with
  | (Ok a, db') => k a db'
  | (Raise e, db') => (Raise e, db')
  end.

(** A computation that cannot touch the database. *)
Definition lift {A} (r : Res A) : M A := λ db, (r, db).

(** A read of the database. *)
Definition query {A} (q : DB → Res A) : M A := λ db, (q db, db).

(** [with transaction.atomic():] an exception leaving the block rolls the
    database back to its state on entry. *)
Definition atomic {A} (body : M A) : M A := λ db,
  match body db with
  | (Ok a, db') => (Ok a, db')
  | (Raise e, _) => (Raise e, db)
  end.

(** ** Keyword arguments of profile creation

    The [**kwargs] that reach a column of the record; an argument that is
    not passed leaves the column at its default. *)

Record ProfileKwargs : Type := mkKwargs {
  kw_gs_broadcast_code : option string;
  kw_uniquenick : option string;
  kw_cfc : option string;
  kw_enabled : option bool
}.

Definition no_kwargs : ProfileKwargs := mkKwargs None None None None.

Definition new_profile (pk : Z) (user_id game_id : string) (kwargs : ProfileKwargs)
    (now : Z) : Profile.t :=
  Profile.mk pk user_id game_id
    (default "" (kw_gs_broadcast_code kwargs))
    (default "" (kw_uniquenick kwargs))
    (default "" (kw_cfc kwargs))
    (default true (kw_enabled kwargs))
    now.

(** ** Row predicates used as lookups *)

Definition profile_pk (profile_id : Z) (p : Profile.t) : Prop :=
  Profile.profile_id p = profile_id.

Definition profile_uniquenick (uniquenick : string) (p : Profile.t) : Prop :=
  Profile.uniquenick p = uniquenick.

Definition profile_user_game (user_id game_id : string) (p : Profile.t) : Prop :=
  Profile.user_id p = user_id ∧ Profile.game_id p = game_id.

Definition pending_key (profile_id group_id : Z) (e : Pending.t) : Prop :=
  Pending.profile e = profile_id ∧ Pending.group_id e = group_id.

Definition natneg_pk (cookie : Z) (n : NatNeg.t) : Prop :=
  NatNeg.cookie n = cookie.

Definition banned_key (ban_type identifier : string) (b : BannedItem.t) : Prop :=
  BannedItem.ban_type b = ban_type ∧ BannedItem.identifier b = identifier.

Definition console_mac (mac_address : string) (c : Console.t) : Prop :=
  Console.mac_address c = mac_address.

Definition heartbeat_after (threshold : Z) (s : GameServer.t) : Prop :=
  GameServer.last_heartbeat s > threshold.

Definition server_game (game_name : string) (s : GameServer.t) : Prop :=
  GameServer.game_name s = game_name.

Global Instance profile_pk_dec k p : Decision (profile_pk k p).
Proof. unfold profile_pk. apply _. Defined.
Global Instance profile_uniquenick_dec k p : Decision (profile_uniquenick k p).
Proof. unfold profile_uniquenick. apply _. Defined.
Global Instance profile_user_game_dec u g p : Decision (profile_user_game u g p).
Proof. unfold profile_user_game. apply _. Defined.
Global Instance pending_key_dec k g e : Decision (pending_key k g e).
Proof. unfold pending_key. apply _. Defined.
Global Instance natneg_pk_dec k n : Decision (natneg_pk k n).
Proof. unfold natneg_pk. apply _. Defined.
Global Instance banned_key_dec t i b : Decision (banned_key t i b).
Proof. unfold banned_key. apply _. Defined.
Global Instance console_mac_dec m c : Decision (console_mac m c).
Proof. unfold console_mac. apply _. Defined.
Global Instance heartbeat_after_dec th s : Decision (heartbeat_after th s).
Proof. unfold heartbeat_after. apply _. Defined.
Global Instance server_game_dec g s : Decision (server_game g s).
Proof. unfold server_game. apply _. Defined.

(** ** Model managers: creation calls of the ORM *)

(** [Profile.objects.create(user_id=, game_id=, **kwargs)]: the pair
    [(user_id, game_id)] is [unique_together]. *)
Definition Profile_objects_create (user_id game_id : string) (kwargs : ProfileKwargs)
    (now : Z) : M Profile.t := λ db,
  if objects_exists (profile_user_game user_id game_id) (profiles db)
  then (Raise IntegrityError, db)
  else
    let profile := new_profile (profiles_seq db) user_id game_id kwargs now in
    (Ok profile, with_profiles (profiles db ++ [profile]) (profiles_seq db + 1) db).

(** [Profile.objects.get_or_create(user_id=, game_id=, defaults=kwargs)]. *)
Definition Profile_objects_get_or_create (user_id game_id : string)
    (kwargs : ProfileKwargs) (now : Z) : M (Profile.t * bool) := λ db,
  match objects_get (profile_user_game user_id game_id) (profiles db) with
  | Ok profile => (Ok (profile, false), db)
  | Raise DoesNotExist =>
      (profile ← Profile_objects_create user_id game_id kwargs now;
       mret (profile, true)) db
  | Raise e => (Raise e, db)
  end.

(** [profile.save(update_fields=['cfc'])]. *)
Definition Profile_save_cfc (profile : Profile.t) : M unit := λ db,
  let '(tbl, _) := objects_update (profile_pk (Profile.profile_id profile))
                     (Profile.set_cfc (Profile.cfc profile)) (profiles db) in
  (Ok (), with_profiles tbl (profiles_seq db) db).

(** [Pending.objects.get_or_create(profile=, group_id=)]. *)
Definition Pending_objects_get_or_create (profile : Profile.t) (group_id now : Z)
    : M (Pending.t * bool) := λ db,
  match objects_get (pending_key (Profile.profile_id profile) group_id) (pending db) with
  | Ok entry => (Ok (entry, false), db)
  | Raise DoesNotExist =>
      let entry := Pending.mk (pending_seq db) (Profile.profile_id profile) group_id now in
      (Ok (entry, true), with_pending (pending db ++ [entry]) (pending_seq db + 1) db)
  | Raise e => (Raise e, db)
  end.

(** [NatNeg.objects.update_or_create(cookie=, defaults={client_addr, client_port})]:
    an existing row keeps its creation time and takes the new endpoint.
    [cookie] and [client_port] are integer columns and [client_addr] is an
    address column: a value the column refuses raises and nothing is
    written.  The object returned carries the address as it was given, the
    row stored carries it as the column prepares it. *)
Definition NatNeg_objects_update_or_create `{IPv6Validation} (cookie : Z)
    (client_addr : string) (client_port now : Z) : M (NatNeg.t * bool) := λ db,
  if negb (fits_integer cookie && fits_integer client_port)
  then (Raise OverflowError, db)
  else
    match ip_column client_addr with
    | Raise e => (Raise e, db)
    | Ok stored_addr =>
        match objects_get (natneg_pk cookie) (natneg db) with
        | Ok row =>
            let set_defaults (addr : string) (r : NatNeg.t) :=
              NatNeg.mk (NatNeg.cookie r) addr client_port (NatNeg.created_at r) in
            let '(tbl, _) := objects_update (natneg_pk (NatNeg.cookie row))
                               (set_defaults stored_addr) (natneg db) in
            (Ok (set_defaults client_addr row, false), with_natneg tbl db)
        | Raise DoesNotExist =>
            (Ok (NatNeg.mk cookie client_addr client_port now, true),
             with_natneg (natneg db ++ [NatNeg.mk cookie stored_addr client_port now]) db)
        | Raise e => (Raise e, db)
        end
    end.

(** [list(qs)] of a [GameServer] query set: [Meta.ordering] is
    [-last_heartbeat]. *)
Definition later_heartbeat (a b : GameServer.t) : Prop :=
  (GameServer.last_heartbeat b ≤ GameServer.last_heartbeat a)%Z.

Global Instance later_heartbeat_dec a b : Decision (later_heartbeat a b).
Proof. unfold later_heartbeat. apply _. Defined.

Definition order_by_last_heartbeat_desc (qs : list GameServer.t) : list GameServer.t :=
  merge_sort later_heartbeat qs.

(** ** The database manager *)

Module DatabaseManager.
Section manager.
Context `{FriendCodeCodec} `{IPv6Validation}.

(** *** Profile management *)

Definition get_profile_by_id (profile_id : Z) (db : DB) : Res (option Profile.t) :=
  try_except
    (res_bind (objects_get (profile_pk profile_id) (profiles db)) (λ p, Ok (Some p)))
    DoesNotExist
    (Ok None).

Definition get_profile_by_uniquenick (uniquenick : string) (db : DB)
    : Res (option Profile.t) :=
  try_except
    (res_bind (objects_get (profile_uniquenick uniquenick) (profiles db)) (λ p, Ok (Some p)))
    DoesNotExist
    (Ok None).

Definition get_or_create_profile (user_id game_id : string) (kwargs : ProfileKwargs)
    (now : Z) : M Profile.t :=
  atomic (
    '(profile, created) ← Profile_objects_get_or_create user_id game_id kwargs now;
    if created : bool then
      fc ← lift (generate_friend_code (Profile.profile_id profile) game_id);
      code ← lift (format_friend_code fc);
      let profile := Profile.set_cfc code profile in
      _ ← Profile_save_cfc profile;
      mret profile
    else mret profile).

Definition create_profile (user_id game_id : string) (kwargs : ProfileKwargs)
    (now : Z) : M Profile.t :=
  profile ← Profile_objects_create user_id game_id kwargs now;
  fc ← lift (generate_friend_code (Profile.profile_id profile) game_id);
  code ← lift (format_friend_code fc);
  let profile := Profile.set_cfc code profile in
  _ ← Profile_save_cfc profile;
  mret profile.

(** *** Matchmaking *)

Definition add_to_pending (profile_id group_id now : Z) : M Pending.t :=
  profile ← query (λ db, objects_get (profile_pk profile_id) (profiles db));
  '(entry, _) ← Pending_objects_get_or_create profile group_id now;
  mret entry.

Definition remove_from_pending (profile_id group_id : Z) : M bool := λ db,
  let '(tbl, deleted) := objects_delete (pending_key profile_id group_id) (pending db) in
  (Ok (bool_decide (0 < deleted)%nat), with_pending tbl (pending_seq db) db).

(** *** NAT negotiation *)

Definition create_natneg (cookie : Z) (client_addr : string) (client_port now : Z)
    : M NatNeg.t :=
  '(row, _) ← NatNeg_objects_update_or_create cookie client_addr client_port now;
  mret row.

Definition get_natneg (cookie : Z) (db : DB) : Res (option NatNeg.t) :=
  try_except
    (res_bind (objects_get (natneg_pk cookie) (natneg db)) (λ n, Ok (Some n)))
    DoesNotExist
    (Ok None).

(** *** Game servers *)

Definition get_game_servers (game_name : option string) (now : Z) (db : DB)
    : list GameServer.t :=
  let threshold := now - timedelta_minutes HEARTBEAT_TIMEOUT_MINUTES in
  let qs := filter (heartbeat_after threshold) (game_servers db) in
  let qs :=
    match game_name with
    | Some name => if truthy name then filter (server_game name) qs else qs
    | None => qs
    end in
  order_by_last_heartbeat_desc qs.

(** *** Bans and consoles *)

Definition is_banned (ban_type identifier : string) (now : Z) (db : DB) : Res bool :=
  try_except
    (res_bind (objects_get (banned_key ban_type identifier) (banned db))
              (λ ban, Ok (BannedItem.is_active ban now)))
    DoesNotExist
    (Ok false).

Definition is_console_enabled (mac_address : string) (db : DB) : Res bool :=
  try_except
    (res_bind (objects_get (console_mac mac_address) (consoles db))
              (λ console, Ok (Console.enabled console)))
    DoesNotExist
    (Ok false).
End manager.
End DatabaseManager.

(** The row appended by a creation, once the codec has yielded [code], and
    the database the creation leaves. *)
Definition created_profile (db : DB) (user_id game_id : string)
    (kwargs : ProfileKwargs) (now : Z) (code : string) : Profile.t :=
  Profile.set_cfc code (new_profile (profiles_seq db) user_id game_id kwargs now).

Definition after_creation (db : DB) (p : Profile.t) : DB :=
  with_profiles (profiles db ++ [p]) (profiles_seq db + 1) db.

(** ** Uniqueness constraints of the schema *)

Definition profile_pair (p : Profile.t) : string * string :=
  (Profile.user_id p, Profile.game_id p).

Definition pending_pair (e : Pending.t) : Z * Z :=
  (Pending.profile e, Pending.group_id e).

Definition banned_pair (b : BannedItem.t) : string * string :=
  (BannedItem.ban_type b, BannedItem.identifier b).

(** [profiles]: primary key [profile_id] drawn from the sequence, and
    [unique_together = ['user_id', 'game_id']]. *)
Definition profiles_wf (db : DB) : Prop :=
  NoDup (Profile.profile_id <$> profiles db) ∧
  NoDup (profile_pair <$> profiles db) ∧
  Forall (λ p, Profile.profile_id p < profiles_seq db) (profiles db).

(** [pending]: [unique_together = ['profile', 'group_id']].  The primary
    key of the table is the matter of [pending_pk_wf]. *)
Definition pending_wf (db : DB) : Prop := NoDup (pending_pair <$> pending db).

(** [pending]: the auto-increment primary key [id], whose next value is
    [pending_seq]. *)
Definition pending_pk_wf (db : DB) : Prop :=
  NoDup (Pending.id <$> pending db) ∧
  Forall (λ e, Pending.id e < pending_seq db) (pending db).

(** [natneg]: primary key [cookie]. *)
Definition natneg_wf (db : DB) : Prop := NoDup (NatNeg.cookie <$> natneg db).

(** [banned]: [unique_together = ['ban_type', 'identifier']]. *)
Definition banned_wf (db : DB) : Prop := NoDup (banned_pair <$> banned db).

(** [consoles]: [mac_address] is [unique]. *)
Definition consoles_wf (db : DB) : Prop := NoDup (Console.mac_address <$> consoles db).

(** ** A codec instance

    Modelled from the spec: [friendcode.py] (the functions
    [generate_friend_code] and [format_friend_code]) is missing from the
    sources.  Section 4.1 describes the classic scheme: the numeric profile
    id is combined with the game code, a checksum is run over the
    combination, and the result is emitted as fixed-width decimal digits
    grouped for display, as in [1234-5678-9012].  The instance below follows
    that description with a CRC-8 over the four little-endian bytes of the
    profile id followed by the bytes of the game code; the seven low bits of
    the checksum sit above the 32-bit profile id.  It serves to run the
    operations on concrete inputs; the theorems hold for every codec. *)

Fixpoint crc8_shift (n : nat) (crc : Z) : Z :=
  match n with
  | O => crc
  | S n' =>
      let shifted := Z.land (Z.shiftl crc 1) 255 in
      crc8_shift n' (if Z.testbit crc 7 then Z.lxor shifted 7 else shifted)
  end.

Definition crc8 (buffer : list Z) : Z :=
  foldl (λ crc byte, crc8_shift 8 (Z.lxor crc byte)) 0 buffer.

Fixpoint string_bytes (s : string) : list Z :=
  match s with
  | EmptyString => []
  | String a s' => Z.of_N (Ascii.N_of_ascii a) :: string_bytes s'
  end.

Definition profile_id_bytes (profile_id : Z) : list Z :=
  (λ i, Z.land (Z.shiftr profile_id (8 * i)) 255) <$> [0; 1; 2; 3].

Definition spec_generate_friend_code (profile_id : Z) (game_code : string) : Res Z :=
  let crc := crc8 (profile_id_bytes profile_id ++ string_bytes game_code) in
  Ok (Z.lor (Z.shiftl (Z.land crc 127) 32) (Z.land profile_id 4294967295)).

Definition digit (d : Z) : Ascii.ascii := Ascii.ascii_of_N (Z.to_N (48 + d mod 10)).

Definition four_digits (n : Z) : string :=
  String (digit (n / 1000)) (String (digit (n / 100))
    (String (digit (n / 10)) (String (digit n) EmptyString))).

Definition spec_format_friend_code (fc : Z) : Res string :=
  Ok (four_digits (fc / 100000000) +:+ "-" +:+ four_digits (fc / 10000)
      +:+ "-" +:+ four_digits fc).

Definition spec_codec : FriendCodeCodec :=
  {| generate_friend_code := spec_generate_friend_code;
     format_friend_code := spec_format_friend_code |}.

(** ** An instance of the address interface

    [clean_ipv6_address] at the addresses the examples below use: the two
    spellings of one IPv6 address.  It serves to run the examples; every
    theorem holds for every instance. *)

Definition sample_clean_ipv6_address (ip_str : string) : option string :=
  if decide (ip_str = "2001:0DB8:0:0:0:0:0:1") then Some "2001:db8::1"
  else if decide (ip_str = "2001:db8::1") then Some "2001:db8::1"
  else None.

Definition sample_ipv6 : IPv6Validation.
Proof.
  refine {| clean_ipv6_address := sample_clean_ipv6_address |}.
  intros ip_str address. unfold sample_clean_ipv6_address.
  repeat case_decide; intros [= <-]; discriminate.
Defined.

(** ** Sample databases *)

(** The first profile written by the [create_testdata] command: it goes
    through [Profile.objects.create] directly, so [cfc] keeps its blank
    default. *)
Definition testdata_profile : Profile.t :=
  Profile.mk 1 "6818938419496" "ADAJ" "ADAJ42xxx7" "melonDS_ADAJ" "" true 0.

Definition testdata_console : Console.t :=
  Console.mk "00:09:bf:11:22:33" "6818938419496" "melonDS" DS true 0 0.

Definition disabled_console : Console.t :=
  Console.mk "00:16:56:83:31:f9" "2360575017065" "JonnyD" DS false 0 0.

(** The instant at which the sample data is read. *)
Definition testdata_now : Z := timedelta_minutes (60 * 24 * 30).

(** The three bans of [create_testdata]: permanent, expiring in seven days,
    expired for one day. *)
Definition testdata_bans : list BannedItem.t :=
  [ BannedItem.mk "ip" "192.168.1.666" "Suspicious activity" testdata_now None "admin";
    BannedItem.mk "mac" "00:de:ad:be:ef:00" "Hacking attempt" testdata_now
      (Some (testdata_now + timedelta_minutes (60 * 24 * 7))) "admin";
    BannedItem.mk "profile" "12345" "Cheating" testdata_now
      (Some (testdata_now - timedelta_minutes (60 * 24))) "admin" ].

Definition fresh_server : GameServer.t :=
  GameServer.mk "mariokartwii_4_1000" "mariokartwii" (Some 1) "192.168.1.10" 27000 12 8
    0 (testdata_now - timedelta_seconds 30).

Definition stale_server : GameServer.t :=
  GameServer.mk "pokemondpds_1_1000" "pokemondpds" (Some 1) "192.168.1.11" 27001 4 2
    0 (testdata_now - timedelta_minutes 2).

Definition testdata_db : DB :=
  mkDB [testdata_console; disabled_console] [testdata_profile] 2 [] 1 []
       [fresh_server; stale_server] testdata_bans.

(** * The rest of the manager, the serializers and the views

    The tables the operations above never touch are gathered in [Store],
    beside the database they extend.  The remaining static methods of
    [DatabaseManager] live in [Manager]; the methods of the REST layer keep
    the name of their class. *)

Module AllowList.
Record t : Type := mk {
  user_id : Z;
  mac_address : string;
  enabled : bool;
  added_at : Z;
  notes : string
}.
End AllowList.

Module DenyList.
Record t : Type := mk {
  user_id : Z;
  game_id : string;
  reason : string;
  banned_at : Z;
  banned_by : string
}.
End DenyList.

Module NASLogin.
Record t : Type := mk {
  user_id : string;
  auth_token : string;
  data : string;
  timestamp : Z;
  ip_address : string
}.
End NASLogin.

Record Store : Type := mkStore {
  core : DB;
  sessions : list Session.t;
  nas_logins : list NASLogin.t;
  allow_list : list AllowList.t;
  deny_list : list DenyList.t
}.

Definition with_sessions (tbl : list Session.t) (st : Store) : Store :=
  mkStore (core st) tbl (nas_logins st) (allow_list st) (deny_list st).

Definition with_nas_logins (tbl : list NASLogin.t) (st : Store) : Store :=
  mkStore (core st) (sessions st) tbl (allow_list st) (deny_list st).

Definition with_allow_list (tbl : list AllowList.t) (st : Store) : Store :=
  mkStore (core st) (sessions st) (nas_logins st) tbl (deny_list st).

Definition with_deny_list (tbl : list DenyList.t) (st : Store) : Store :=
  mkStore (core st) (sessions st) (nas_logins st) (allow_list st) tbl.

Definition with_consoles (tbl : list Console.t) (db : DB) : DB :=
  mkDB tbl (profiles db) (profiles_seq db) (pending db) (pending_seq db)
       (natneg db) (game_servers db) (banned db).

Definition with_game_servers (tbl : list GameServer.t) (db : DB) : DB :=
  mkDB (consoles db) (profiles db) (profiles_seq db) (pending db) (pending_seq db)
       (natneg db) tbl (banned db).

Definition with_banned (tbl : list BannedItem.t) (db : DB) : DB :=
  mkDB (consoles db) (profiles db) (profiles_seq db) (pending db) (pending_seq db)
       (natneg db) (game_servers db) tbl.

(** ** Query sets in their [Meta.ordering] *)

Section ordering.
Context {R : Type} (key : R → Z).

Definition later (a b : R) : Prop := (key b ≤ key a)%Z.

Global Instance later_dec a b : Decision (later a b).
Proof. unfold later. apply _. Defined.

(** [ordering = ['-key']]. *)
Definition order_by_desc (qs : list R) : list R := merge_sort later qs.
End ordering.

(** ** Further lookups *)

Definition session_pk (session_key : string) (s : Session.t) : Prop :=
  Session.session_key s = session_key.

Definition joined_session_pk (session_key : string) (row : Session.t * Profile.t) : Prop :=
  session_pk session_key row.1.

Definition login_before (threshold : Z) (s : Session.t) : Prop :=
  Session.login_time s < threshold.

Definition joined_login_since (cutoff : Z) (row : Session.t * Profile.t) : Prop :=
  Session.login_time row.1 >= cutoff.

Definition pending_group (group_id : Z) (e : Pending.t) : Prop :=
  Pending.group_id e = group_id.

Definition server_key (server_id : string) (s : GameServer.t) : Prop :=
  GameServer.server_id s = server_id.

Definition heartbeat_since (cutoff : Z) (s : GameServer.t) : Prop :=
  GameServer.last_heartbeat s >= cutoff.

Definition seen_since (cutoff : Z) (c : Console.t) : Prop :=
  Console.last_seen c >= cutoff.

Definition allow_pk (user_id : Z) (e : AllowList.t) : Prop :=
  AllowList.user_id e = user_id.

Definition deny_key (user_id : Z) (game_id : string) (e : DenyList.t) : Prop :=
  DenyList.user_id e = user_id ∧ DenyList.game_id e = game_id.

Definition nas_token (auth_token : string) (l : NASLogin.t) : Prop :=
  NASLogin.auth_token l = auth_token.

(** [expires_at__gt=now] or [expires_at__isnull=True]. *)
Definition expires_after_or_never (now : Z) (b : BannedItem.t) : Prop :=
  match BannedItem.expires_at b with
  | Some e => e > now
  | None => True
  end.

Global Instance session_pk_dec k s : Decision (session_pk k s).
Proof. unfold session_pk. apply _. Defined.
Global Instance joined_session_pk_dec k row : Decision (joined_session_pk k row).
Proof. unfold joined_session_pk. apply _. Defined.
Global Instance login_before_dec th s : Decision (login_before th s).
Proof. unfold login_before. apply _. Defined.
Global Instance joined_login_since_dec c row : Decision (joined_login_since c row).
Proof. unfold joined_login_since. apply _. Defined.
Global Instance pending_group_dec g e : Decision (pending_group g e).
Proof. unfold pending_group. apply _. Defined.
Global Instance server_key_dec k s : Decision (server_key k s).
Proof. unfold server_key. apply _. Defined.
Global Instance heartbeat_since_dec c s : Decision (heartbeat_since c s).
Proof. unfold heartbeat_since. apply _. Defined.
Global Instance seen_since_dec c x : Decision (seen_since c x).
Proof. unfold seen_since. apply _. Defined.
Global Instance allow_pk_dec u e : Decision (allow_pk u e).
Proof. unfold allow_pk. apply _. Defined.
Global Instance deny_key_dec u g e : Decision (deny_key u g e).
Proof. unfold deny_key. apply _. Defined.
Global Instance nas_token_dec t l : Decision (nas_token t l).
Proof. unfold nas_token. apply _. Defined.
Global Instance expires_after_or_never_dec now b : Decision (expires_after_or_never now b).
Proof. unfold expires_after_or_never. destruct (BannedItem.expires_at b); apply _. Defined.

(** ** Session keys

    [secrets.token_hex(16)] is the hexadecimal text of 16 bytes drawn from
    the system's entropy source; the bytes drawn are the argument [random]. *)

Definition hex_char (nibble : N) : Ascii.ascii :=
  Ascii.ascii_of_N (if (nibble <? 10)%N then 48 + nibble else 87 + nibble)%N.

Fixpoint token_hex (random : list Byte.byte) : string :=
  match random with
  | [] => EmptyString
  | b :: rest =>
      String (hex_char (Byte.to_N b / 16)%N)
        (String (hex_char (Byte.to_N b mod 16)%N) (token_hex rest))
  end.

(** ** Keyword arguments of the other creation calls *)

Record ConsoleKwargs : Type := mkConsoleKwargs {
  ckw_user_id : option string;
  ckw_device_name : option string;
  ckw_platform : option platform;
  ckw_enabled : option bool;
  ckw_last_seen : option Z
}.

Definition no_console_kwargs : ConsoleKwargs :=
  mkConsoleKwargs None None None None None.

(** A console created from [kwargs]: a text column without a default is
    blank, [platform] defaults to ['DS'], [enabled] to [True], and
    [last_seen] to the creation instant. *)
Definition new_console (mac_address : string) (kwargs : ConsoleKwargs) (now : Z)
    : Console.t :=
  Console.mk mac_address
    (default "" (ckw_user_id kwargs))
    (default "" (ckw_device_name kwargs))
    (default DS (ckw_platform kwargs))
    (default true (ckw_enabled kwargs))
    now
    (default now (ckw_last_seen kwargs)).

Definition set_last_seen (now : Z) (c : Console.t) : Console.t :=
  Console.mk (Console.mac_address c) (Console.user_id c) (Console.device_name c)
    (Console.platform_ c) (Console.enabled c) (Console.registered_at c) now.

Record GameServerKwargs : Type := mkServerKwargs {
  gkw_max_players : option Z;
  gkw_current_players : option Z
}.

Definition no_server_kwargs : GameServerKwargs := mkServerKwargs None None.

(** A [QuerySet.update] patch of a profile: a column that is not
    named keeps its value. *)
Definition patch_profile (kwargs : ProfileKwargs) (p : Profile.t) : Profile.t :=
  Profile.mk (Profile.profile_id p) (Profile.user_id p) (Profile.game_id p)
    (default (Profile.gs_broadcast_code p) (kw_gs_broadcast_code kwargs))
    (default (Profile.uniquenick p) (kw_uniquenick kwargs))
    (default (Profile.cfc p) (kw_cfc kwargs))
    (default (Profile.enabled p) (kw_enabled kwargs))
    (Profile.created_at p).

(** [not kwargs]: no column is named. *)
Definition kwargs_empty (kwargs : ProfileKwargs) : bool :=
  match kw_gs_broadcast_code kwargs, kw_uniquenick kwargs,
        kw_cfc kwargs, kw_enabled kwargs with
  | None, None, None, None => true
  | _, _, _, _ => false
  end.

(** ** Model managers of the further tables *)

Section upsert.
Context {R : Type}.
Context (P : R → Prop) `{!∀ r, Decision (P r)}.

(** [Model.objects.update_or_create(<lookup>, defaults=...)]: the row found
    under the lookup takes the defaults, a missing row is created from the
    lookup and the defaults. *)
Definition objects_update_or_create (set_defaults : R → R) (created : R)
    (tbl : list R) : Res (R * bool) * list R :=
  match objects_get P tbl with
  | Ok row => (Ok (set_defaults row, false), (objects_update P set_defaults tbl).1)
  | Raise DoesNotExist => (Ok (created, true), tbl ++ [created])
  | Raise e => (Raise e, tbl)
  end.

(** [Model.objects.create(...)] on a table with a unique column. *)
Definition objects_create_unique (row : R) (tbl : list R) : Res R * list R :=
  if objects_exists P tbl then (Raise IntegrityError, tbl)
  else (Ok row, tbl ++ [row]).
End upsert.

(** [Session.objects.select_related('profile')]: each session with the
    profile its foreign key points to. *)
Definition Session_select_related (st : Store) : list (Session.t * Profile.t) :=
  sessions st ≫= λ s,
    (λ p, (s, p)) <$> filter (profile_pk (Session.profile s)) (profiles (core st)).

(** The object an [update_or_create] hands back holds the address as the
    caller gave it; only the row stored holds it as the column prepares
    it. *)
Definition set_ip_address (ip_address : string) (r : GameServer.t) : GameServer.t :=
  GameServer.mk (GameServer.server_id r) (GameServer.game_name r)
    (GameServer.host_profile r) ip_address (GameServer.port r)
    (GameServer.max_players r) (GameServer.current_players r)
    (GameServer.registered_at r) (GameServer.last_heartbeat r).

(** [GameServer.objects.update_or_create(server_id=, defaults={...})]:
    [last_heartbeat] is [auto_now], so every save stamps it; [registered_at]
    is set on creation only.  [port], [max_players] and [current_players]
    are integer columns and [ip_address] is an address column: a value the
    column refuses raises and nothing is written. *)
Definition GameServer_objects_update_or_create `{IPv6Validation}
    (server_id game_name : string) (host_profile : Profile.t) (ip_address : string)
    (port : Z) (kwargs : GameServerKwargs) (now : Z) : M (GameServer.t * bool) := λ db,
  if negb (fits_integer port
           && from_option fits_integer true (gkw_max_players kwargs)
           && from_option fits_integer true (gkw_current_players kwargs))
  then (Raise OverflowError, db)
  else
    match ip_column ip_address with
    | Raise e => (Raise e, db)
    | Ok stored_address =>
        let set_defaults (r : GameServer.t) :=
          GameServer.mk (GameServer.server_id r) game_name
            (Some (Profile.profile_id host_profile)) stored_address port
            (default (GameServer.max_players r) (gkw_max_players kwargs))
            (default (GameServer.current_players r) (gkw_current_players kwargs))
            (GameServer.registered_at r) now in
        let created :=
          GameServer.mk server_id game_name (Some (Profile.profile_id host_profile))
            stored_address port
            (default 4 (gkw_max_players kwargs))
            (default 0 (gkw_current_players kwargs))
            now now in
        match objects_update_or_create (server_key server_id) set_defaults created
                (game_servers db) with
        | (Ok (server, is_new), tbl) =>
            (Ok (set_ip_address ip_address server, is_new), with_game_servers tbl db)
        | (Raise e, tbl) => (Raise e, with_game_servers tbl db)
        end
    end.

(** ** The remaining static methods of [DatabaseManager] *)

Module Manager.

(** *** Profile management *)

(** [update()] without an assignment issues no statement and reports no
    row. *)
Definition update_profile (profile_id : Z) (kwargs : ProfileKwargs) : M bool := λ db,
  if kwargs_empty kwargs then (Ok false, db)
  else
    let '(tbl, updated) :=
      objects_update (profile_pk profile_id) (patch_profile kwargs) (profiles db) in
    (Ok (bool_decide (0 < updated)%nat), with_profiles tbl (profiles_seq db) db).

(** *** Session management *)

Definition generate_session_key (random : list Byte.byte) : string :=
  token_hex random.

Definition create_session (profile_id : Z) (random : list Byte.byte) (now : Z)
    (st : Store) : Res string * Store :=
  match objects_get (profile_pk profile_id) (profiles (core st)) with
  | Raise e => (Raise e, st)
  | Ok profile =>
      let session_key := generate_session_key random in
      match objects_create_unique (session_pk session_key)
              (Session.mk session_key (Profile.profile_id profile) now)
              (sessions st) with
      | (Raise e, tbl) => (Raise e, with_sessions tbl st)
      | (Ok _, tbl) => (Ok session_key, with_sessions tbl st)
      end
  end.

Definition get_session (session_key : string) (st : Store)
    : Res (option (Session.t * Profile.t)) :=
  try_except
    (res_bind (objects_get (joined_session_pk session_key) (Session_select_related st))
              (λ row, Ok (Some row)))
    DoesNotExist
    (Ok None).

Definition get_profile_from_session (session_key : string) (st : Store)
    : Res (option Profile.t) :=
  res_bind (get_session session_key st) (λ session,
    Ok (match session with
        | Some row => Some row.2
        | None => None
        end)).

Definition delete_session (session_key : string) (st : Store) : Res bool * Store :=
  let '(tbl, deleted) := objects_delete (session_pk session_key) (sessions st) in
  (Ok (bool_decide (0 < deleted)%nat), with_sessions tbl st).

(** [max_age_minutes] is the caller's: the delta and the subtraction may
    raise [OverflowError], before any row is deleted. *)
Definition cleanup_old_sessions (max_age_minutes now : Z) (st : Store)
    : Res nat * Store :=
  match res_bind (timedelta_minutes_checked max_age_minutes) (datetime_sub now) with
  | Raise e => (Raise e, st)
  | Ok threshold =>
      let '(tbl, deleted) := objects_delete (login_before threshold) (sessions st) in
      (Ok deleted, with_sessions tbl st)
  end.

(** *** NAS logins *)

(** [ip_address] is an address column: the record stored holds the
    address as the column prepares it, the object returned holds it as it
    was given. *)
Definition create_nas_login `{IPv6Validation} (user_id auth_token data ip_address : string)
    (now : Z) (st : Store) : Res NASLogin.t * Store :=
  match ip_column ip_address with
  | Raise e => (Raise e, st)
  | Ok stored_address =>
      match objects_create_unique (nas_token auth_token)
              (NASLogin.mk user_id auth_token data now stored_address)
              (nas_logins st) with
      | (Ok _, tbl) =>
          (Ok (NASLogin.mk user_id auth_token data now ip_address),
           with_nas_logins tbl st)
      | (Raise e, tbl) => (Raise e, with_nas_logins tbl st)
      end
  end.

Definition get_nas_login_by_token (auth_token : string) (st : Store)
    : Res (option NASLogin.t) :=
  try_except
    (res_bind (objects_get (nas_token auth_token) (nas_logins st)) (λ l, Ok (Some l)))
    DoesNotExist
    (Ok None).

(** *** Matchmaking *)

Definition get_pending_profiles (group_id : Z) (db : DB) : list Profile.t :=
  let pending :=
    order_by_desc Pending.created_at (filter (pending_group group_id) (pending db)) in
  pending ≫= λ p, filter (profile_pk (Pending.profile p)) (profiles db).

(** *** NAT negotiation *)

Definition delete_natneg (cookie : Z) : M bool := λ db,
  let '(tbl, deleted) := objects_delete (natneg_pk cookie) (natneg db) in
  (Ok (bool_decide (0 < deleted)%nat), with_natneg tbl db).

(** *** Game servers *)

Definition register_game_server `{IPv6Validation} (server_id game_name : string)
    (profile_id : Z) (ip_address : string) (port : Z) (kwargs : GameServerKwargs)
    (now : Z) : M GameServer.t :=
  profile ← query (λ db, objects_get (profile_pk profile_id) (profiles db));
  '(server, _) ← GameServer_objects_update_or_create server_id game_name profile
                   ip_address port kwargs now;
  mret server.

(** *** Whitelist *)

Definition is_whitelisted (user_id : Z) (mac_address : string) (st : Store) : Res bool :=
  try_except
    (res_bind (objects_get (allow_pk user_id) (allow_list st))
              (λ entry, Ok (AllowList.enabled entry
                            && bool_decide (AllowList.mac_address entry = mac_address))))
    DoesNotExist
    (Ok false).

Definition add_to_whitelist (user_id : Z) (mac_address notes : string) (now : Z)
    (st : Store) : Res AllowList.t * Store :=
  let set_defaults (e : AllowList.t) :=
    AllowList.mk (AllowList.user_id e) mac_address true (AllowList.added_at e) notes in
  match objects_update_or_create (allow_pk user_id) set_defaults
          (AllowList.mk user_id mac_address true now notes) (allow_list st) with
  | (Ok (entry, _), tbl) => (Ok entry, with_allow_list tbl st)
  | (Raise e, tbl) => (Raise e, with_allow_list tbl st)
  end.

Definition remove_from_whitelist (user_id : Z) (st : Store) : Res bool * Store :=
  let '(tbl, deleted) := objects_delete (allow_pk user_id) (allow_list st) in
  (Ok (bool_decide (0 < deleted)%nat), with_allow_list tbl st).

(** *** Deny list *)

Definition is_denied (user_id : Z) (game_id : string) (st : Store) : bool :=
  objects_exists (deny_key user_id game_id) (deny_list st).

Definition add_to_denylist (user_id : Z) (game_id reason banned_by : string) (now : Z)
    (st : Store) : Res DenyList.t * Store :=
  let set_defaults (e : DenyList.t) :=
    DenyList.mk (DenyList.user_id e) (DenyList.game_id e) reason
      (DenyList.banned_at e) banned_by in
  match objects_update_or_create (deny_key user_id game_id) set_defaults
          (DenyList.mk user_id game_id reason now banned_by) (deny_list st) with
  | (Ok (entry, _), tbl) => (Ok entry, with_deny_list tbl st)
  | (Raise e, tbl) => (Raise e, with_deny_list tbl st)
  end.

Definition remove_from_denylist (user_id : Z) (game_id : string) (st : Store)
    : Res bool * Store :=
  let '(tbl, deleted) := objects_delete (deny_key user_id game_id) (deny_list st) in
  (Ok (bool_decide (0 < deleted)%nat), with_deny_list tbl st).

(** *** Generic bans *)

Definition add_ban (ban_type identifier reason : string) (expires_at : option Z)
    (banned_by : string) (now : Z) : M BannedItem.t := λ db,
  let set_defaults (b : BannedItem.t) :=
    BannedItem.mk (BannedItem.ban_type b) (BannedItem.identifier b) reason
      (BannedItem.banned_at b) expires_at banned_by in
  match objects_update_or_create (banned_key ban_type identifier) set_defaults
          (BannedItem.mk ban_type identifier reason now expires_at banned_by)
          (banned db) with
  | (Ok (ban, _), tbl) => (Ok ban, with_banned tbl db)
  | (Raise e, tbl) => (Raise e, with_banned tbl db)
  end.

Definition remove_ban (ban_type identifier : string) : M bool := λ db,
  let '(tbl, deleted) := objects_delete (banned_key ban_type identifier) (banned db) in
  (Ok (bool_decide (0 < deleted)%nat), with_banned tbl db).

(** *** Consoles *)

Definition get_or_create_console (mac_address : string) (kwargs : ConsoleKwargs)
    (now : Z) : M Console.t := λ db,
  match objects_get (console_mac mac_address) (consoles db) with
  | Ok console =>
      let console := set_last_seen now console in
      let '(tbl, _) := objects_update (console_mac mac_address)
                         (set_last_seen (Console.last_seen console)) (consoles db) in
      (Ok console, with_consoles tbl db)
  | Raise DoesNotExist =>
      let console := new_console mac_address kwargs now in
      (Ok console, with_consoles (consoles db ++ [console]) db)
  | Raise e => (Raise e, db)
  end.
End Manager.

(** ** The REST layer

    A view is modelled from the request parameters it reads to the response
    it builds; a list endpoint gives the rows of the query set it hands to
    its serializer. *)

Inductive Response (A : Type) : Type :=
  | HTTP_200 (data : A)
  | HTTP_400 (error : string)
  | HTTP_404 (error : string).
Arguments HTTP_200 {A} data.
Arguments HTTP_400 {A} error.
Arguments HTTP_404 {A} error.

Definition ONLINE_TIMEOUT_MINUTES : Z := 5.
Definition RECENT_TIMEOUT_MINUTES : Z := 60.

Module ConsoleSerializer.
Definition get_status (obj : Console.t) (now : Z) : string :=
  if bool_decide (Console.last_seen obj > now - timedelta_minutes ONLINE_TIMEOUT_MINUTES)
  then "online"
  else if bool_decide
            (Console.last_seen obj > now - timedelta_minutes RECENT_TIMEOUT_MINUTES)
  then "recent"
  else "offline".
End ConsoleSerializer.

Module ConsoleViewSet.
Definition online (now : Z) (db : DB) : list Console.t :=
  let cutoff := now - timedelta_minutes ONLINE_TIMEOUT_MINUTES in
  order_by_desc Console.last_seen (filter (seen_since cutoff) (consoles db)).
End ConsoleViewSet.

Module SessionViewSet.
Definition active (now : Z) (st : Store) : list (Session.t * Profile.t) :=
  let cutoff := now - timedelta_minutes SESSION_TIMEOUT_MINUTES in
  order_by_desc (λ row, Session.login_time row.1)
    (filter (joined_login_since cutoff) (Session_select_related st)).
End SessionViewSet.

Module GameServerViewSet.
Definition online (now : Z) (db : DB) : list GameServer.t :=
  let cutoff := now - timedelta_minutes HEARTBEAT_TIMEOUT_MINUTES in
  order_by_last_heartbeat_desc (filter (heartbeat_since cutoff) (game_servers db)).
End GameServerViewSet.

Inductive ban_check : Type :=
  | Banned (reason : string) (expires_at : option Z)
  | NotBanned.

Module BannedItemViewSet.
Definition active (now : Z) (db : DB) : list BannedItem.t :=
  order_by_desc BannedItem.banned_at (filter (expires_after_or_never now) (banned db)).

Definition check (ban_type identifier : option string) (now : Z) (db : DB)
    : Res (Response ban_check) :=
  match ban_type, identifier with
  | Some ban_type, Some identifier =>
      if negb (truthy ban_type) || negb (truthy identifier)
      then Ok (HTTP_400 "ban_type and identifier required")
      else
        try_except
          (res_bind (objects_get (banned_key ban_type identifier) (banned db))
             (λ ban,
                if BannedItem.is_active ban now
                then Ok (HTTP_200 (Banned (BannedItem.reason ban)
                                          (BannedItem.expires_at ban)))
                else Ok (HTTP_200 NotBanned)))
          DoesNotExist
          (Ok (HTTP_200 NotBanned))
  | _, _ => Ok (HTTP_400 "ban_type and identifier required")
  end.
End BannedItemViewSet.

(** [s.replace('-', '')]. *)
Fixpoint remove_dashes (s : string) : string :=
  match s with
  | EmptyString => EmptyString
  | String c s' =>
      if Ascii.eqb c "-"%char then remove_dashes s' else String c (remove_dashes s')
  end.

Module ProfileViewSet.
Section lookup.
Context `{FriendCodeCodec}.

Definition friend_code_is (fc_clean : string) (profile : Profile.t) : Prop :=
  remove_dashes (Profile.friend_code profile) = fc_clean.

Global Instance friend_code_is_dec fc p : Decision (friend_code_is fc p).
Proof. unfold friend_code_is. apply _. Defined.

(** The view iterates over [self.queryset], the query set held by the class
    itself, not over a copy of it.  A query set keeps the rows of its first
    evaluation, so the rows read by the first lookup of a process serve every
    later one; [result_cache] is that memory, [None] until the first
    evaluation.  The loop returns at the first row whose code matches. *)
Definition lookup_friend_code (fc : option string) (db : DB)
    (result_cache : option (list Profile.t))
    : Response Profile.t * option (list Profile.t) :=
  match fc with
  | None => (HTTP_400 "friend_code parameter required", result_cache)
  | Some fc =>
      if negb (truthy fc)
      then (HTTP_400 "friend_code parameter required", result_cache)
      else
        let fc_clean := remove_dashes fc in
        let rows :=
          match result_cache with
          | Some rows => rows
          | None => order_by_desc Profile.created_at (profiles db)
          end in
        (match filter (friend_code_is fc_clean) rows with
         | profile :: _ => HTTP_200 profile
         | [] => HTTP_404 "Profile not found"
         end,
         Some rows)
  end.
End lookup.
End ProfileViewSet.

(** ** Uniqueness constraints of the further tables *)

Definition deny_pair (e : DenyList.t) : Z * string :=
  (DenyList.user_id e, DenyList.game_id e).

(** [sessions]: primary key [session_key]. *)
Definition sessions_wf (st : Store) : Prop :=
  NoDup (Session.session_key <$> sessions st).

(** [nas_logins]: [auth_token] is [unique]. *)
Definition nas_logins_wf (st : Store) : Prop :=
  NoDup (NASLogin.auth_token <$> nas_logins st).

(** [allow_list]: primary key [user_id]. *)
Definition allow_list_wf (st : Store) : Prop :=
  NoDup (AllowList.user_id <$> allow_list st).

(** [deny_list]: [unique_together = ['user_id', 'game_id']]. *)
Definition deny_list_wf (st : Store) : Prop := NoDup (deny_pair <$> deny_list st).

(** [game_servers]: [server_id] is [unique]. *)
Definition game_servers_wf (db : DB) : Prop :=
  NoDup (GameServer.server_id <$> game_servers db).

(** ** Sample store *)

Definition sample_random : list Byte.byte :=
  [Byte.x00; Byte.x11; Byte.x22; Byte.x33; Byte.x44; Byte.x55; Byte.x66; Byte.x77;
   Byte.x88; Byte.x99; Byte.xaa; Byte.xbb; Byte.xcc; Byte.xdd; Byte.xee; Byte.xff].

Definition other_random : list Byte.byte :=
  [Byte.x0f; Byte.x1e; Byte.x2d; Byte.x3c; Byte.x4b; Byte.x5a; Byte.x69; Byte.x78;
   Byte.x87; Byte.x96; Byte.xa5; Byte.xb4; Byte.xc3; Byte.xd2; Byte.xe1; Byte.xf0].

(** A session opened exactly thirty minutes before [testdata_now], and one
    opened ten minutes before. *)
Definition boundary_session : Session.t :=
  Session.mk "0f1e2d3c4b5a69788796a5b4c3d2e1f0" 1 (testdata_now - timedelta_minutes 30).

Definition recent_session : Session.t :=
  Session.mk "ffeeddccbbaa99887766554433221100" 1 (testdata_now - timedelta_minutes 10).

Definition testdata_store : Store :=
  mkStore testdata_db [boundary_session; recent_session]
    [NASLogin.mk "6818938419496" "token_6818938419496_0_1000" "{}" 0 "192.168.1.100"]
    [AllowList.mk 1000 "00:09:bf:11:22:33" false 0 ""]
    [DenyList.mk 1000 "ADAJ" "Cheating" 0 "admin"].

(** ** Reading a session key back

    [is_lower_hex] is the alphabet of [token_hex]; [nibble_of_char] inverts
    [hex_char] and serves to show that a key determines the bytes drawn. *)

Definition is_lower_hex (c : ascii) : Prop :=
  let n := N_of_ascii c in
  ((48 ≤ n)%N ∧ (n ≤ 57)%N) ∨ ((97 ≤ n)%N ∧ (n ≤ 102)%N).

Definition nibble_of_char (c : ascii) : N :=
  let n := N_of_ascii c in
  if (n <? 58)%N then (n - 48)%N else (n - 87)%N.

Definition byte_of_hex (hi lo : ascii) : option Byte.byte :=
  Byte.of_N (16 * nibble_of_char hi + nibble_of_char lo)%N.

(** ** The schema constraints together *)

Definition db_wf (db : DB) : Prop :=
  profiles_wf db ∧ (pending_pk_wf db ∧ pending_wf db) ∧ natneg_wf db ∧ banned_wf db ∧
  consoles_wf db ∧ game_servers_wf db.

Definition store_wf (st : Store) : Prop :=
  db_wf (core st) ∧ sessions_wf st ∧ nas_logins_wf st ∧
  allow_list_wf st ∧ deny_list_wf st.

(** * Facts about the ORM calls *)

Section orm_facts.
Context {R : Type}.
Context (P : R → Prop) `{!∀ r, Decision (P r)}.

Lemma filter_no_match (tbl : list R) :
  (∀ r, r ∈ tbl → ¬ P r) → filter P tbl = [].
Proof.
  induction tbl as [|x tbl IH]; intros Hno; [done|].
  rewrite filter_cons_False.
  - apply IH. intros r Hr. apply Hno. by right.
  - apply Hno. by left.
Qed.

Lemma filter_all_match (tbl : list R) :
  (∀ r, r ∈ tbl → P r) → filter P tbl = tbl.
Proof.
  induction tbl as [|x tbl IH]; intros Hall; [done|].
  rewrite filter_cons_True.
  - f_equal. apply IH. intros r Hr. apply Hall. by right.
  - apply Hall. by left.
Qed.

(** With a unique key that [P] pins down, a matching row is the only one. *)
Lemma filter_unique_key {K} (key : R → K) (tbl : list R) (r : R) :
  NoDup (key <$> tbl) →
  (∀ a b, P a → P b → key a = key b) →
  r ∈ tbl → P r →
  filter P tbl = [r].
Proof.
  intros Hnd Hkey.
  induction tbl as [|x tbl IH]; intros Hin HP.
  - by apply elem_of_nil in Hin.
  - rewrite fmap_cons in Hnd. apply NoDup_cons in Hnd as [Hx Hnd].
    apply elem_of_cons in Hin as [->|Hin].
    + rewrite filter_cons_True by done. f_equal.
      apply filter_no_match. intros y Hy HPy. apply Hx.
      rewrite (Hkey x y HP HPy). by apply list_elem_of_fmap_2.
    + rewrite filter_cons_False; [by apply IH|].
      intros HPx. apply Hx. rewrite (Hkey x r HPx HP).
      by apply list_elem_of_fmap_2.
Qed.

Lemma objects_get_no_match (tbl : list R) :
  (∀ r, r ∈ tbl → ¬ P r) → objects_get P tbl = Raise DoesNotExist.
Proof. intros Hno. unfold objects_get. by rewrite filter_no_match. Qed.

Lemma objects_get_unique {K} (key : R → K) (tbl : list R) (r : R) :
  NoDup (key <$> tbl) →
  (∀ a b, P a → P b → key a = key b) →
  r ∈ tbl → P r →
  objects_get P tbl = Ok r.
Proof.
  intros Hnd Hkey Hin HP. unfold objects_get.
  by rewrite (filter_unique_key key tbl r).
Qed.

(** Under a unique key, [get] either finds one row or none. *)
Lemma objects_get_cases {K} (key : R → K) (tbl : list R) :
  NoDup (key <$> tbl) →
  (∀ a b, P a → P b → key a = key b) →
  (∃ r, r ∈ tbl ∧ P r ∧ filter P tbl = [r] ∧ objects_get P tbl = Ok r) ∨
  ((∀ r, r ∈ tbl → ¬ P r) ∧ filter P tbl = [] ∧
   objects_get P tbl = Raise DoesNotExist).
Proof.
  intros Hnd Hkey.
  destruct (decide (Exists P tbl)) as [Hex|Hno].
  - left. apply Exists_exists in Hex as (r & Hin & HP). exists r.
    split_and!; [done|done|by apply (filter_unique_key key)|
                 by apply (objects_get_unique key)].
  - right. assert (∀ r, r ∈ tbl → ¬ P r) as Hall.
    { intros r Hin HP. apply Hno, Exists_exists. eauto. }
    split_and!; [done|by apply filter_no_match|by apply objects_get_no_match].
Qed.

Lemma filter_delete_none (tbl : list R) :
  filter P (filter (λ r, ¬ P r) tbl) = [].
Proof.
  apply filter_no_match. intros r Hr HP.
  apply list_elem_of_filter in Hr as [Hn _]. by apply Hn.
Qed.
End orm_facts.

(** * Sessions: the 30-minute window *)

(** C4: a session is active exactly while [now - login_time] is under 30
    minutes, counted from the stored login time; a login 29m59s old is
    active and one exactly 30m00s old is not. *)
Theorem session_is_active_window (s : Session.t) (now : Z) (key : string) (pid : Z) :
  (Session.is_active s now = true ↔
     now - Session.login_time s < timedelta_minutes SESSION_TIMEOUT_MINUTES) ∧
  Session.is_active
    (Session.mk key pid (now - (timedelta_minutes 29 + timedelta_seconds 59))) now = true ∧
  Session.is_active (Session.mk key pid (now - timedelta_minutes 30)) now = false.
Proof.
  unfold Session.is_active, SESSION_TIMEOUT_MINUTES, timedelta_minutes,
    timedelta_seconds. cbn [Session.login_time].
  split_and!.
  - rewrite bool_decide_eq_true. lia.
  - apply bool_decide_eq_true. lia.
  - apply bool_decide_eq_false. lia.
Qed.

(** * Profile lookups *)

(** C3, as the code has it: when no profile is stored under the profile id
    (respectively the unique nick), both lookups return [None] and raise
    nothing. *)
Theorem lookup_miss_returns_None (db : DB) (profile_id : Z) (uniquenick : string)
    (Hid : ∀ p, p ∈ profiles db → Profile.profile_id p ≠ profile_id)
    (Hnick : ∀ p, p ∈ profiles db → Profile.uniquenick p ≠ uniquenick) :
  DatabaseManager.get_profile_by_id profile_id db = Ok None ∧
  DatabaseManager.get_profile_by_uniquenick uniquenick db = Ok None.
Proof.
  unfold DatabaseManager.get_profile_by_id, DatabaseManager.get_profile_by_uniquenick.
  rewrite !objects_get_no_match; [done| |].
  - intros p Hp. by apply Hnick.
  - intros p Hp. by apply Hid.
Qed.

Lemma lookup_miss_returns_None_witness :
  (∀ p, p ∈ profiles testdata_db → Profile.profile_id p ≠ 7) ∧
  (∀ p, p ∈ profiles testdata_db → Profile.uniquenick p ≠ "nobody") ∧
  DatabaseManager.get_profile_by_id 7 testdata_db = Ok None ∧
  DatabaseManager.get_profile_by_uniquenick "nobody" testdata_db = Ok None.
Proof.
  assert (∀ p, p ∈ profiles testdata_db → Profile.profile_id p ≠ 7) as Hid.
  { intros p Hp. apply list_elem_of_singleton in Hp as ->. discriminate. }
  assert (∀ p, p ∈ profiles testdata_db → Profile.uniquenick p ≠ "nobody") as Hnick.
  { intros p Hp. apply list_elem_of_singleton in Hp as ->. discriminate. }
  split; [exact Hid|]. split; [exact Hnick|].
  exact (lookup_miss_returns_None testdata_db 7 "nobody" Hid Hnick).
Defined.

(** C3 as stated fails: on a database without profiles the two lookups
    return [None]; they do not raise [DoesNotExist]. *)
Lemma lookup_miss_does_not_raise :
  DatabaseManager.get_profile_by_id 7 empty_db = Ok None ∧
  DatabaseManager.get_profile_by_id 7 empty_db ≠ Raise DoesNotExist ∧
  DatabaseManager.get_profile_by_uniquenick "nobody" empty_db = Ok None ∧
  DatabaseManager.get_profile_by_uniquenick "nobody" empty_db ≠ Raise DoesNotExist.
Proof. split_and!; [reflexivity|discriminate|reflexivity|discriminate]. Qed.

(** A stored profile is found under its primary key. *)
Lemma get_profile_by_id_hit (db : DB) (p : Profile.t) :
  NoDup (Profile.profile_id <$> profiles db) →
  p ∈ profiles db →
  DatabaseManager.get_profile_by_id (Profile.profile_id p) db = Ok (Some p).
Proof.
  intros Hnd Hin. unfold DatabaseManager.get_profile_by_id.
  rewrite (objects_get_unique _ Profile.profile_id _ p); try done.
  unfold profile_pk. congruence.
Qed.

(** * Consoles *)

(** C10: an unknown MAC address gives [False] without an exception, and a
    registered console gives its [enabled] flag. *)
Theorem is_console_enabled_fail_closed (db : DB) (Hwf : consoles_wf db) :
  (∀ mac, (∀ c, c ∈ consoles db → Console.mac_address c ≠ mac) →
     DatabaseManager.is_console_enabled mac db = Ok false) ∧
  (∀ c, c ∈ consoles db →
     DatabaseManager.is_console_enabled (Console.mac_address c) db
       = Ok (Console.enabled c)).
Proof.
  unfold DatabaseManager.is_console_enabled. split.
  - intros mac Hno. rewrite objects_get_no_match; [done|].
    intros c Hc. by apply Hno.
  - intros c Hc.
    rewrite (objects_get_unique _ Console.mac_address _ c); try done.
    unfold console_mac. congruence.
Qed.

Lemma is_console_enabled_fail_closed_witness :
  consoles_wf testdata_db ∧
  DatabaseManager.is_console_enabled "00:00:00:00:00:00" testdata_db = Ok false ∧
  DatabaseManager.is_console_enabled "00:09:bf:11:22:33" testdata_db = Ok true ∧
  DatabaseManager.is_console_enabled "00:16:56:83:31:f9" testdata_db = Ok false.
Proof.
  assert (consoles_wf testdata_db) as Hwf.
  { unfold consoles_wf. apply (bool_decide_unpack _). vm_compute. exact I. }
  split; [exact Hwf|].
  destruct (is_console_enabled_fail_closed testdata_db Hwf) as [Hmiss Hhit].
  split_and!.
  - apply Hmiss. intros c Hc. cbn in Hc.
    apply elem_of_cons in Hc as [->|Hc]; [discriminate|].
    apply list_elem_of_singleton in Hc as ->. discriminate.
  - apply (Hhit testdata_console). cbn. by left.
  - apply (Hhit disabled_console). cbn. right. by left.
Defined.

(** * Generic bans *)

(** C5: [is_banned] answers [False] when no row has the composite key; when
    one has, it answers [True] exactly if the row has no expiry or the expiry
    lies after [now]. *)
Theorem is_banned_active_window (db : DB) (ban_type identifier : string) (now : Z)
    (Hwf : banned_wf db) :
  ((∀ b, b ∈ banned db → ¬ banned_key ban_type identifier b) →
     DatabaseManager.is_banned ban_type identifier now db = Ok false) ∧
  (∀ b, b ∈ banned db → banned_key ban_type identifier b →
     ∃ answer, DatabaseManager.is_banned ban_type identifier now db = Ok answer ∧
       (answer = true ↔
          BannedItem.expires_at b = None ∨
          ∃ e, BannedItem.expires_at b = Some e ∧ now < e)).
Proof.
  unfold DatabaseManager.is_banned. split.
  - intros Hno. by rewrite objects_get_no_match.
  - intros b Hb Hkey.
    rewrite (objects_get_unique _ banned_pair _ b); try done.
    + cbn. eexists; split; [done|].
      unfold BannedItem.is_active. destruct (BannedItem.expires_at b) as [e|].
      * rewrite bool_decide_eq_true. split.
        -- intros Hlt. right. by exists e.
        -- intros [?|(e' & [= <-] & Hlt)]; done.
      * split; [by left|done].
    + unfold banned_key, banned_pair. intros x y [-> ->] [-> ->]. done.
Qed.

Lemma is_banned_active_window_witness :
  banned_wf testdata_db ∧
  DatabaseManager.is_banned "ip" "1.2.3.4" testdata_now testdata_db = Ok false ∧
  DatabaseManager.is_banned "ip" "192.168.1.666" testdata_now testdata_db = Ok true ∧
  DatabaseManager.is_banned "profile" "12345" testdata_now testdata_db = Ok false.
Proof.
  assert (banned_wf testdata_db) as Hwf.
  { unfold banned_wf. apply (bool_decide_unpack _). vm_compute. exact I. }
  split; [exact Hwf|]. split_and!.
  - apply (is_banned_active_window testdata_db "ip" "1.2.3.4" testdata_now Hwf).
    apply (proj1 (Forall_forall _ _)).
    apply (bool_decide_unpack _). vm_compute. exact I.
  - reflexivity.
  - reflexivity.
Defined.

(** * Rows rewritten in place and rows appended *)

Section orm_update_facts.
Context {R : Type}.
Context (P : R → Prop) `{!∀ r, Decision (P r)}.

Lemma filter_fmap_stable (f : R → R) (tbl : list R) :
  (∀ r, P (f r) ↔ P r) → filter P (f <$> tbl) = f <$> filter P tbl.
Proof.
  intros Hf. induction tbl as [|x tbl IH]; [done|].
  rewrite fmap_cons. destruct (decide (P x)) as [HP|HP].
  - rewrite !filter_cons_True by (done || by apply Hf).
    by rewrite fmap_cons, IH.
  - rewrite !filter_cons_False by (done || by rewrite Hf). done.
Qed.

Lemma filter_snoc_fresh (tbl : list R) (r : R) :
  filter P tbl = [] → P r → filter P (tbl ++ [r]) = [r].
Proof.
  intros Hnone HP. rewrite filter_app, Hnone. by apply filter_singleton_True.
Qed.

Lemma NoDup_snoc_fresh {K} (key : R → K) (tbl : list R) (r : R) :
  NoDup (key <$> tbl) →
  (∀ x, x ∈ tbl → key x ≠ key r) →
  NoDup (key <$> (tbl ++ [r])).
Proof.
  intros Hnd Hfresh. rewrite fmap_app. apply NoDup_app. split_and!; [done| |].
  - intros k Hk Hk'. apply list_elem_of_fmap in Hk as (x & -> & Hx).
    apply list_elem_of_singleton in Hk'. by apply (Hfresh x).
  - apply NoDup_singleton.
Qed.
End orm_update_facts.

(** * Matchmaking queue *)

Lemma bind_unfold {A B} (m : M A) (k : A → M B) (db : DB) :
  (m ≫= k) db =
    match m db with
    | (Ok a, db') => k a db'
    | (Raise e, db') => (Raise e, db')
    end.
Proof. reflexivity. Qed.


Lemma profile_lookup_hit (db : DB) (p : Profile.t) :
  NoDup (Profile.profile_id <$> profiles db) →
  p ∈ profiles db →
  objects_get (profile_pk (Profile.profile_id p)) (profiles db) = Ok p.
Proof.
  intros Hnd Hin. apply (objects_get_unique _ Profile.profile_id); try done.
  unfold profile_pk. congruence.
Qed.



(** C9: for a profile id that is not stored, [add_to_pending] raises
    [Profile.DoesNotExist] and leaves the database, the queue included, as it
    was. *)
Theorem add_to_pending_unknown_profile (db : DB) (profile_id group_id now : Z)
    (Hmiss : ∀ p, p ∈ profiles db → Profile.profile_id p ≠ profile_id) :
  DatabaseManager.add_to_pending profile_id group_id now db = (Raise DoesNotExist, db).
Proof.
  unfold DatabaseManager.add_to_pending. rewrite bind_unfold. unfold query.
  rewrite objects_get_no_match; [done|].
  intros p Hp. by apply Hmiss.
Qed.

Lemma add_to_pending_unknown_profile_witness :
  (∀ p, p ∈ profiles testdata_db → Profile.profile_id p ≠ 5) ∧
  DatabaseManager.add_to_pending 5 9 testdata_now testdata_db
    = (Raise DoesNotExist, testdata_db) ∧
  pending (DatabaseManager.add_to_pending 5 9 testdata_now testdata_db).2 = [].
Proof.
  assert (∀ p, p ∈ profiles testdata_db → Profile.profile_id p ≠ 5) as Hmiss.
  { intros p Hp. apply list_elem_of_singleton in Hp as ->. discriminate. }
  split; [exact Hmiss|].
  rewrite (add_to_pending_unknown_profile testdata_db 5 9 testdata_now Hmiss).
  split; reflexivity.
Defined.



(** * NAT negotiation *)

Lemma natneg_pk_cookie (cookie : Z) (a b : NatNeg.t) :
  natneg_pk cookie a → natneg_pk cookie b → NatNeg.cookie a = NatNeg.cookie b.
Proof. unfold natneg_pk. congruence. Qed.


Lemma fits_integer_true (n : Z) : (- 2 ^ 63 ≤ n < 2 ^ 63)%Z → fits_integer n = true.
Proof. intros Hn. unfold fits_integer. by apply bool_decide_eq_true. Qed.

Lemma get_prep_value_no_colon `{IPv6Validation} (value : string) :
  has_colon value = false → get_prep_value value = value.
Proof. intros Hplain. unfold get_prep_value. by rewrite Hplain. Qed.

Lemma ip_column_nonempty `{IPv6Validation} (value : string) :
  value ≠ "" → ip_column value = Ok (get_prep_value value).
Proof.
  intros Hvalue. unfold ip_column.
  assert (get_prep_value value ≠ "") as Hprep.
  { unfold get_prep_value. destruct (has_colon value); [|done].
    destruct (clean_ipv6_address value) as [address|] eqn:Hclean; [|done].
    by apply (clean_ipv6_address_nonempty value). }
  by destruct (get_prep_value value).
Qed.





(** The scenario of the specification, run: the row keeps its creation time
    and takes the port of the second call. *)
Example natneg_scenario :
  let db1 := (@DatabaseManager.create_natneg sample_ipv6 42 "1.1.1.1" 1000 10 empty_db).2 in
  let db2 := (@DatabaseManager.create_natneg sample_ipv6 42 "1.1.1.1" 2000 20 db1).2 in
  natneg db2 = [NatNeg.mk 42 "1.1.1.1" 2000 10].
Proof. reflexivity. Qed.

(** An IPv6 address is read back in its canonical spelling, not in the
    spelling it was registered with. *)
Example natneg_ipv6_scenario :
  let db1 := (@DatabaseManager.create_natneg sample_ipv6 42 "2001:0DB8:0:0:0:0:0:1" 1000
                10 empty_db).2 in
  DatabaseManager.get_natneg 42 db1 = Ok (Some (NatNeg.mk 42 "2001:db8::1" 1000 10)).
Proof. reflexivity. Qed.

(** * Game servers: the 2-minute heartbeat window *)

Global Instance later_heartbeat_total : Total later_heartbeat.
Proof. intros a b. unfold later_heartbeat. lia. Qed.

(** The rows selected before ordering. *)
Lemma get_game_servers_Permutation (game_name : option string) (now : Z) (db : DB) :
  DatabaseManager.get_game_servers game_name now db ≡ₚ
    match game_name with
    | Some name =>
        if truthy name
        then filter (server_game name)
               (filter (heartbeat_after (now - timedelta_minutes 2)) (game_servers db))
        else filter (heartbeat_after (now - timedelta_minutes 2)) (game_servers db)
    | None => filter (heartbeat_after (now - timedelta_minutes 2)) (game_servers db)
    end.
Proof.
  unfold DatabaseManager.get_game_servers, order_by_last_heartbeat_desc.
  by rewrite merge_sort_Permutation.
Qed.

(** The list comes out latest heartbeat first. *)
Lemma get_game_servers_Sorted (game_name : option string) (now : Z) (db : DB) :
  Sorted later_heartbeat (DatabaseManager.get_game_servers game_name now db).
Proof.
  unfold DatabaseManager.get_game_servers, order_by_last_heartbeat_desc.
  apply Sorted_merge_sort, _.
Qed.

Lemma truthy_nonempty (s : string) : truthy s = true ↔ s ≠ "".
Proof. destruct s; cbn; split; (done || congruence). Qed.

(** C8, as the code has it: [get_game_servers] returns the stored servers
    whose heartbeat is less than 2 minutes old (exactly 2 minutes is out),
    restricted to [game_name] when a non-empty one is given; an empty
    [game_name] is treated like [None]. *)
Theorem get_game_servers_window (game_name : option string) (now : Z) (db : DB)
    (s : GameServer.t) :
  s ∈ DatabaseManager.get_game_servers game_name now db ↔
    s ∈ game_servers db ∧
    now - GameServer.last_heartbeat s < timedelta_minutes HEARTBEAT_TIMEOUT_MINUTES ∧
    match game_name with
    | Some name => name = "" ∨ GameServer.game_name s = name
    | None => True
    end.
Proof.
  rewrite get_game_servers_Permutation.
  unfold HEARTBEAT_TIMEOUT_MINUTES.
  assert (heartbeat_after (now - timedelta_minutes 2) s ↔
          now - GameServer.last_heartbeat s < timedelta_minutes 2) as Hwin.
  { unfold heartbeat_after. lia. }
  destruct game_name as [name|].
  - destruct (truthy name) eqn:Hname.
    + apply truthy_nonempty in Hname.
      rewrite !list_elem_of_filter, Hwin. unfold server_game.
      split; [intros (? & ? & ?); auto|].
      intros (? & ? & [?|?]); done.
    + assert (name = "") as -> by (by destruct name).
      rewrite list_elem_of_filter, Hwin.
      split; [intros [? ?]; auto|]. intros (? & ? & _). done.
  - rewrite list_elem_of_filter, Hwin. split; [intros [? ?]; auto|].
    intros (? & ? & _). done.
Qed.

(** Without a game name the list holds the servers that [is_online] calls
    online. *)
Lemma get_game_servers_is_online (now : Z) (db : DB) (s : GameServer.t) :
  s ∈ DatabaseManager.get_game_servers None now db ↔
    s ∈ game_servers db ∧ GameServer.is_online s now = true.
Proof.
  rewrite get_game_servers_Permutation, list_elem_of_filter.
  unfold GameServer.is_online, heartbeat_after. rewrite bool_decide_eq_true.
  tauto.
Qed.

(** C8 as stated fails for the empty name: the call returns a server of
    another game. *)
Lemma get_game_servers_empty_name_unrestricted :
  ¬ (∀ s, s ∈ DatabaseManager.get_game_servers (Some "") testdata_now testdata_db →
          GameServer.game_name s = "").
Proof.
  intros Hclaim. specialize (Hclaim fresh_server).
  assert (fresh_server ∈ DatabaseManager.get_game_servers (Some "") testdata_now testdata_db)
    as Hin by (vm_compute; left).
  specialize (Hclaim Hin). discriminate.
Qed.

(** The window on the sample data: 30 seconds old is listed, exactly two
    minutes old is not. *)
Example get_game_servers_boundary :
  DatabaseManager.get_game_servers None testdata_now testdata_db = [fresh_server] ∧
  DatabaseManager.get_game_servers (Some "mariokartwii") testdata_now testdata_db
    = [fresh_server] ∧
  DatabaseManager.get_game_servers (Some "pokemondpds") testdata_now testdata_db = [] ∧
  GameServer.is_online stale_server testdata_now = false.
Proof. split_and!; reflexivity. Qed.

(** * Profile creation and the cached friend code *)

Lemma fmap_rewrite_no_match {R} (P : R → Prop) `{!∀ r, Decision (P r)}
    (f : R → R) (tbl : list R) :
  (∀ r, r ∈ tbl → ¬ P r) →
  (λ r, if decide (P r) then f r else r) <$> tbl = tbl.
Proof.
  intros Hno. induction tbl as [|x tbl IH]; [done|].
  rewrite fmap_cons, IH.
  - rewrite decide_False; [done|]. apply Hno. by left.
  - intros r Hr. apply Hno. by right.
Qed.

Lemma profile_user_game_pair (user_id game_id : string) (a b : Profile.t) :
  profile_user_game user_id game_id a → profile_user_game user_id game_id b →
  profile_pair a = profile_pair b.
Proof. unfold profile_user_game, profile_pair. intros [-> ->] [-> ->]. done. Qed.

Section creation.
Context `{FriendCodeCodec}.

Lemma Profile_objects_create_fresh (db : DB) (user_id game_id : string)
    (kwargs : ProfileKwargs) (now : Z) :
  (∀ p, p ∈ profiles db → ¬ profile_user_game user_id game_id p) →
  Profile_objects_create user_id game_id kwargs now db =
    (Ok (new_profile (profiles_seq db) user_id game_id kwargs now),
     after_creation db (new_profile (profiles_seq db) user_id game_id kwargs now)).
Proof.
  intros Hfresh. unfold Profile_objects_create, objects_exists.
  by rewrite filter_no_match.
Qed.

(** Writing [cfc] on the row just appended touches that row only. *)
Lemma Profile_save_cfc_created (db : DB) (user_id game_id : string)
    (kwargs : ProfileKwargs) (now : Z) (code : string) :
  Forall (λ p, Profile.profile_id p < profiles_seq db) (profiles db) →
  let row := new_profile (profiles_seq db) user_id game_id kwargs now in
  Profile_save_cfc (Profile.set_cfc code row) (after_creation db row) =
    (Ok (), after_creation db (Profile.set_cfc code row)).
Proof.
  intros Hseq row. unfold Profile_save_cfc, objects_update, after_creation.
  cbn. rewrite fmap_app, fmap_rewrite_no_match.
  - cbn. rewrite decide_True by done. done.
  - intros r Hr. rewrite Forall_forall in Hseq. specialize (Hseq r Hr).
    unfold profile_pk. lia.
Qed.

Lemma create_profile_fresh (db : DB) (user_id game_id : string)
    (kwargs : ProfileKwargs) (now fc : Z) (code : string) :
  Forall (λ p, Profile.profile_id p < profiles_seq db) (profiles db) →
  (∀ p, p ∈ profiles db → ¬ profile_user_game user_id game_id p) →
  generate_friend_code (profiles_seq db) game_id = Ok fc →
  format_friend_code fc = Ok code →
  DatabaseManager.create_profile user_id game_id kwargs now db =
    (Ok (created_profile db user_id game_id kwargs now code),
     after_creation db (created_profile db user_id game_id kwargs now code)).
Proof.
  intros Hseq Hfresh Hgen Hfmt. unfold DatabaseManager.create_profile.
  rewrite bind_unfold, Profile_objects_create_fresh by done.
  rewrite bind_unfold. unfold lift. cbn [Profile.profile_id new_profile].
  rewrite Hgen, bind_unfold, Hfmt, bind_unfold.
  by rewrite Profile_save_cfc_created.
Qed.

Lemma get_or_create_profile_fresh (db : DB) (user_id game_id : string)
    (kwargs : ProfileKwargs) (now fc : Z) (code : string) :
  Forall (λ p, Profile.profile_id p < profiles_seq db) (profiles db) →
  (∀ p, p ∈ profiles db → ¬ profile_user_game user_id game_id p) →
  generate_friend_code (profiles_seq db) game_id = Ok fc →
  format_friend_code fc = Ok code →
  DatabaseManager.get_or_create_profile user_id game_id kwargs now db =
    (Ok (created_profile db user_id game_id kwargs now code),
     after_creation db (created_profile db user_id game_id kwargs now code)).
Proof.
  intros Hseq Hfresh Hgen Hfmt.
  unfold DatabaseManager.get_or_create_profile, atomic.
  rewrite bind_unfold. unfold Profile_objects_get_or_create.
  rewrite objects_get_no_match by done.
  rewrite bind_unfold, Profile_objects_create_fresh by done.
  cbn [mret M_ret]. rewrite bind_unfold. unfold lift.
  cbn [Profile.profile_id new_profile].
  rewrite Hgen, bind_unfold, Hfmt, bind_unfold.
  by rewrite Profile_save_cfc_created.
Qed.

(** A stored profile is handed back as stored; nothing is written. *)
Lemma get_or_create_profile_existing (db : DB) (p : Profile.t)
    (kwargs : ProfileKwargs) (now : Z) :
  NoDup (profile_pair <$> profiles db) →
  p ∈ profiles db →
  DatabaseManager.get_or_create_profile (Profile.user_id p) (Profile.game_id p)
    kwargs now db = (Ok p, db).
Proof.
  intros Hnd Hin. unfold DatabaseManager.get_or_create_profile, atomic.
  rewrite bind_unfold. unfold Profile_objects_get_or_create.
  rewrite (objects_get_unique _ profile_pair _ p); try done.
  apply profile_user_game_pair.
Qed.

(** The created row can be read back under its primary key. *)
Lemma created_profile_stored (db : DB) (p : Profile.t) :
  profiles_wf db →
  Profile.profile_id p = profiles_seq db →
  DatabaseManager.get_profile_by_id (Profile.profile_id p) (after_creation db p)
    = Ok (Some p).
Proof.
  intros (Hpk & _ & Hseq) Hid. apply get_profile_by_id_hit.
  - cbn. apply NoDup_snoc_fresh; [done|].
    intros x Hx. rewrite Forall_forall in Hseq. specialize (Hseq x Hx). lia.
  - cbn. apply elem_of_app. right. by left.
Qed.
End creation.

(** C2, as the code has it: a profile that [get_or_create_profile] or
    [create_profile] creates (no row for the pair was stored, and the codec
    yields a code for the new id and [game_id]) is returned with that code in
    [cfc], and the stored row read back under its id is the returned profile;
    a profile that [get_or_create_profile] finds stored is returned as
    stored, and nothing is written. *)
Theorem creation_caches_friend_code `{FriendCodeCodec} (db : DB)
    (Hwf : profiles_wf db) :
  (∀ user_id game_id kwargs now fc code,
     (∀ p, p ∈ profiles db → ¬ profile_user_game user_id game_id p) →
     generate_friend_code (profiles_seq db) game_id = Ok fc →
     format_friend_code fc = Ok code →
     ∃ p db',
       DatabaseManager.get_or_create_profile user_id game_id kwargs now db = (Ok p, db') ∧
       DatabaseManager.create_profile user_id game_id kwargs now db = (Ok p, db') ∧
       Profile.cfc p = code ∧
       DatabaseManager.get_profile_by_id (Profile.profile_id p) db' = Ok (Some p)) ∧
  (∀ p kwargs now,
     p ∈ profiles db →
     DatabaseManager.get_or_create_profile (Profile.user_id p) (Profile.game_id p)
       kwargs now db = (Ok p, db)).
Proof.
  split.
  - intros user_id game_id kwargs now fc code Hfresh Hgen Hfmt.
    destruct Hwf as (Hpk & Hpair & Hseq).
    exists (created_profile db user_id game_id kwargs now code),
           (after_creation db (created_profile db user_id game_id kwargs now code)).
    split_and!.
    + by apply (get_or_create_profile_fresh db user_id game_id kwargs now fc).
    + by apply (create_profile_fresh db user_id game_id kwargs now fc).
    + done.
    + by apply created_profile_stored.
  - intros p kwargs now Hin. destruct Hwf as (_ & Hpair & _).
    by apply get_or_create_profile_existing.
Qed.

Lemma creation_caches_friend_code_witness :
  profiles_wf testdata_db ∧
  (∃ p db',
     @DatabaseManager.get_or_create_profile spec_codec "123" "ADAJ" no_kwargs 5 testdata_db
       = (Ok p, db') ∧
     @DatabaseManager.create_profile spec_codec "123" "ADAJ" no_kwargs 5 testdata_db
       = (Ok p, db') ∧
     Profile.cfc p = "2448-1313-5874" ∧
     DatabaseManager.get_profile_by_id (Profile.profile_id p) db' = Ok (Some p)) ∧
  @DatabaseManager.get_or_create_profile spec_codec "6818938419496" "ADAJ" no_kwargs 5
    testdata_db = (Ok testdata_profile, testdata_db).
Proof.
  assert (profiles_wf testdata_db) as Hwf.
  { unfold profiles_wf. split_and!.
    - apply (bool_decide_unpack _). vm_compute. exact I.
    - apply (bool_decide_unpack _). vm_compute. exact I.
    - apply (bool_decide_unpack _). vm_compute. exact I. }
  split; [exact Hwf|].
  destruct (@creation_caches_friend_code spec_codec testdata_db Hwf) as [Hnew Hold].
  split.
  - apply (Hnew "123" "ADAJ" no_kwargs 5 244813135874 "2448-1313-5874").
    + apply (proj1 (Forall_forall _ _)).
      apply (bool_decide_unpack _). vm_compute. exact I.
    + reflexivity.
    + reflexivity.
  - apply (Hold testdata_profile no_kwargs 5). cbn. left.
Defined.

(** C2 as stated fails: the profile written by [create_testdata] has a blank
    [cfc], and [get_or_create_profile] returns it as it is. *)
Lemma get_or_create_profile_returns_blank_cfc :
  ∃ p,
    (@DatabaseManager.get_or_create_profile spec_codec "6818938419496" "ADAJ"
       no_kwargs testdata_now testdata_db).1 = Ok p ∧
    Profile.cfc p = "".
Proof. exists testdata_profile. split; reflexivity. Qed.

(** When the codec raises, [get_or_create_profile] rolls the insertion back,
    while [create_profile], which runs outside a transaction, leaves the new
    row behind with the [cfc] it was created with. *)
Lemma codec_failure_rollback `{FriendCodeCodec} (db : DB) (user_id game_id : string)
    (kwargs : ProfileKwargs) (now : Z) (e : exn) :
  (∀ p, p ∈ profiles db → ¬ profile_user_game user_id game_id p) →
  generate_friend_code (profiles_seq db) game_id = Raise e →
  DatabaseManager.get_or_create_profile user_id game_id kwargs now db = (Raise e, db) ∧
  DatabaseManager.create_profile user_id game_id kwargs now db =
    (Raise e, after_creation db (new_profile (profiles_seq db) user_id game_id kwargs now)).
Proof.
  intros Hfresh Hgen. split.
  - unfold DatabaseManager.get_or_create_profile, atomic.
    rewrite bind_unfold. unfold Profile_objects_get_or_create.
    rewrite objects_get_no_match by done.
    rewrite bind_unfold, Profile_objects_create_fresh by done.
    cbn [mret M_ret]. rewrite bind_unfold. unfold lift.
    cbn [Profile.profile_id new_profile]. by rewrite Hgen.
  - unfold DatabaseManager.create_profile.
    rewrite bind_unfold, Profile_objects_create_fresh by done.
    rewrite bind_unfold. unfold lift.
    cbn [Profile.profile_id new_profile]. by rewrite Hgen.
Qed.

(** * The cached code against the [friend_code] property *)

(** The property hands the broadcast code to the codec when there is one and
    the game id otherwise. *)
Lemma game_code_prefers_broadcast_code (p : Profile.t) :
  (Profile.gs_broadcast_code p ≠ "" → Profile.game_code p = Profile.gs_broadcast_code p) ∧
  (Profile.gs_broadcast_code p = "" → Profile.game_code p = Profile.game_id p).
Proof.
  unfold Profile.game_code. split; intros Hb.
  - apply truthy_nonempty in Hb. by rewrite Hb.
  - by rewrite Hb.
Qed.

(** C1: at creation the cached code is derived from [game_id] even when the
    profile is created with a broadcast code, whereas the [friend_code]
    property derives it from the broadcast code; the two agree only where the
    codec gives the same code for both. *)
Theorem cached_code_ignores_broadcast_code `{FriendCodeCodec} (db : DB)
    (user_id game_id gsbrcd : string) (kwargs : ProfileKwargs) (now fc fc' : Z)
    (code code' : string)
    (Hwf : profiles_wf db)
    (Hfresh : ∀ p, p ∈ profiles db → ¬ profile_user_game user_id game_id p)
    (Hkw : kw_gs_broadcast_code kwargs = Some gsbrcd)
    (Hgsbrcd : gsbrcd ≠ "")
    (Hgen : generate_friend_code (profiles_seq db) game_id = Ok fc)
    (Hfmt : format_friend_code fc = Ok code)
    (Hgen' : generate_friend_code (profiles_seq db) gsbrcd = Ok fc')
    (Hfmt' : format_friend_code fc' = Ok code') :
  ∃ p db',
    DatabaseManager.get_or_create_profile user_id game_id kwargs now db = (Ok p, db') ∧
    DatabaseManager.create_profile user_id game_id kwargs now db = (Ok p, db') ∧
    Profile.gs_broadcast_code p = gsbrcd ∧
    Profile.cfc p = code ∧
    Profile.friend_code p = code'.
Proof.
  destruct Hwf as (_ & _ & Hseq).
  exists (created_profile db user_id game_id kwargs now code),
         (after_creation db (created_profile db user_id game_id kwargs now code)).
  split_and!.
  - by apply (get_or_create_profile_fresh db user_id game_id kwargs now fc).
  - by apply (create_profile_fresh db user_id game_id kwargs now fc).
  - cbn. by rewrite Hkw.
  - done.
  - unfold Profile.friend_code, Profile.game_code. cbn. rewrite Hkw. cbn.
    apply truthy_nonempty in Hgsbrcd. rewrite Hgsbrcd, Hgen'. cbn. by rewrite Hfmt'.
Qed.

Lemma cached_code_ignores_broadcast_code_witness :
  profiles_wf empty_db ∧
  (∀ p, p ∈ profiles empty_db → ¬ profile_user_game "123" "ADAJ" p) ∧
  ∃ p db',
    @DatabaseManager.get_or_create_profile spec_codec "123" "ADAJ"
      (mkKwargs (Some "ADAJ42xxx7") None None None) 5 empty_db = (Ok p, db') ∧
    @DatabaseManager.create_profile spec_codec "123" "ADAJ"
      (mkKwargs (Some "ADAJ42xxx7") None None None) 5 empty_db = (Ok p, db') ∧
    Profile.gs_broadcast_code p = "ADAJ42xxx7" ∧
    Profile.cfc p = "0515-3960-7553" ∧
    @Profile.friend_code spec_codec p = "2877-6280-8833".
Proof.
  assert (profiles_wf empty_db) as Hwf.
  { unfold profiles_wf. cbn. split_and!; constructor. }
  assert (∀ p, p ∈ profiles empty_db → ¬ profile_user_game "123" "ADAJ" p) as Hfresh.
  { intros p Hp. cbn in Hp. by apply elem_of_nil in Hp. }
  split; [exact Hwf|]. split; [exact Hfresh|].
  apply (@cached_code_ignores_broadcast_code spec_codec empty_db "123" "ADAJ"
           "ADAJ42xxx7" (mkKwargs (Some "ADAJ42xxx7") None None None) 5
           51539607553 287762808833 "0515-3960-7553" "2877-6280-8833" Hwf Hfresh).
  - reflexivity.
  - discriminate.
  - reflexivity.
  - reflexivity.
  - reflexivity.
  - reflexivity.
Defined.

(** Without a broadcast code the cached code and the property agree. *)
Lemma cached_code_agrees_without_broadcast_code `{FriendCodeCodec} (db : DB)
    (user_id game_id : string) (kwargs : ProfileKwargs) (now fc : Z) (code : string) :
  default "" (kw_gs_broadcast_code kwargs) = "" →
  generate_friend_code (profiles_seq db) game_id = Ok fc →
  format_friend_code fc = Ok code →
  Profile.friend_code (created_profile db user_id game_id kwargs now code) = code ∧
  Profile.cfc (created_profile db user_id game_id kwargs now code) = code.
Proof.
  intros Hkw Hgen Hfmt. split; [|done].
  unfold Profile.friend_code, Profile.game_code. cbn. rewrite Hkw. cbn.
  rewrite Hgen. cbn. by rewrite Hfmt.
Qed.

(** * Facts about upserts, deletions and ordered query sets *)

Section upsert_facts.
Context {R K : Type}.
Context (P : R → Prop) `{!∀ r, Decision (P r)}.
Context (key : R → K) (k : K) (set_defaults : R → R) (created : R).
Hypothesis Hkey : ∀ r, P r ↔ key r = k.
Hypothesis Hset : ∀ r, key (set_defaults r) = key r.
Hypothesis Hcreated : key created = k.

Lemma rewrite_keeps_key (r : R) :
  key (if decide (P r) then set_defaults r else r) = key r.
Proof. by destruct (decide (P r)). Qed.

(** After an upsert exactly one row answers the lookup: the created row, or
    the row that was there with the defaults applied; the key stays
    unique. *)
Lemma objects_update_or_create_lookup (tbl : list R) :
  NoDup (key <$> tbl) →
  ∃ row is_new,
    (objects_update_or_create P set_defaults created tbl).1 = Ok (row, is_new) ∧
    filter P (objects_update_or_create P set_defaults created tbl).2 = [row] ∧
    NoDup (key <$> (objects_update_or_create P set_defaults created tbl).2) ∧
    ((is_new = true ∧ row = created ∧ ∀ r, r ∈ tbl → ¬ P r) ∨
     (is_new = false ∧ ∃ old, old ∈ tbl ∧ P old ∧ row = set_defaults old)).
Proof.
  intros Hnd. unfold objects_update_or_create.
  assert (∀ a b, P a → P b → key a = key b) as Hpin.
  { intros a b Ha Hb. apply Hkey in Ha, Hb. congruence. }
  destruct (objects_get_cases P key tbl Hnd Hpin)
    as [(old & Hin & Hold & Hfil & ->)|(Hno & Hfil & ->)].
  - exists (set_defaults old), false. cbn.
    split; [done|]. split; [|split].
    + rewrite (filter_fmap_stable P).
      * rewrite Hfil. cbn. by rewrite decide_True.
      * intros r. rewrite !Hkey. by rewrite rewrite_keeps_key.
    + rewrite <- list_fmap_compose.
      rewrite (list_fmap_ext _ key tbl); [done|].
      intros i r _. apply rewrite_keeps_key.
    + right. split; [done|]. by exists old.
  - exists created, true. cbn.
    split; [done|]. split; [|split].
    + apply filter_snoc_fresh; [done|]. by apply Hkey.
    + apply NoDup_snoc_fresh; [done|]. intros x Hx Heq.
      apply (Hno x Hx). apply Hkey. congruence.
    + left. done.
Qed.

(** Rows under another key are neither changed nor joined by new ones. *)
Lemma objects_update_or_create_frame (Q : R → Prop) `{!∀ r, Decision (Q r)}
    (k' : K) (tbl : list R) :
  (∀ r, Q r ↔ key r = k') → k' ≠ k →
  filter Q (objects_update_or_create P set_defaults created tbl).2 = filter Q tbl.
Proof.
  intros HQ Hne. unfold objects_update_or_create, objects_get.
  destruct (filter P tbl) as [|x [|y l]]; cbn; [| |done].
  - rewrite filter_app, (filter_cons_False Q created []).
    + by rewrite filter_nil, app_nil_r.
    + rewrite HQ. congruence.
  - rewrite (filter_fmap_stable Q).
    + apply fmap_rewrite_no_match. intros r Hr HP.
      apply list_elem_of_filter in Hr as [Hr _]. apply HQ in Hr. apply Hkey in HP.
      congruence.
    + intros r. rewrite !HQ. by rewrite rewrite_keeps_key.
Qed.
End upsert_facts.

Section delete_facts.
Context {R : Type}.
Context (P : R → Prop) `{!∀ r, Decision (P r)}.

Lemma filter_count_positive (tbl : list R) :
  bool_decide (0 < length (filter P tbl))%nat = true ↔ ∃ r, r ∈ tbl ∧ P r.
Proof.
  rewrite bool_decide_eq_true. split.
  - destruct (filter P tbl) as [|x l] eqn:Hfil; cbn; [lia|]. intros _.
    assert (x ∈ filter P tbl) as Hx.
    { rewrite Hfil. apply list_elem_of_here. }
    apply list_elem_of_filter in Hx as [? ?]. eauto.
  - intros (r & Hin & HP).
    assert (r ∈ filter P tbl) as Hr by (by apply list_elem_of_filter).
    destruct (filter P tbl); [by apply elem_of_nil in Hr|cbn; lia].
Qed.

Lemma filter_count_zero (tbl : list R) :
  filter P tbl = [] → bool_decide (0 < length (filter P tbl))%nat = false.
Proof. intros ->. apply bool_decide_eq_false. cbn. lia. Qed.

Lemma filter_delete_twice (tbl : list R) :
  filter (λ r, ¬ P r) (filter (λ r, ¬ P r) tbl) = filter (λ r, ¬ P r) tbl.
Proof.
  apply filter_all_match. intros r Hr. by apply list_elem_of_filter in Hr as [? _].
Qed.

Lemma filter_delete_frame (Q : R → Prop) `{!∀ r, Decision (Q r)} (tbl : list R) :
  (∀ r, Q r → ¬ P r) → filter Q (filter (λ r, ¬ P r) tbl) = filter Q tbl.
Proof.
  intros Hdis. induction tbl as [|x tbl IH]; [done|].
  destruct (decide (P x)) as [HP|HP].
  - rewrite (filter_cons_False (λ r, ¬ P r)) by tauto.
    rewrite (filter_cons_False Q); [done|]. intros HQ. by apply (Hdis x).
  - rewrite (filter_cons_True (λ r, ¬ P r)) by done.
    destruct (decide (Q x)).
    + rewrite !(filter_cons_True Q) by done. by rewrite IH.
    + rewrite !(filter_cons_False Q) by done. done.
Qed.

Lemma filter_count_split (tbl : list R) :
  (length (filter P tbl) + length (filter (λ r, ¬ P r) tbl))%nat = length tbl.
Proof.
  rewrite <- length_app. by rewrite filter_app_complement.
Qed.

Lemma NoDup_fmap_filter {K} (key : R → K) (tbl : list R) :
  NoDup (key <$> tbl) → NoDup (key <$> filter P tbl).
Proof.
  induction tbl as [|x tbl IH]; [done|]. rewrite fmap_cons.
  intros [Hx Hnd]%NoDup_cons. destruct (decide (P x)).
  - rewrite filter_cons_True by done. rewrite fmap_cons. apply NoDup_cons.
    split; [|by apply IH]. intros Hin. apply Hx.
    apply list_elem_of_fmap in Hin as (y & -> & Hy).
    apply list_elem_of_filter in Hy as [_ Hy]. by apply list_elem_of_fmap_2.
  - rewrite filter_cons_False by done. by apply IH.
Qed.
End delete_facts.

Lemma order_by_desc_Permutation {R} (key : R → Z) (qs : list R) :
  order_by_desc key qs ≡ₚ qs.
Proof. unfold order_by_desc. apply merge_sort_Permutation. Qed.

Lemma elem_of_order_by_desc {R} (key : R → Z) (qs : list R) (r : R) :
  r ∈ order_by_desc key qs ↔ r ∈ qs.
Proof. by rewrite order_by_desc_Permutation. Qed.

(** * Session keys *)

Lemma hex_char_alphabet (b : Byte.byte) :
  is_lower_hex (hex_char (Byte.to_N b / 16)%N) ∧
  is_lower_hex (hex_char (Byte.to_N b mod 16)%N).
Proof.
  unfold is_lower_hex.
  destruct b; vm_compute; split; ((left; split; discriminate) || (right; split; discriminate)).
Qed.

Lemma byte_of_hex_char (b : Byte.byte) :
  byte_of_hex (hex_char (Byte.to_N b / 16)%N) (hex_char (Byte.to_N b mod 16)%N) = Some b.
Proof. destruct b; reflexivity. Qed.

Lemma token_hex_length (random : list Byte.byte) :
  String.length (token_hex random) = (2 * length random)%nat.
Proof. induction random as [|b random IH]; cbn; [done|]. rewrite IH. lia. Qed.

Lemma token_hex_injective (r1 r2 : list Byte.byte) :
  token_hex r1 = token_hex r2 → r1 = r2.
Proof.
  revert r2. induction r1 as [|b1 r1 IH]; intros [|b2 r2]; cbn; try done.
  intros [= Hhi Hlo Hrest]. f_equal; [|by apply IH].
  pose proof (byte_of_hex_char b1) as H1. pose proof (byte_of_hex_char b2) as H2.
  rewrite Hhi, Hlo in H1. congruence.
Qed.

(** X1: a session key made from 16 random bytes is 32 characters long and
    uses only the digits and the letters [a] to [f], and no other sequence
    of bytes gives the same key. *)
Theorem generate_session_key_format (random : list Byte.byte)
    (Hlen : length random = 16%nat) :
  String.length (Manager.generate_session_key random) = 32%nat ∧
  Forall is_lower_hex (String.list_ascii_of_string (Manager.generate_session_key random)) ∧
  ∀ other, Manager.generate_session_key other = Manager.generate_session_key random →
    other = random.
Proof.
  unfold Manager.generate_session_key. split_and!.
  - rewrite token_hex_length, Hlen. done.
  - clear Hlen. induction random as [|b random IH]; [constructor|].
    destruct (hex_char_alphabet b) as [Hhi Hlo].
    cbn [token_hex String.list_ascii_of_string].
    apply Forall_cons. split; [exact Hhi|].
    apply Forall_cons. split; [exact Hlo|exact IH].
  - intros other Heq. by apply token_hex_injective.
Qed.

Lemma generate_session_key_format_witness :
  length sample_random = 16%nat ∧
  String.length (Manager.generate_session_key sample_random) = 32%nat ∧
  Forall is_lower_hex (String.list_ascii_of_string (Manager.generate_session_key sample_random)) ∧
  ∀ other, Manager.generate_session_key other = Manager.generate_session_key sample_random →
    other = sample_random.
Proof.
  split; [reflexivity|].
  exact (generate_session_key_format sample_random eq_refl).
Defined.

(** * Sessions *)

Lemma with_sessions_id (st : Store) : with_sessions (sessions st) st = st.
Proof. by destruct st. Qed.

Lemma filter_join {A B} (Pj : A * B → Prop) (Pa : A → Prop)
    `{!∀ x, Decision (Pj x)} `{!∀ a, Decision (Pa a)} (g : A → list B) (l : list A) :
  (∀ a b, Pj (a, b) ↔ Pa a) →
  filter Pj (l ≫= λ a, (λ b, (a, b)) <$> g a) =
  filter Pa l ≫= λ a, (λ b, (a, b)) <$> g a.
Proof.
  intros Hj. induction l as [|a l IH]; [done|].
  rewrite bind_cons, filter_app, IH. destruct (decide (Pa a)) as [Ha|Ha].
  - rewrite (filter_cons_True Pa) by done. rewrite bind_cons. f_equal.
    apply filter_all_match. intros [a' b] Hin.
    apply list_elem_of_fmap in Hin as (b' & [= -> ->] & _). by apply Hj.
  - rewrite (filter_cons_False Pa) by done.
    rewrite filter_no_match; [done|]. intros [a' b] Hin.
    apply list_elem_of_fmap in Hin as (b' & [= -> ->] & _). by rewrite Hj.
Qed.

Lemma joined_session_lookup (st : Store) (session_key : string) :
  filter (joined_session_pk session_key) (Session_select_related st) =
  filter (session_pk session_key) (sessions st) ≫= λ s,
    (λ p, (s, p)) <$> filter (profile_pk (Session.profile s)) (profiles (core st)).
Proof. unfold Session_select_related. by apply filter_join. Qed.

Lemma get_session_absent (st : Store) (session_key : string) :
  filter (session_pk session_key) (sessions st) = [] →
  Manager.get_session session_key st = Ok None.
Proof.
  intros Hnone. unfold Manager.get_session, objects_get.
  by rewrite joined_session_lookup, Hnone.
Qed.

Lemma profile_filter_hit (db : DB) (p : Profile.t) :
  NoDup (Profile.profile_id <$> profiles db) →
  p ∈ profiles db →
  filter (profile_pk (Profile.profile_id p)) (profiles db) = [p].
Proof.
  intros Hnd Hin. apply (filter_unique_key _ Profile.profile_id); try done.
  unfold profile_pk. congruence.
Qed.

(** X2: for a stored profile and a key that no session carries,
    [create_session] returns the key, and the key then resolves to a session
    of that profile whose login time is the instant of creation; the profile
    tables are not touched. *)
Theorem create_session_resolves (st : Store) (p : Profile.t) (random : list Byte.byte)
    (now : Z)
    (Hpk : NoDup (Profile.profile_id <$> profiles (core st)))
    (Hin : p ∈ profiles (core st))
    (Hfresh : ∀ s, s ∈ sessions st →
                Session.session_key s ≠ Manager.generate_session_key random) :
  let session_key := Manager.generate_session_key random in
  ∃ st',
    Manager.create_session (Profile.profile_id p) random now st = (Ok session_key, st') ∧
    core st' = core st ∧
    Manager.get_session session_key st'
      = Ok (Some (Session.mk session_key (Profile.profile_id p) now, p)) ∧
    Manager.get_profile_from_session session_key st' = Ok (Some p).
Proof.
  intros session_key.
  assert (filter (session_pk session_key) (sessions st) = []) as Hnone.
  { apply filter_no_match. intros s Hs. by apply Hfresh. }
  set (s := Session.mk session_key (Profile.profile_id p) now).
  exists (with_sessions (sessions st ++ [s]) st).
  assert (Manager.get_session session_key (with_sessions (sessions st ++ [s]) st)
          = Ok (Some (s, p))) as Hget.
  { unfold Manager.get_session, objects_get. rewrite joined_session_lookup.
    cbn [sessions with_sessions core].
    rewrite filter_snoc_fresh by done. rewrite bind_singleton.
    cbn [Session.profile s]. rewrite profile_filter_hit by done. done. }
  split_and!.
  - unfold Manager.create_session, objects_create_unique, objects_exists.
    rewrite profile_lookup_hit by done. fold session_key. by rewrite Hnone.
  - done.
  - done.
  - unfold Manager.get_profile_from_session. by rewrite Hget.
Qed.

Lemma create_session_resolves_witness :
  NoDup (Profile.profile_id <$> profiles (core testdata_store)) ∧
  testdata_profile ∈ profiles (core testdata_store) ∧
  (∀ s, s ∈ sessions testdata_store →
     Session.session_key s ≠ Manager.generate_session_key sample_random) ∧
  ∃ st',
    Manager.create_session 1 sample_random testdata_now testdata_store
      = (Ok "00112233445566778899aabbccddeeff", st') ∧
    core st' = core testdata_store ∧
    Manager.get_session "00112233445566778899aabbccddeeff" st'
      = Ok (Some (Session.mk "00112233445566778899aabbccddeeff" 1 testdata_now,
                  testdata_profile)) ∧
    Manager.get_profile_from_session "00112233445566778899aabbccddeeff" st'
      = Ok (Some testdata_profile).
Proof.
  assert (NoDup (Profile.profile_id <$> profiles (core testdata_store))) as Hpk.
  { apply (bool_decide_unpack _). vm_compute. exact I. }
  assert (testdata_profile ∈ profiles (core testdata_store)) as Hin.
  { cbn. left. }
  assert (∀ s, s ∈ sessions testdata_store →
            Session.session_key s ≠ Manager.generate_session_key sample_random) as Hfresh.
  { apply (proj1 (Forall_forall _ _)). apply (bool_decide_unpack _). vm_compute. exact I. }
  split; [exact Hpk|]. split; [exact Hin|]. split; [exact Hfresh|].
  exact (create_session_resolves testdata_store testdata_profile sample_random
           testdata_now Hpk Hin Hfresh).
Defined.

(** X3: when the key drawn is already the key of a session,
    [create_session] raises [IntegrityError] and the store is left as it
    was: the session that holds the key is not overwritten. *)
Theorem create_session_key_collision (st : Store) (p : Profile.t) (s : Session.t)
    (random : list Byte.byte) (now : Z)
    (Hpk : NoDup (Profile.profile_id <$> profiles (core st)))
    (Hin : p ∈ profiles (core st))
    (Hs : s ∈ sessions st)
    (Hkey : Session.session_key s = Manager.generate_session_key random) :
  Manager.create_session (Profile.profile_id p) random now st = (Raise IntegrityError, st).
Proof.
  unfold Manager.create_session, objects_create_unique, objects_exists.
  rewrite profile_lookup_hit by done.
  destruct (filter _ (sessions st)) as [|x l] eqn:Hfil.
  - exfalso. eapply (filter_nil_not_elem_of _ _ s); [exact Hfil|exact Hkey|exact Hs].
  - by rewrite with_sessions_id.
Qed.

Lemma create_session_key_collision_witness :
  NoDup (Profile.profile_id <$> profiles (core testdata_store)) ∧
  testdata_profile ∈ profiles (core testdata_store) ∧
  boundary_session ∈ sessions testdata_store ∧
  Session.session_key boundary_session = Manager.generate_session_key other_random ∧
  Manager.create_session 1 other_random testdata_now testdata_store
    = (Raise IntegrityError, testdata_store).
Proof.
  assert (NoDup (Profile.profile_id <$> profiles (core testdata_store))) as Hpk.
  { apply (bool_decide_unpack _). vm_compute. exact I. }
  assert (testdata_profile ∈ profiles (core testdata_store)) as Hin.
  { cbn. left. }
  assert (boundary_session ∈ sessions testdata_store) as Hs.
  { cbn. left. }
  assert (Session.session_key boundary_session
          = Manager.generate_session_key other_random) as Hkey by reflexivity.
  split; [exact Hpk|]. split; [exact Hin|]. split; [exact Hs|]. split; [exact Hkey|].
  exact (create_session_key_collision testdata_store testdata_profile boundary_session
           other_random testdata_now Hpk Hin Hs Hkey).
Defined.

Lemma get_session_frame (st : Store) (tbl : list Session.t) (session_key : string) :
  filter (session_pk session_key) tbl = filter (session_pk session_key) (sessions st) →
  Manager.get_session session_key (with_sessions tbl st) = Manager.get_session session_key st.
Proof.
  intros Hsame. unfold Manager.get_session, objects_get.
  rewrite !joined_session_lookup. cbn [sessions with_sessions core]. by rewrite Hsame.
Qed.

(** X4: [delete_session] answers [True] exactly when a session carried the
    key; afterwards the key resolves to nothing, a second call answers
    [False] and changes nothing, and every other key resolves as before. *)
Theorem delete_session_idempotent (st : Store) (session_key : string) :
  ∃ removed st',
    Manager.delete_session session_key st = (Ok removed, st') ∧
    (removed = true ↔ ∃ s, s ∈ sessions st ∧ Session.session_key s = session_key) ∧
    Manager.get_session session_key st' = Ok None ∧
    Manager.delete_session session_key st' = (Ok false, st') ∧
    core st' = core st ∧
    (∀ other, other ≠ session_key →
       Manager.get_session other st' = Manager.get_session other st).
Proof.
  eexists _, _. split; [reflexivity|]. split_and!.
  - apply filter_count_positive.
  - apply get_session_absent. cbn. apply filter_delete_none.
  - unfold Manager.delete_session, objects_delete. cbn [sessions with_sessions].
    rewrite filter_delete_none, filter_delete_twice. done.
  - done.
  - intros other Hne. apply get_session_frame. apply filter_delete_frame.
    unfold session_pk. congruence.
Qed.

Lemma timedelta_minutes_checked_cases (m : Z) :
  ((-1439999998560 ≤ m ≤ 1439999999999)%Z ∧
   timedelta_minutes_checked m = Ok (timedelta_minutes m)) ∨
  (¬ (-1439999998560 ≤ m ≤ 1439999999999)%Z ∧
   timedelta_minutes_checked m = Raise OverflowError).
Proof.
  unfold timedelta_minutes_checked, timedelta_max_days.
  case_bool_decide as Hdays; [left|right]; (split; [|done]);
    revert Hdays; Z.div_mod_to_equations; lia.
Qed.

Lemma cleanup_threshold_cases (m now : Z) :
  let valid :=
    (-1439999998560 ≤ m ≤ 1439999999999)%Z ∧
    (datetime_min ≤ now - timedelta_minutes m ≤ datetime_max)%Z in
  (valid ∧
   res_bind (timedelta_minutes_checked m) (datetime_sub now)
     = Ok (now - timedelta_minutes m)) ∨
  (¬ valid ∧
   res_bind (timedelta_minutes_checked m) (datetime_sub now) = Raise OverflowError).
Proof.
  cbn zeta.
  destruct (timedelta_minutes_checked_cases m) as [[Hm ->]|[Hm ->]];
    cbn [res_bind]; [|right; split; [tauto|done]].
  unfold datetime_sub. case_bool_decide as Hdate; [left|right]; (split; [tauto|done]).
Qed.

(** X5: when [max_age_minutes] makes a [timedelta] (between -1439999998560
    and 1439999999999 minutes) and the threshold [now - max_age] is a
    [datetime] (within the years 1 to 9999), [cleanup_old_sessions] keeps
    exactly the sessions whose age does not exceed [max_age_minutes] and
    returns the number of sessions it removed.  Otherwise it raises
    [OverflowError] and removes nothing. *)
Theorem cleanup_old_sessions_keeps_recent (st : Store) (max_age_minutes now : Z) :
  let valid :=
    (-1439999998560 ≤ max_age_minutes ≤ 1439999999999)%Z ∧
    (datetime_min ≤ now - timedelta_minutes max_age_minutes ≤ datetime_max)%Z in
  (valid →
   ∃ deleted st',
     Manager.cleanup_old_sessions max_age_minutes now st = (Ok deleted, st') ∧
     (∀ s, s ∈ sessions st' ↔
        s ∈ sessions st ∧
        (now - Session.login_time s ≤ timedelta_minutes max_age_minutes)%Z) ∧
     (deleted + length (sessions st'))%nat = length (sessions st) ∧
     core st' = core st) ∧
  (¬ valid →
   Manager.cleanup_old_sessions max_age_minutes now st = (Raise OverflowError, st)).
Proof.
  cbn zeta. unfold Manager.cleanup_old_sessions.
  destruct (cleanup_threshold_cases max_age_minutes now) as [[Hv ->]|[Hv ->]];
    (split; [|tauto]); [|tauto].
  intros _. eexists _, _. split; [reflexivity|]. cbn. split_and!.
  - intros s. rewrite list_elem_of_filter. unfold login_before. split.
    + intros [? ?]. split; [done|lia].
    + intros [? ?]. split; [lia|done].
  - apply filter_count_split.
  - done.
Qed.

Lemma cleanup_old_sessions_keeps_recent_witness :
  (∃ deleted st',
     Manager.cleanup_old_sessions 30 testdata_now testdata_store = (Ok deleted, st') ∧
     (∀ s, s ∈ sessions st' ↔
        s ∈ sessions testdata_store ∧
        (testdata_now - Session.login_time s ≤ timedelta_minutes 30)%Z) ∧
     (deleted + length (sessions st'))%nat = length (sessions testdata_store) ∧
     core st' = core testdata_store) ∧
  Manager.cleanup_old_sessions (10 ^ 10) testdata_now testdata_store
    = (Raise OverflowError, testdata_store).
Proof.
  split.
  - apply (proj1 (cleanup_old_sessions_keeps_recent testdata_store 30 testdata_now)).
    unfold testdata_now, datetime_min, datetime_max, timedelta_minutes. lia.
  - apply (proj2 (cleanup_old_sessions_keeps_recent testdata_store (10 ^ 10) testdata_now)).
    unfold testdata_now, datetime_min, datetime_max, timedelta_minutes. lia.
Defined.

(** X6: with the default age of 30 minutes the sweep never removes a
    session that [is_active] calls active, and it also keeps the session
    that is exactly 30 minutes old, which [is_active] calls inactive. *)
Theorem cleanup_spares_active_sessions (st : Store) (now : Z) (s : Session.t)
    (Hin : s ∈ sessions st) :
  let st' := (Manager.cleanup_old_sessions SESSION_TIMEOUT_MINUTES now st).2 in
  (Session.is_active s now = true → s ∈ sessions st') ∧
  (Session.login_time s = now - timedelta_minutes 30 →
     s ∈ sessions st' ∧ Session.is_active s now = false).
Proof.
  cbn zeta. unfold Manager.cleanup_old_sessions, Session.is_active.
  destruct (cleanup_threshold_cases SESSION_TIMEOUT_MINUTES now) as [[_ ->]|[_ ->]];
    unfold SESSION_TIMEOUT_MINUTES; cbn [snd objects_delete fst sessions with_sessions].
  - split.
    + rewrite bool_decide_eq_true. intros Hact.
      apply list_elem_of_filter. unfold login_before. split; [lia|done].
    + intros Hage. split.
      * apply list_elem_of_filter. unfold login_before. split; [lia|done].
      * apply bool_decide_eq_false. lia.
  - split; [done|]. intros Hage. split; [done|]. apply bool_decide_eq_false. lia.
Qed.

Lemma cleanup_spares_active_sessions_witness :
  boundary_session ∈ sessions testdata_store ∧
  boundary_session ∈
    sessions (Manager.cleanup_old_sessions SESSION_TIMEOUT_MINUTES testdata_now
                testdata_store).2 ∧
  Session.is_active boundary_session testdata_now = false.
Proof.
  assert (boundary_session ∈ sessions testdata_store) as Hin by (cbn; left).
  split; [exact Hin|].
  apply (cleanup_spares_active_sessions testdata_store testdata_now boundary_session Hin).
  reflexivity.
Defined.

(** * NAS logins *)

Lemma with_nas_logins_id (st : Store) : with_nas_logins (nas_logins st) st = st.
Proof. by destruct st. Qed.

(** X7: a login with a non-empty address, recorded under a token that no
    record carries, can be read back under that token: the record read has
    the fields given, the address in the form the address column stores it,
    which is the address as given when it has no colon in it.  The records
    under other tokens read as before. *)
Theorem nas_login_round_trip `{IPv6Validation} (st : Store)
    (user_id auth_token data ip_address : string) (now : Z)
    (Hfresh : ∀ l, l ∈ nas_logins st → NASLogin.auth_token l ≠ auth_token)
    (Haddr : ip_address ≠ "") :
  let login := NASLogin.mk user_id auth_token data now ip_address in
  let stored := NASLogin.mk user_id auth_token data now (get_prep_value ip_address) in
  ∃ st',
    Manager.create_nas_login user_id auth_token data ip_address now st = (Ok login, st') ∧
    Manager.get_nas_login_by_token auth_token st' = Ok (Some stored) ∧
    (has_colon ip_address = false → stored = login) ∧
    (∀ other, other ≠ auth_token →
       Manager.get_nas_login_by_token other st' = Manager.get_nas_login_by_token other st).
Proof.
  intros login stored.
  assert (filter (nas_token auth_token) (nas_logins st) = []) as Hnone.
  { apply filter_no_match. intros l Hl. by apply Hfresh. }
  exists (with_nas_logins (nas_logins st ++ [stored]) st). split_and!.
  - unfold Manager.create_nas_login, objects_create_unique, objects_exists.
    by rewrite (ip_column_nonempty _ Haddr), Hnone.
  - unfold Manager.get_nas_login_by_token, objects_get. cbn.
    by rewrite filter_snoc_fresh.
  - intros Hplain. unfold stored. by rewrite (get_prep_value_no_colon _ Hplain).
  - intros other Hne. unfold Manager.get_nas_login_by_token, objects_get. cbn.
    rewrite filter_app, (filter_cons_False _ stored []).
    + by rewrite filter_nil, app_nil_r.
    + unfold nas_token. cbn. congruence.
Qed.

Lemma nas_login_round_trip_witness :
  (∀ l, l ∈ nas_logins testdata_store → NASLogin.auth_token l ≠ "token_1") ∧
  "2001:0DB8:0:0:0:0:0:1" ≠ "" ∧
  ∃ st',
    @Manager.create_nas_login sample_ipv6 "6818938419496" "token_1" "{}"
      "2001:0DB8:0:0:0:0:0:1" 5 testdata_store
      = (Ok (NASLogin.mk "6818938419496" "token_1" "{}" 5 "2001:0DB8:0:0:0:0:0:1"), st') ∧
    Manager.get_nas_login_by_token "token_1" st'
      = Ok (Some (NASLogin.mk "6818938419496" "token_1" "{}" 5 "2001:db8::1")).
Proof.
  assert (∀ l, l ∈ nas_logins testdata_store → NASLogin.auth_token l ≠ "token_1")
    as Hfresh.
  { intros l Hl. apply list_elem_of_singleton in Hl as ->. discriminate. }
  assert ("2001:0DB8:0:0:0:0:0:1" ≠ "") as Haddr by discriminate.
  split; [exact Hfresh|]. split; [exact Haddr|].
  destruct (@nas_login_round_trip sample_ipv6 testdata_store "6818938419496" "token_1"
              "{}" "2001:0DB8:0:0:0:0:0:1" 5 Hfresh Haddr)
    as (st' & Hcreate & Hread & _ & _).
  exists st'. split; [exact Hcreate|exact Hread].
Defined.

(** X8: recording a login under a token that a record already carries
    raises [IntegrityError] and leaves the store as it was. *)
Theorem nas_login_duplicate_token `{IPv6Validation} (st : Store) (l : NASLogin.t)
    (user_id data ip_address : string) (now : Z)
    (Hin : l ∈ nas_logins st) :
  Manager.create_nas_login user_id (NASLogin.auth_token l) data ip_address now st
    = (Raise IntegrityError, st).
Proof.
  unfold Manager.create_nas_login, ip_column.
  destruct (truthy (get_prep_value ip_address)); [|done].
  unfold objects_create_unique, objects_exists.
  destruct (filter _ (nas_logins st)) as [|x tbl] eqn:Hfil.
  - exfalso. eapply (filter_nil_not_elem_of _ _ l); [exact Hfil|reflexivity|exact Hin].
  - by rewrite with_nas_logins_id.
Qed.

Lemma nas_login_duplicate_token_witness :
  NASLogin.mk "6818938419496" "token_6818938419496_0_1000" "{}" 0 "192.168.1.100"
    ∈ nas_logins testdata_store ∧
  @Manager.create_nas_login sample_ipv6 "someone" "token_6818938419496_0_1000" "{}"
    "10.0.0.1" 7 testdata_store = (Raise IntegrityError, testdata_store).
Proof.
  assert (NASLogin.mk "6818938419496" "token_6818938419496_0_1000" "{}" 0 "192.168.1.100"
            ∈ nas_logins testdata_store) as Hin by (cbn; left).
  split; [exact Hin|].
  exact (@nas_login_duplicate_token sample_ipv6 testdata_store _ "someone" "{}"
           "10.0.0.1" 7 Hin).
Defined.

(** * Rows patched in place *)

Section update_facts.
Context {R K : Type}.
Context (P : R → Prop) `{!∀ r, Decision (P r)}.
Context (key : R → K) (k : K) (f : R → R).
Hypothesis Hkey : ∀ r, P r ↔ key r = k.
Hypothesis Hf : ∀ r, key (f r) = key r.

Lemma objects_update_lookup (tbl : list R) :
  filter P (objects_update P f tbl).1 = f <$> filter P tbl.
Proof.
  cbn. rewrite (filter_fmap_stable P).
  - apply list_fmap_ext. intros i r Hr. apply list_elem_of_lookup_2 in Hr.
    apply list_elem_of_filter in Hr as [HP _]. by rewrite decide_True.
  - intros r. rewrite !Hkey. by rewrite (rewrite_keeps_key P key f Hf).
Qed.

Lemma objects_update_frame (Q : R → Prop) `{!∀ r, Decision (Q r)} (k' : K)
    (tbl : list R) :
  (∀ r, Q r ↔ key r = k') → k' ≠ k →
  filter Q (objects_update P f tbl).1 = filter Q tbl.
Proof.
  intros HQ Hne. cbn. rewrite (filter_fmap_stable Q).
  - apply fmap_rewrite_no_match. intros r Hr HP.
    apply list_elem_of_filter in Hr as [Hr _]. apply HQ in Hr. apply Hkey in HP.
    congruence.
  - intros r. rewrite !HQ. by rewrite (rewrite_keeps_key P key f Hf).
Qed.

Lemma objects_update_keys (tbl : list R) :
  key <$> (objects_update P f tbl).1 = key <$> tbl.
Proof.
  cbn. rewrite <- list_fmap_compose. apply list_fmap_ext.
  intros i r _. apply (rewrite_keeps_key P key f Hf).
Qed.
End update_facts.

Lemma with_profiles_id (db : DB) : with_profiles (profiles db) (profiles_seq db) db = db.
Proof. by destruct db. Qed.

Lemma get_profile_by_id_frame (db : DB) (tbl : list Profile.t) (seq profile_id : Z) :
  filter (profile_pk profile_id) tbl = filter (profile_pk profile_id) (profiles db) →
  DatabaseManager.get_profile_by_id profile_id (with_profiles tbl seq db)
    = DatabaseManager.get_profile_by_id profile_id db.
Proof.
  intros Hsame. unfold DatabaseManager.get_profile_by_id, objects_get. cbn.
  by rewrite Hsame.
Qed.

(** * Profile updates *)

(** X9: [update_profile] on a stored profile, with at least one field,
    answers [True]; the profile then reads back with the named fields
    replaced and the others kept, so the cached friend code stays as it was
    unless [cfc] itself is named, also when the broadcast code changes; the
    other profiles read as before. *)
Theorem update_profile_patches (db : DB) (p : Profile.t) (kwargs : ProfileKwargs)
    (Hpk : NoDup (Profile.profile_id <$> profiles db))
    (Hin : p ∈ profiles db)
    (Hfields : kwargs_empty kwargs = false) :
  ∃ p' db',
    Manager.update_profile (Profile.profile_id p) kwargs db = (Ok true, db') ∧
    DatabaseManager.get_profile_by_id (Profile.profile_id p) db' = Ok (Some p') ∧
    Profile.gs_broadcast_code p'
      = default (Profile.gs_broadcast_code p) (kw_gs_broadcast_code kwargs) ∧
    Profile.uniquenick p' = default (Profile.uniquenick p) (kw_uniquenick kwargs) ∧
    Profile.enabled p' = default (Profile.enabled p) (kw_enabled kwargs) ∧
    Profile.cfc p' = default (Profile.cfc p) (kw_cfc kwargs) ∧
    (∀ other, other ≠ Profile.profile_id p →
       DatabaseManager.get_profile_by_id other db'
         = DatabaseManager.get_profile_by_id other db).
Proof.
  assert (∀ r, profile_pk (Profile.profile_id p) r
               ↔ Profile.profile_id r = Profile.profile_id p) as Hkey by done.
  assert (∀ r, Profile.profile_id (patch_profile kwargs r) = Profile.profile_id r)
    as Hf by done.
  exists (patch_profile kwargs p),
    (with_profiles
       (objects_update (profile_pk (Profile.profile_id p)) (patch_profile kwargs)
          (profiles db)).1
       (profiles_seq db) db).
  split_and!; try done.
  - unfold Manager.update_profile. rewrite Hfields. unfold objects_update.
    rewrite (profile_filter_hit db p) by done. done.
  - unfold DatabaseManager.get_profile_by_id, objects_get.
    cbn [profiles with_profiles].
    rewrite (objects_update_lookup _ Profile.profile_id (Profile.profile_id p) _ Hkey Hf).
    rewrite (profile_filter_hit db p) by done. done.
  - intros other Hne. apply get_profile_by_id_frame.
    apply (objects_update_frame _ Profile.profile_id (Profile.profile_id p) _ Hkey Hf
             _ other); done.
Qed.

Lemma update_profile_patches_witness :
  NoDup (Profile.profile_id <$> profiles testdata_db) ∧
  testdata_profile ∈ profiles testdata_db ∧
  ∃ p' db',
    Manager.update_profile 1 (mkKwargs (Some "ADAJ99xxx1") None None None) testdata_db
      = (Ok true, db') ∧
    DatabaseManager.get_profile_by_id 1 db' = Ok (Some p') ∧
    Profile.gs_broadcast_code p' = "ADAJ99xxx1" ∧
    Profile.uniquenick p' = "melonDS_ADAJ" ∧
    Profile.enabled p' = true ∧
    Profile.cfc p' = "" ∧
    (∀ other, other ≠ 1 →
       DatabaseManager.get_profile_by_id other db'
         = DatabaseManager.get_profile_by_id other testdata_db).
Proof.
  assert (NoDup (Profile.profile_id <$> profiles testdata_db)) as Hpk.
  { apply (bool_decide_unpack _). vm_compute. exact I. }
  assert (testdata_profile ∈ profiles testdata_db) as Hin by (cbn; left).
  split; [exact Hpk|]. split; [exact Hin|].
  exact (update_profile_patches testdata_db testdata_profile
           (mkKwargs (Some "ADAJ99xxx1") None None None) Hpk Hin eq_refl).
Defined.

(** * NAT negotiation: release and independence of cookies *)

Lemma get_natneg_frame (db : DB) (tbl : list NatNeg.t) (cookie : Z) :
  filter (natneg_pk cookie) tbl = filter (natneg_pk cookie) (natneg db) →
  DatabaseManager.get_natneg cookie (with_natneg tbl db) = DatabaseManager.get_natneg cookie db.
Proof.
  intros Hsame. unfold DatabaseManager.get_natneg, objects_get. cbn. by rewrite Hsame.
Qed.

(** X10: [delete_natneg] answers [True] exactly when the cookie was
    registered; afterwards the cookie resolves to nothing, a second call
    answers [False] and changes nothing, and every other cookie resolves as
    before. *)
Theorem delete_natneg_releases (db : DB) (cookie : Z) :
  ∃ removed db',
    Manager.delete_natneg cookie db = (Ok removed, db') ∧
    (removed = true ↔ ∃ n, n ∈ natneg db ∧ NatNeg.cookie n = cookie) ∧
    DatabaseManager.get_natneg cookie db' = Ok None ∧
    Manager.delete_natneg cookie db' = (Ok false, db') ∧
    (∀ other, other ≠ cookie →
       DatabaseManager.get_natneg other db' = DatabaseManager.get_natneg other db).
Proof.
  eexists _, _. split; [reflexivity|]. split_and!.
  - apply filter_count_positive.
  - unfold DatabaseManager.get_natneg, objects_get. cbn.
    by rewrite filter_delete_none.
  - unfold Manager.delete_natneg, objects_delete. cbn [natneg with_natneg].
    rewrite filter_delete_none, filter_delete_twice. done.
  - intros other Hne. apply get_natneg_frame. apply filter_delete_frame.
    unfold natneg_pk. congruence.
Qed.

(** X11: registering a cookie does not change what any other cookie
    resolves to. *)
Theorem create_natneg_other_cookies `{IPv6Validation} (db : DB) (cookie other : Z)
    (addr : string) (port now : Z) (Hne : other ≠ cookie) :
  DatabaseManager.get_natneg other
    (DatabaseManager.create_natneg cookie addr port now db).2
  = DatabaseManager.get_natneg other db.
Proof.
  unfold DatabaseManager.create_natneg. rewrite bind_unfold.
  unfold NatNeg_objects_update_or_create, objects_get.
  destruct (negb _); [done|].
  destruct (ip_column addr) as [stored_addr|e]; [|done].
  destruct (filter (natneg_pk cookie) (natneg db)) as [|x [|y l]] eqn:Hfil; cbn;
    [| |done].
  - apply get_natneg_frame. rewrite filter_app, (filter_cons_False _ _ []).
    + by rewrite filter_nil, app_nil_r.
    + unfold natneg_pk. cbn. congruence.
  - assert (NatNeg.cookie x = cookie) as Hx.
    { assert (x ∈ filter (natneg_pk cookie) (natneg db)) as Hin.
      { rewrite Hfil. apply list_elem_of_here. }
      by apply list_elem_of_filter in Hin as [? _]. }
    apply get_natneg_frame. rewrite Hx.
    exact (objects_update_frame (natneg_pk cookie) NatNeg.cookie cookie
             (λ r, NatNeg.mk (NatNeg.cookie r) stored_addr port (NatNeg.created_at r))
             (λ r, reflexivity _) (λ r, eq_refl) (natneg_pk other) other (natneg db)
             (λ r, reflexivity _) Hne).
Qed.

Lemma create_natneg_other_cookies_witness :
  (7 : Z) ≠ 42 ∧
  DatabaseManager.get_natneg 7
    (@DatabaseManager.create_natneg sample_ipv6 42 "1.1.1.1" 1000 10 empty_db).2
  = DatabaseManager.get_natneg 7 empty_db.
Proof.
  assert ((7 : Z) ≠ 42) as Hne by discriminate.
  split; [exact Hne|].
  exact (@create_natneg_other_cookies sample_ipv6 empty_db 42 7 "1.1.1.1" 1000 10 Hne).
Defined.

(** * Game server registration *)

Lemma elem_of_filter_singleton {R} (P : R → Prop) `{!∀ r, Decision (P r)}
    (tbl : list R) (r : R) :
  filter P tbl = [r] → r ∈ tbl ∧ P r.
Proof.
  intros Hone. assert (r ∈ filter P tbl) as Hin.
  { rewrite Hone. apply list_elem_of_here. }
  apply list_elem_of_filter in Hin. tauto.
Qed.

(** X12: the operations that start by reading a profile by its id do not
    write when no profile has the id.  [create_session] and
    [register_game_server] raise [Profile.DoesNotExist], [update_profile]
    answers [False], and each one leaves the store as it was. *)
Theorem unknown_profile_rejected `{IPv6Validation} (st : Store) (profile_id : Z)
    (Hmiss : ∀ p, p ∈ profiles (core st) → Profile.profile_id p ≠ profile_id) :
  (∀ random now,
     Manager.create_session profile_id random now st = (Raise DoesNotExist, st)) ∧
  (∀ kwargs,
     Manager.update_profile profile_id kwargs (core st) = (Ok false, core st)) ∧
  (∀ server_id game_name ip_address port kwargs now,
     Manager.register_game_server server_id game_name profile_id ip_address port kwargs
       now (core st) = (Raise DoesNotExist, core st)).
Proof.
  split_and!.
  - intros random now. unfold Manager.create_session.
    rewrite objects_get_no_match; [done|]. intros p Hp. by apply Hmiss.
  - intros kwargs. unfold Manager.update_profile.
    destruct (kwargs_empty kwargs); [done|]. unfold objects_update.
    rewrite fmap_rewrite_no_match, filter_no_match, with_profiles_id; try done.
  - intros server_id game_name ip_address port kwargs now.
    unfold Manager.register_game_server. rewrite bind_unfold. unfold query.
    rewrite objects_get_no_match; [done|]. intros p Hp. by apply Hmiss.
Qed.

Lemma unknown_profile_rejected_witness :
  (∀ p, p ∈ profiles (core testdata_store) → Profile.profile_id p ≠ 9) ∧
  Manager.create_session 9 sample_random testdata_now testdata_store
    = (Raise DoesNotExist, testdata_store) ∧
  Manager.update_profile 9 (mkKwargs None (Some "nick") None None) (core testdata_store)
    = (Ok false, core testdata_store) ∧
  @Manager.register_game_server sample_ipv6 "s1" "mariokartwii" 9 "10.0.0.1" 27000
    no_server_kwargs testdata_now (core testdata_store)
    = (Raise DoesNotExist, core testdata_store).
Proof.
  assert (∀ p, p ∈ profiles (core testdata_store) → Profile.profile_id p ≠ 9) as Hmiss.
  { intros p Hp. apply list_elem_of_singleton in Hp as ->. discriminate. }
  split; [exact Hmiss|].
  pose proof (@unknown_profile_rejected sample_ipv6 testdata_store 9 Hmiss)
    as (Hs & Hu & Hr).
  split; [exact (Hs sample_random testdata_now)|].
  split; [exact (Hu (mkKwargs None (Some "nick") None None))|].
  exact (Hr "s1" "mariokartwii" "10.0.0.1" 27000 no_server_kwargs testdata_now).
Defined.

(** X13: for a stored host, a non-empty address and a port and player
    counts that fit the integer columns, registering a server leaves exactly
    one row under the server id.  The row holds the game, host and port
    just given, the address in the form the address column stores it, and a
    heartbeat of that instant; a row that was already there keeps its
    registration time.  The object returned is that row with the address as
    it was given.  For the next two minutes [get_game_servers] lists the
    row, with and without its game name. *)
Theorem register_game_server_lists `{IPv6Validation} (db : DB) (p : Profile.t)
    (server_id game_name ip_address : string) (port : Z) (kwargs : GameServerKwargs)
    (now : Z)
    (Hpk : NoDup (Profile.profile_id <$> profiles db))
    (Hwf : game_servers_wf db)
    (Hin : p ∈ profiles db)
    (Haddr : ip_address ≠ "")
    (Hport : (- 2 ^ 63 ≤ port < 2 ^ 63)%Z)
    (Hmax : ∀ n, gkw_max_players kwargs = Some n → (- 2 ^ 63 ≤ n < 2 ^ 63)%Z)
    (Hcur : ∀ n, gkw_current_players kwargs = Some n → (- 2 ^ 63 ≤ n < 2 ^ 63)%Z) :
  ∃ stored db',
    Manager.register_game_server server_id game_name (Profile.profile_id p)
      ip_address port kwargs now db = (Ok (set_ip_address ip_address stored), db') ∧
    filter (server_key server_id) (game_servers db') = [stored] ∧
    game_servers_wf db' ∧
    GameServer.game_name stored = game_name ∧
    GameServer.host_profile stored = Some (Profile.profile_id p) ∧
    GameServer.ip_address stored = get_prep_value ip_address ∧
    (has_colon ip_address = false → set_ip_address ip_address stored = stored) ∧
    GameServer.port stored = port ∧
    GameServer.last_heartbeat stored = now ∧
    (∀ old, old ∈ game_servers db → GameServer.server_id old = server_id →
       GameServer.registered_at stored = GameServer.registered_at old) ∧
    (∀ later, later - now < timedelta_minutes 2 →
       stored ∈ DatabaseManager.get_game_servers None later db' ∧
       stored ∈ DatabaseManager.get_game_servers (Some game_name) later db').
Proof.
  unfold Manager.register_game_server. rewrite bind_unfold. unfold query.
  rewrite profile_lookup_hit by done. rewrite bind_unfold.
  unfold GameServer_objects_update_or_create.
  rewrite (fits_integer_true _ Hport).
  assert (from_option fits_integer true (gkw_max_players kwargs) = true) as ->.
  { destruct (gkw_max_players kwargs) as [n|]; [|done].
    by apply fits_integer_true, Hmax. }
  assert (from_option fits_integer true (gkw_current_players kwargs) = true) as ->.
  { destruct (gkw_current_players kwargs) as [n|]; [|done].
    by apply fits_integer_true, Hcur. }
  rewrite (ip_column_nonempty _ Haddr). cbn [andb negb].
  match goal with
  | |- context [objects_update_or_create ?P ?f ?c ?tbl] =>
      destruct (objects_update_or_create_lookup P GameServer.server_id server_id f c
                  (λ r, reflexivity _) (λ r, eq_refl) eq_refl tbl Hwf)
        as (row & is_new & Hres & Hone & Hnd & Hcase);
      destruct (objects_update_or_create P f c tbl) as [r tbl'] eqn:Hup
  end.
  cbn [fst snd] in Hres, Hone, Hnd. subst r. cbn beta iota zeta. cbn [mret M_ret].
  exists row, (with_game_servers tbl' db).
  assert (row ∈ tbl') as Hrow by (by apply elem_of_filter_singleton in Hone as [? _]).
  assert (GameServer.game_name row = game_name ∧
          GameServer.host_profile row = Some (Profile.profile_id p) ∧
          GameServer.ip_address row = get_prep_value ip_address ∧
          GameServer.port row = port ∧
          GameServer.last_heartbeat row = now) as (Hg & Hh & Hi & Hp & Hb).
  { destruct Hcase as [(_ & -> & _)|(_ & old & _ & _ & ->)]; done. }
  split_and!; try done.
  - intros Hplain. destruct row. unfold set_ip_address. cbn in *.
    by rewrite Hi, (get_prep_value_no_colon _ Hplain).
  - intros old Hold Hid.
    destruct Hcase as [(_ & _ & Hno)|(_ & old' & Hold' & HP' & ->)].
    + by destruct (Hno old Hold).
    + cbn. assert (filter (server_key server_id) (game_servers db) = [old']) as Hfil.
      { apply (filter_unique_key _ GameServer.server_id); try done.
        unfold server_key. congruence. }
      assert (old ∈ filter (server_key server_id) (game_servers db)) as Hmem.
      { by apply list_elem_of_filter. }
      rewrite Hfil in Hmem. by apply list_elem_of_singleton in Hmem as ->.
  - intros later Hlater.
    assert (heartbeat_after (later - timedelta_minutes 2) row) as Hafter.
    { unfold heartbeat_after. lia. }
    rewrite !get_game_servers_Permutation. cbn [game_servers with_game_servers].
    split.
    + by apply list_elem_of_filter.
    + destruct (truthy game_name); rewrite !list_elem_of_filter; done.
Qed.

Lemma register_game_server_lists_witness :
  NoDup (Profile.profile_id <$> profiles testdata_db) ∧
  game_servers_wf testdata_db ∧
  testdata_profile ∈ profiles testdata_db ∧
  "2001:0DB8:0:0:0:0:0:1" ≠ "" ∧
  (- 2 ^ 63 ≤ 27005 < 2 ^ 63)%Z ∧
  ∃ stored db',
    @Manager.register_game_server sample_ipv6 "mariokartwii_4_1000" "mariokartwii" 1
      "2001:0DB8:0:0:0:0:0:1" 27005 no_server_kwargs testdata_now testdata_db
      = (Ok (set_ip_address "2001:0DB8:0:0:0:0:0:1" stored), db') ∧
    filter (server_key "mariokartwii_4_1000") (game_servers db') = [stored] ∧
    game_servers_wf db' ∧
    GameServer.game_name stored = "mariokartwii" ∧
    GameServer.host_profile stored = Some 1 ∧
    GameServer.ip_address stored = "2001:db8::1" ∧
    GameServer.port stored = 27005 ∧
    GameServer.last_heartbeat stored = testdata_now.
Proof.
  assert (NoDup (Profile.profile_id <$> profiles testdata_db)) as Hpk.
  { apply (bool_decide_unpack _). vm_compute. exact I. }
  assert (game_servers_wf testdata_db) as Hwf.
  { unfold game_servers_wf. apply (bool_decide_unpack _). vm_compute. exact I. }
  assert (testdata_profile ∈ profiles testdata_db) as Hin by (cbn; left).
  assert ("2001:0DB8:0:0:0:0:0:1" ≠ "") as Haddr by discriminate.
  assert (- 2 ^ 63 ≤ 27005 < 2 ^ 63)%Z as Hport by lia.
  assert (∀ n, gkw_max_players no_server_kwargs = Some n → (- 2 ^ 63 ≤ n < 2 ^ 63)%Z)
    as Hmax by discriminate.
  assert (∀ n, gkw_current_players no_server_kwargs = Some n → (- 2 ^ 63 ≤ n < 2 ^ 63)%Z)
    as Hcur by discriminate.
  split; [exact Hpk|]. split; [exact Hwf|]. split; [exact Hin|].
  split; [exact Haddr|]. split; [exact Hport|].
  destruct (@register_game_server_lists sample_ipv6 testdata_db testdata_profile
              "mariokartwii_4_1000" "mariokartwii" "2001:0DB8:0:0:0:0:0:1" 27005
              no_server_kwargs testdata_now Hpk Hwf Hin Haddr Hport Hmax Hcur)
    as (stored & db' & Hreg & Hone & Hwf' & Hg & Hh & Hi & _ & Hp & Hb & _).
  exists stored, db'. split_and!; done.
Defined.

(** * Whitelist *)

Lemma is_whitelisted_single (st : Store) (user_id : Z) (mac_address : string)
    (entry : AllowList.t) :
  filter (allow_pk user_id) (allow_list st) = [entry] →
  Manager.is_whitelisted user_id mac_address st =
    Ok (AllowList.enabled entry && bool_decide (AllowList.mac_address entry = mac_address)).
Proof. intros Hone. unfold Manager.is_whitelisted, objects_get. by rewrite Hone. Qed.

Lemma is_whitelisted_absent (st : Store) (user_id : Z) (mac_address : string) :
  filter (allow_pk user_id) (allow_list st) = [] →
  Manager.is_whitelisted user_id mac_address st = Ok false.
Proof. intros Hnone. unfold Manager.is_whitelisted, objects_get. by rewrite Hnone. Qed.

Lemma is_whitelisted_frame (st : Store) (tbl : list AllowList.t) (user_id : Z)
    (mac_address : string) :
  filter (allow_pk user_id) tbl = filter (allow_pk user_id) (allow_list st) →
  Manager.is_whitelisted user_id mac_address (with_allow_list tbl st)
    = Manager.is_whitelisted user_id mac_address st.
Proof.
  intros Hsame. unfold Manager.is_whitelisted, objects_get. cbn. by rewrite Hsame.
Qed.

(** X14: [is_whitelisted] answers [True] exactly when the entry of the user
    is enabled and stores the very MAC address asked about; an unknown user,
    a disabled entry and a different MAC address all give [False]. *)
Theorem is_whitelisted_exact (st : Store) (user_id : Z) (mac_address : string)
    (Hwf : allow_list_wf st) :
  ∃ answer,
    Manager.is_whitelisted user_id mac_address st = Ok answer ∧
    (answer = true ↔
       ∃ e, e ∈ allow_list st ∧ AllowList.user_id e = user_id ∧
            AllowList.enabled e = true ∧ AllowList.mac_address e = mac_address).
Proof.
  destruct (objects_get_cases (allow_pk user_id) AllowList.user_id (allow_list st) Hwf)
    as [(e & Hin & He & Hfil & _)|(Hno & Hfil & _)].
  { unfold allow_pk. congruence. }
  - rewrite (is_whitelisted_single _ _ _ e) by done. eexists; split; [done|].
    rewrite andb_true_iff, bool_decide_eq_true. split.
    + intros [? ?]. by exists e.
    + intros (e' & Hin' & He' & Hen & Hmac).
      assert (e' ∈ filter (allow_pk user_id) (allow_list st)) as Hmem.
      { by apply list_elem_of_filter. }
      rewrite Hfil in Hmem. apply list_elem_of_singleton in Hmem as ->. done.
  - rewrite is_whitelisted_absent by done. eexists; split; [done|].
    split; [done|]. intros (e & Hin & He & _). by destruct (Hno e Hin).
Qed.

Lemma is_whitelisted_exact_witness :
  allow_list_wf testdata_store ∧
  ∃ answer,
    Manager.is_whitelisted 1000 "00:09:bf:11:22:33" testdata_store = Ok answer ∧
    (answer = true ↔
       ∃ e, e ∈ allow_list testdata_store ∧ AllowList.user_id e = 1000 ∧
            AllowList.enabled e = true ∧ AllowList.mac_address e = "00:09:bf:11:22:33").
Proof.
  assert (allow_list_wf testdata_store) as Hwf.
  { unfold allow_list_wf. apply (bool_decide_unpack _). vm_compute. exact I. }
  split; [exact Hwf|].
  exact (is_whitelisted_exact testdata_store 1000 "00:09:bf:11:22:33" Hwf).
Defined.



(** * Deny list *)

Lemma is_denied_frame (st : Store) (tbl : list DenyList.t) (user_id : Z)
    (game_id : string) :
  filter (deny_key user_id game_id) tbl = filter (deny_key user_id game_id) (deny_list st) →
  Manager.is_denied user_id game_id (with_deny_list tbl st)
    = Manager.is_denied user_id game_id st.
Proof. intros Hsame. unfold Manager.is_denied, objects_exists. cbn. by rewrite Hsame. Qed.

Lemma deny_key_pair (user_id : Z) (game_id : string) (e : DenyList.t) :
  deny_key user_id game_id e ↔ deny_pair e = (user_id, game_id).
Proof.
  unfold deny_key, deny_pair. split; [intros [-> ->]; done|intros [= -> ->]; done].
Qed.



(** * Generic bans: adding *)

Lemma is_banned_frame (db : DB) (tbl : list BannedItem.t) (ban_type identifier : string)
    (now : Z) :
  filter (banned_key ban_type identifier) tbl
    = filter (banned_key ban_type identifier) (banned db) →
  DatabaseManager.is_banned ban_type identifier now (with_banned tbl db)
    = DatabaseManager.is_banned ban_type identifier now db.
Proof.
  intros Hsame. unfold DatabaseManager.is_banned, objects_get. cbn. by rewrite Hsame.
Qed.

Lemma banned_key_pair (ban_type identifier : string) (b : BannedItem.t) :
  banned_key ban_type identifier b ↔ banned_pair b = (ban_type, identifier).
Proof.
  unfold banned_key, banned_pair. split; [intros [-> ->]; done|intros [= -> ->]; done].
Qed.

(** X17: after [add_ban] the identifier is banned until the expiry just
    given, for ever when none is given, whatever expiry an earlier ban of
    the same identifier had; a ban added with an expiry that has passed is
    not in force.  Other identifiers are answered as before. *)
Theorem add_ban_sets_window (db : DB) (ban_type identifier reason : string)
    (expires_at : option Z) (banned_by : string) (now : Z) (Hwf : banned_wf db) :
  ∃ ban db',
    Manager.add_ban ban_type identifier reason expires_at banned_by now db = (Ok ban, db') ∧
    banned_wf db' ∧
    (∀ later,
       DatabaseManager.is_banned ban_type identifier later db'
         = Ok (match expires_at with
               | Some e => bool_decide (later < e)
               | None => true
               end)) ∧
    (∀ t i later, (t, i) ≠ (ban_type, identifier) →
       DatabaseManager.is_banned t i later db' = DatabaseManager.is_banned t i later db).
Proof.
  unfold Manager.add_ban.
  match goal with
  | |- context [objects_update_or_create ?P ?f ?c ?tbl] =>
      destruct (objects_update_or_create_lookup P banned_pair (ban_type, identifier) f c
                  (banned_key_pair ban_type identifier) (λ r, eq_refl) eq_refl tbl Hwf)
        as (row & is_new & Hres & Hone & Hnd & Hcase);
      pose proof (λ t i (Hne : (t, i) ≠ (ban_type, identifier)),
                    objects_update_or_create_frame P banned_pair (ban_type, identifier) f c
                      (banned_key_pair ban_type identifier) (λ r, eq_refl) eq_refl
                      (banned_key t i) (t, i) tbl (banned_key_pair t i) Hne) as Hframe;
      destruct (objects_update_or_create P f c tbl) as [r tbl'] eqn:Hup
  end.
  cbn [fst snd] in Hres, Hone, Hnd, Hframe. subst r. cbn beta iota zeta.
  exists row, (with_banned tbl' db).
  assert (BannedItem.expires_at row = expires_at) as Hexp.
  { destruct Hcase as [(_ & -> & _)|(_ & old & _ & _ & ->)]; done. }
  split_and!; try done.
  - intros later. unfold DatabaseManager.is_banned, objects_get. cbn [banned with_banned].
    rewrite Hone. cbn. unfold BannedItem.is_active. by rewrite Hexp.
  - intros t i later Hne. apply is_banned_frame. by apply Hframe.
Qed.

Lemma add_ban_sets_window_witness :
  banned_wf testdata_db ∧
  ∃ ban db',
    Manager.add_ban "profile" "12345" "Cheating again" None "admin" testdata_now testdata_db
      = (Ok ban, db') ∧
    banned_wf db' ∧
    (∀ later, DatabaseManager.is_banned "profile" "12345" later db' = Ok true) ∧
    (∀ t i later, (t, i) ≠ ("profile", "12345") →
       DatabaseManager.is_banned t i later db'
         = DatabaseManager.is_banned t i later testdata_db).
Proof.
  assert (banned_wf testdata_db) as Hwf.
  { unfold banned_wf. apply (bool_decide_unpack _). vm_compute. exact I. }
  split; [exact Hwf|].
  exact (add_ban_sets_window testdata_db "profile" "12345" "Cheating again" None "admin"
           testdata_now Hwf).
Defined.

(** * Administrative removals *)

(** X18: [remove_from_whitelist], [remove_from_denylist] and [remove_ban]
    answer [True] exactly when an entry was stored under the key; afterwards
    the matching check answers [False] for that key, and every other key is
    answered as before. *)
Theorem removals_lift_the_entry (st : Store) (db : DB) (user_id : Z)
    (game_id ban_type identifier : string) :
  (∃ removed st',
     Manager.remove_from_whitelist user_id st = (Ok removed, st') ∧
     (removed = true ↔ ∃ e, e ∈ allow_list st ∧ AllowList.user_id e = user_id) ∧
     (∀ mac, Manager.is_whitelisted user_id mac st' = Ok false) ∧
     (∀ other mac, other ≠ user_id →
        Manager.is_whitelisted other mac st' = Manager.is_whitelisted other mac st)) ∧
  (∃ removed st',
     Manager.remove_from_denylist user_id game_id st = (Ok removed, st') ∧
     (removed = true ↔ ∃ e, e ∈ deny_list st ∧ deny_key user_id game_id e) ∧
     Manager.is_denied user_id game_id st' = false ∧
     (∀ u g, (u, g) ≠ (user_id, game_id) →
        Manager.is_denied u g st' = Manager.is_denied u g st)) ∧
  (∃ removed db',
     Manager.remove_ban ban_type identifier db = (Ok removed, db') ∧
     (removed = true ↔ ∃ b, b ∈ banned db ∧ banned_key ban_type identifier b) ∧
     (∀ now, DatabaseManager.is_banned ban_type identifier now db' = Ok false) ∧
     (∀ t i now, (t, i) ≠ (ban_type, identifier) →
        DatabaseManager.is_banned t i now db' = DatabaseManager.is_banned t i now db)).
Proof.
  split_and!.
  - eexists _, _. split; [reflexivity|]. split_and!.
    + apply filter_count_positive.
    + intros mac. apply is_whitelisted_absent. cbn. apply filter_delete_none.
    + intros other mac Hne. apply is_whitelisted_frame. apply filter_delete_frame.
      unfold allow_pk. congruence.
  - eexists _, _. split; [reflexivity|]. split_and!.
    + apply filter_count_positive.
    + unfold Manager.is_denied, objects_exists. cbn. by rewrite filter_delete_none.
    + intros u g Hne. apply is_denied_frame. apply filter_delete_frame.
      intros r Hr Hr'. apply deny_key_pair in Hr, Hr'. congruence.
  - eexists _, _. split; [reflexivity|]. split_and!.
    + apply filter_count_positive.
    + intros now. unfold DatabaseManager.is_banned, objects_get. cbn.
      by rewrite filter_delete_none.
    + intros t i now Hne. apply is_banned_frame. apply filter_delete_frame.
      intros r Hr Hr'. apply banned_key_pair in Hr, Hr'. congruence.
Qed.

(** * Consoles: first and later contacts *)

Lemma is_console_enabled_frame (db : DB) (tbl : list Console.t) (mac_address : string) :
  filter (console_mac mac_address) tbl = filter (console_mac mac_address) (consoles db) →
  DatabaseManager.is_console_enabled mac_address (with_consoles tbl db)
    = DatabaseManager.is_console_enabled mac_address db.
Proof.
  intros Hsame. unfold DatabaseManager.is_console_enabled, objects_get. cbn.
  by rewrite Hsame.
Qed.

(** X19: for a registered console [get_or_create_console] ignores the
    keyword arguments and only moves [last_seen] to the present: the console
    keeps its [enabled] flag, so a disabled console stays disabled, and the
    other consoles are not touched. *)
Theorem get_or_create_console_refreshes (db : DB) (c : Console.t)
    (kwargs : ConsoleKwargs) (now : Z)
    (Hwf : consoles_wf db) (Hin : c ∈ consoles db) :
  ∃ db',
    Manager.get_or_create_console (Console.mac_address c) kwargs now db
      = (Ok (set_last_seen now c), db') ∧
    consoles_wf db' ∧
    filter (console_mac (Console.mac_address c)) (consoles db') = [set_last_seen now c] ∧
    DatabaseManager.is_console_enabled (Console.mac_address c) db'
      = Ok (Console.enabled c) ∧
    (∀ other, other ≠ Console.mac_address c →
       DatabaseManager.is_console_enabled other db'
         = DatabaseManager.is_console_enabled other db).
Proof.
  set (mac := Console.mac_address c).
  assert (∀ r, console_mac mac r ↔ Console.mac_address r = mac) as Hkey by done.
  assert (∀ r, Console.mac_address (set_last_seen now r) = Console.mac_address r)
    as Hf by done.
  assert (filter (console_mac mac) (consoles db) = [c]) as Hfil.
  { apply (filter_unique_key _ Console.mac_address); try done.
    unfold console_mac. congruence. }
  exists (with_consoles (objects_update (console_mac mac) (set_last_seen now)
                           (consoles db)).1 db).
  assert (filter (console_mac mac)
            (objects_update (console_mac mac) (set_last_seen now) (consoles db)).1
          = [set_last_seen now c]) as Hone.
  { rewrite (objects_update_lookup _ Console.mac_address mac _ Hkey Hf). by rewrite Hfil. }
  split_and!.
  - unfold Manager.get_or_create_console, objects_get. by rewrite Hfil.
  - unfold consoles_wf. cbn [consoles with_consoles].
    by rewrite (objects_update_keys _ Console.mac_address _ Hf).
  - done.
  - unfold DatabaseManager.is_console_enabled, objects_get. cbn [consoles with_consoles].
    by rewrite Hone.
  - intros other Hne. apply is_console_enabled_frame.
    apply (objects_update_frame _ Console.mac_address mac _ Hkey Hf _ other); done.
Qed.

Lemma get_or_create_console_refreshes_witness :
  consoles_wf testdata_db ∧
  disabled_console ∈ consoles testdata_db ∧
  ∃ db',
    Manager.get_or_create_console "00:16:56:83:31:f9"
      (mkConsoleKwargs None None None (Some true) None) testdata_now testdata_db
      = (Ok (set_last_seen testdata_now disabled_console), db') ∧
    consoles_wf db' ∧
    filter (console_mac "00:16:56:83:31:f9") (consoles db')
      = [set_last_seen testdata_now disabled_console] ∧
    DatabaseManager.is_console_enabled "00:16:56:83:31:f9" db' = Ok false ∧
    (∀ other, other ≠ "00:16:56:83:31:f9" →
       DatabaseManager.is_console_enabled other db'
         = DatabaseManager.is_console_enabled other testdata_db).
Proof.
  assert (consoles_wf testdata_db) as Hwf.
  { unfold consoles_wf. apply (bool_decide_unpack _). vm_compute. exact I. }
  assert (disabled_console ∈ consoles testdata_db) as Hin.
  { cbn. right. left. }
  split; [exact Hwf|]. split; [exact Hin|].
  exact (get_or_create_console_refreshes testdata_db disabled_console
           (mkConsoleKwargs None None None (Some true) None) testdata_now Hwf Hin).
Defined.

(** X20: for a MAC address that is not registered [get_or_create_console]
    stores a console built from the keyword arguments; it is enabled unless
    the arguments say otherwise, so [is_console_enabled] answers [True] after
    a first contact without arguments.  The other consoles are not touched
    and the MAC addresses stay unique. *)
Theorem get_or_create_console_registers (db : DB) (mac_address : string)
    (kwargs : ConsoleKwargs) (now : Z)
    (Hmiss : ∀ c, c ∈ consoles db → Console.mac_address c ≠ mac_address) :
  ∃ db',
    Manager.get_or_create_console mac_address kwargs now db
      = (Ok (new_console mac_address kwargs now), db') ∧
    DatabaseManager.is_console_enabled mac_address db'
      = Ok (default true (ckw_enabled kwargs)) ∧
    (consoles_wf db → consoles_wf db') ∧
    (∀ other, other ≠ mac_address →
       DatabaseManager.is_console_enabled other db'
         = DatabaseManager.is_console_enabled other db).
Proof.
  assert (filter (console_mac mac_address) (consoles db) = []) as Hnone.
  { apply filter_no_match. intros c Hc. by apply Hmiss. }
  exists (with_consoles (consoles db ++ [new_console mac_address kwargs now]) db).
  split_and!.
  - unfold Manager.get_or_create_console, objects_get. by rewrite Hnone.
  - unfold DatabaseManager.is_console_enabled, objects_get. cbn [consoles with_consoles].
    by rewrite filter_snoc_fresh.
  - intros Hwf. unfold consoles_wf. cbn [consoles with_consoles].
    apply NoDup_snoc_fresh; [done|]. intros x Hx. by apply Hmiss.
  - intros other Hne. apply is_console_enabled_frame.
    rewrite filter_app, (filter_cons_False _ _ []).
    + by rewrite filter_nil, app_nil_r.
    + unfold console_mac. cbn. congruence.
Qed.

Lemma get_or_create_console_registers_witness :
  (∀ c, c ∈ consoles testdata_db → Console.mac_address c ≠ "00:1f:32:ab:cd:ef") ∧
  ∃ db',
    Manager.get_or_create_console "00:1f:32:ab:cd:ef" no_console_kwargs testdata_now
      testdata_db = (Ok (new_console "00:1f:32:ab:cd:ef" no_console_kwargs testdata_now), db') ∧
    DatabaseManager.is_console_enabled "00:1f:32:ab:cd:ef" db' = Ok true ∧
    (consoles_wf testdata_db → consoles_wf db') ∧
    (∀ other, other ≠ "00:1f:32:ab:cd:ef" →
       DatabaseManager.is_console_enabled other db'
         = DatabaseManager.is_console_enabled other testdata_db).
Proof.
  assert (∀ c, c ∈ consoles testdata_db → Console.mac_address c ≠ "00:1f:32:ab:cd:ef")
    as Hmiss.
  { apply (proj1 (Forall_forall _ _)). apply (bool_decide_unpack _). vm_compute. exact I. }
  split; [exact Hmiss|].
  exact (get_or_create_console_registers testdata_db "00:1f:32:ab:cd:ef"
           no_console_kwargs testdata_now Hmiss).
Defined.

(** * Members of a matchmaking group *)

Lemma pending_member_listed (db : DB) (group_id : Z) (p : Profile.t) (e : Pending.t) :
  p ∈ profiles db → e ∈ pending db →
  Pending.group_id e = group_id → Pending.profile e = Profile.profile_id p →
  p ∈ Manager.get_pending_profiles group_id db.
Proof.
  intros Hp He Hg Hpk. unfold Manager.get_pending_profiles.
  apply list_elem_of_bind. exists e. split.
  - by apply list_elem_of_filter.
  - apply elem_of_order_by_desc. by apply list_elem_of_filter.
Qed.

Lemma pending_listed_member (db : DB) (group_id : Z) (p : Profile.t) :
  p ∈ Manager.get_pending_profiles group_id db →
  p ∈ profiles db ∧
  ∃ e, e ∈ pending db ∧ pending_key (Profile.profile_id p) group_id e.
Proof.
  unfold Manager.get_pending_profiles. intros (e & Hp & He)%list_elem_of_bind.
  apply elem_of_order_by_desc in He.
  apply list_elem_of_filter in He as [Hg He].
  apply list_elem_of_filter in Hp as [Hpk Hp]. split; [done|]. by exists e.
Qed.

(** X21: [get_pending_profiles] lists exactly the stored profiles that have
    an entry in the group. *)
Theorem get_pending_profiles_members (db : DB) (group_id : Z) (p : Profile.t) :
  p ∈ Manager.get_pending_profiles group_id db ↔
    p ∈ profiles db ∧
    ∃ e, e ∈ pending db ∧ Pending.group_id e = group_id ∧
         Pending.profile e = Profile.profile_id p.
Proof.
  split.
  - intros Hlisted. apply pending_listed_member in Hlisted as (Hp & e & He & Hpk & Hg).
    split; [done|]. by exists e.
  - intros (Hp & e & He & Hg & Hpk). by apply (pending_member_listed db group_id p e).
Qed.



(** * Liveness as the REST layer reports it *)

(** X23: the serializer calls a console [online] while it was seen less
    than 5 minutes ago, [recent] from 5 minutes up to, but not including,
    60 minutes, and [offline] from 60 minutes on. *)
Theorem console_status_windows (obj : Console.t) (now : Z) :
  (ConsoleSerializer.get_status obj now = "online" ↔
     now - Console.last_seen obj < timedelta_minutes 5) ∧
  (ConsoleSerializer.get_status obj now = "recent" ↔
     (timedelta_minutes 5 ≤ now - Console.last_seen obj)%Z ∧
     now - Console.last_seen obj < timedelta_minutes 60) ∧
  (ConsoleSerializer.get_status obj now = "offline" ↔
     (timedelta_minutes 60 ≤ now - Console.last_seen obj)%Z).
Proof.
  unfold ConsoleSerializer.get_status, ONLINE_TIMEOUT_MINUTES, RECENT_TIMEOUT_MINUTES,
    timedelta_minutes.
  repeat case_bool_decide; split_and!; split; (discriminate || lia || done).
Qed.

Lemma get_status_online (obj : Console.t) (now : Z) :
  ConsoleSerializer.get_status obj now = "online" ↔
    Console.last_seen obj > now - timedelta_minutes 5.
Proof.
  unfold ConsoleSerializer.get_status, ONLINE_TIMEOUT_MINUTES.
  repeat case_bool_decide; split; (done || discriminate).
Qed.

Lemma elem_of_order_by_last_heartbeat_desc (qs : list GameServer.t) (s : GameServer.t) :
  s ∈ order_by_last_heartbeat_desc qs ↔ s ∈ qs.
Proof. unfold order_by_last_heartbeat_desc. by rewrite merge_sort_Permutation. Qed.

(** X24: the list endpoints compare with "at or after the cutoff", the
    model methods with "after the threshold".  So [online] consoles are
    those of status [online] and those seen exactly 5 minutes ago, [active]
    sessions are those [is_active] accepts and those opened exactly 30
    minutes ago, and [online] game servers are those [get_game_servers]
    lists and those whose heartbeat is exactly 2 minutes old. *)
Theorem list_endpoints_include_the_boundary (now : Z) (st : Store) :
  (∀ c, c ∈ ConsoleViewSet.online now (core st) ↔
     c ∈ consoles (core st) ∧
     (ConsoleSerializer.get_status c now = "online" ∨
      Console.last_seen c = now - timedelta_minutes 5)) ∧
  (∀ row, row ∈ SessionViewSet.active now st ↔
     row ∈ Session_select_related st ∧
     (Session.is_active row.1 now = true ∨
      Session.login_time row.1 = now - timedelta_minutes 30)) ∧
  (∀ s, s ∈ GameServerViewSet.online now (core st) ↔
     s ∈ DatabaseManager.get_game_servers None now (core st) ∨
     (s ∈ game_servers (core st) ∧
      GameServer.last_heartbeat s = now - timedelta_minutes 2)).
Proof.
  split_and!.
  - intros c. unfold ConsoleViewSet.online.
    rewrite elem_of_order_by_desc, list_elem_of_filter, get_status_online.
    unfold seen_since, ONLINE_TIMEOUT_MINUTES. split.
    + intros [? ?]. split; [done|]. lia.
    + intros [? [?|?]]; split; (done || lia).
  - intros row. unfold SessionViewSet.active.
    rewrite elem_of_order_by_desc, list_elem_of_filter.
    unfold joined_login_since, Session.is_active, SESSION_TIMEOUT_MINUTES.
    rewrite bool_decide_eq_true. split.
    + intros [? ?]. split; [done|]. lia.
    + intros [? [?|?]]; split; (done || lia).
  - intros s. unfold GameServerViewSet.online.
    rewrite elem_of_order_by_last_heartbeat_desc, get_game_servers_Permutation,
      !list_elem_of_filter.
    unfold heartbeat_since, heartbeat_after, HEARTBEAT_TIMEOUT_MINUTES. split.
    + intros [? ?].
      destruct (decide (GameServer.last_heartbeat s = now - timedelta_minutes 2));
        [by right|]. left. split; [lia|done].
    + intros [[? ?]|[? ?]]; split; (done || lia).
Qed.

(** * Bans as the REST layer reports them *)

(** X25: the [active] list of bans holds exactly the stored bans for which
    [is_active] holds. *)
Theorem banned_active_lists_active_bans (now : Z) (db : DB) (b : BannedItem.t) :
  b ∈ BannedItemViewSet.active now db ↔
    b ∈ banned db ∧ BannedItem.is_active b now = true.
Proof.
  unfold BannedItemViewSet.active.
  rewrite elem_of_order_by_desc, list_elem_of_filter.
  unfold expires_after_or_never, BannedItem.is_active.
  destruct (BannedItem.expires_at b) as [e|].
  - rewrite bool_decide_eq_true. split; intros [? ?]; split; (done || lia).
  - tauto.
Qed.

(** X26: for a non-empty ban type and identifier the [check] endpoint
    agrees with [is_banned]: it reports a ban, with the reason and expiry of
    the stored row, exactly when [is_banned] answers [True], reports no ban
    when it answers [False], and fails with the same exception. *)
Theorem ban_check_agrees_with_is_banned (ban_type identifier : string) (now : Z)
    (db : DB) (Htype : ban_type ≠ "") (Hident : identifier ≠ "") :
  match DatabaseManager.is_banned ban_type identifier now db with
  | Ok true =>
      ∃ b, b ∈ banned db ∧ banned_key ban_type identifier b ∧
           BannedItemViewSet.check (Some ban_type) (Some identifier) now db
             = Ok (HTTP_200 (Banned (BannedItem.reason b) (BannedItem.expires_at b)))
  | Ok false =>
      BannedItemViewSet.check (Some ban_type) (Some identifier) now db
        = Ok (HTTP_200 NotBanned)
  | Raise e =>
      BannedItemViewSet.check (Some ban_type) (Some identifier) now db = Raise e
  end.
Proof.
  apply truthy_nonempty in Htype, Hident.
  unfold BannedItemViewSet.check, DatabaseManager.is_banned, objects_get.
  rewrite Htype, Hident. cbn [negb orb].
  destruct (filter (banned_key ban_type identifier) (banned db)) as [|b [|b' l]] eqn:Hfil;
    cbn; [done| |done].
  destruct (BannedItem.is_active b now) eqn:Hact; [|done].
  apply elem_of_filter_singleton in Hfil as [Hin Hkey]. by exists b.
Qed.

Lemma ban_check_agrees_with_is_banned_witness :
  "ip" ≠ "" ∧ "192.168.1.666" ≠ "" ∧
  ∃ b, b ∈ banned testdata_db ∧ banned_key "ip" "192.168.1.666" b ∧
       BannedItemViewSet.check (Some "ip") (Some "192.168.1.666") testdata_now testdata_db
         = Ok (HTTP_200 (Banned (BannedItem.reason b) (BannedItem.expires_at b))).
Proof.
  assert ("ip" ≠ "") as Htype by discriminate.
  assert ("192.168.1.666" ≠ "") as Hident by discriminate.
  split; [exact Htype|]. split; [exact Hident|].
  exact (ban_check_agrees_with_is_banned "ip" "192.168.1.666" testdata_now testdata_db
           Htype Hident).
Defined.

(** * Looking a profile up by friend code *)

(** X27: the first lookup of a process, with a non-empty query, answers
    with a stored profile whose [friend_code], dashes removed, is the query
    with its dashes removed, and answers "not found" only when no stored
    profile has such a code.  It leaves the rows it read in the query set of
    the view, and from then on a lookup is answered from those rows whatever
    the database holds.  Two queries that differ only in their dashes get
    the same answer. *)
Theorem lookup_friend_code_finds `{FriendCodeCodec} (db : DB) (fc : string)
    (Hfc : fc ≠ "") :
  match (ProfileViewSet.lookup_friend_code (Some fc) db None).1 with
  | HTTP_200 p =>
      p ∈ profiles db ∧ remove_dashes (Profile.friend_code p) = remove_dashes fc
  | HTTP_404 _ =>
      ∀ p, p ∈ profiles db → remove_dashes (Profile.friend_code p) ≠ remove_dashes fc
  | _ => False
  end ∧
  (∃ rows,
     (ProfileViewSet.lookup_friend_code (Some fc) db None).2 = Some rows ∧
     ∀ later_db fc', fc' ≠ "" →
       ProfileViewSet.lookup_friend_code (Some fc') later_db (Some rows)
         = ProfileViewSet.lookup_friend_code (Some fc') db None) ∧
  (∀ fc' cache, fc' ≠ "" → remove_dashes fc' = remove_dashes fc →
     ProfileViewSet.lookup_friend_code (Some fc') db cache
       = ProfileViewSet.lookup_friend_code (Some fc) db cache).
Proof.
  apply truthy_nonempty in Hfc. unfold ProfileViewSet.lookup_friend_code.
  rewrite Hfc. cbn [negb fst snd]. split_and!.
  - destruct (filter _ (order_by_desc Profile.created_at (profiles db)))
      as [|p l] eqn:Hfil.
    + intros p Hp Hmatch.
      eapply (filter_nil_not_elem_of _ _ p); [exact Hfil|exact Hmatch|].
      by apply elem_of_order_by_desc.
    + assert (p ∈ filter (ProfileViewSet.friend_code_is (remove_dashes fc))
                    (order_by_desc Profile.created_at (profiles db))) as Hin.
      { rewrite Hfil. apply list_elem_of_here. }
      apply list_elem_of_filter in Hin as [Hmatch Hin].
      split; [by apply elem_of_order_by_desc in Hin|done].
  - eexists. split; [reflexivity|]. intros later_db fc' Hfc'.
    apply truthy_nonempty in Hfc'. by rewrite Hfc'.
  - intros fc' cache Hfc' Hsame. apply truthy_nonempty in Hfc'.
    rewrite Hfc'. cbn [negb]. by rewrite Hsame.
Qed.

Lemma lookup_friend_code_finds_witness :
  "2877-6280-8833" ≠ "" ∧
  (@ProfileViewSet.lookup_friend_code spec_codec (Some "2877-6280-8833") testdata_db None).1
    = HTTP_200 testdata_profile ∧
  (∃ rows,
     (@ProfileViewSet.lookup_friend_code spec_codec (Some "2877-6280-8833")
        testdata_db None).2 = Some rows ∧
     ∀ later_db fc', fc' ≠ "" →
       @ProfileViewSet.lookup_friend_code spec_codec (Some fc') later_db (Some rows)
       = @ProfileViewSet.lookup_friend_code spec_codec (Some fc') testdata_db None).
Proof.
  assert ("2877-6280-8833" ≠ "") as Hfc by discriminate.
  split; [exact Hfc|].
  pose proof (@lookup_friend_code_finds spec_codec testdata_db "2877-6280-8833" Hfc)
    as (Hfound & Hcache & Hdashes).
  split; [reflexivity|exact Hcache].
Defined.

(** * The schema constraints are kept *)

Lemma filter_nil_fresh {R K} (P : R → Prop) `{!∀ r, Decision (P r)} (key : R → K)
    (k : K) (tbl : list R) :
  (∀ r, P r ↔ key r = k) → filter P tbl = [] → ∀ x, x ∈ tbl → key x ≠ k.
Proof.
  intros Hkey Hnil x Hx Heq. apply (filter_nil_not_elem_of P tbl x); [done| |done].
  by apply Hkey.
Qed.

Lemma profiles_wf_after_creation (db : DB) (row : Profile.t) :
  profiles_wf db →
  Profile.profile_id row = profiles_seq db →
  (∀ x, x ∈ profiles db → profile_pair x ≠ profile_pair row) →
  profiles_wf (after_creation db row).
Proof.
  intros (Hpk & Hpair & Hseq) Hid Hfresh. unfold profiles_wf, after_creation. cbn.
  rewrite Forall_forall in Hseq. split_and!.
  - apply NoDup_snoc_fresh; [done|]. intros x Hx. specialize (Hseq x Hx). lia.
  - by apply NoDup_snoc_fresh.
  - apply Forall_app. split.
    + apply Forall_forall. intros x Hx. specialize (Hseq x Hx). lia.
    + apply Forall_singleton. lia.
Qed.

Section profile_invariant.
Context `{FriendCodeCodec}.

Lemma create_profile_keeps_wf (db : DB) (user_id game_id : string)
    (kwargs : ProfileKwargs) (now : Z) :
  profiles_wf db →
  profiles_wf (DatabaseManager.create_profile user_id game_id kwargs now db).2.
Proof.
  intros Hwf. unfold DatabaseManager.create_profile.
  rewrite bind_unfold. unfold Profile_objects_create, objects_exists.
  destruct (filter (profile_user_game user_id game_id) (profiles db)) as [|x l] eqn:Hfil;
    [|done].
  assert (∀ x, x ∈ profiles db → profile_pair x ≠ (user_id, game_id)) as Hfresh.
  { intros x Hx Heq. apply (filter_nil_not_elem_of _ _ x Hfil); [|done].
    unfold profile_pair in Heq. injection Heq as ? ?. by split. }
  assert (profiles_wf (after_creation db (new_profile (profiles_seq db) user_id game_id
                                            kwargs now))) as Hnew.
  { by apply profiles_wf_after_creation. }
  rewrite bind_unfold. unfold lift. cbn [Profile.profile_id new_profile].
  destruct (generate_friend_code (profiles_seq db) game_id) as [fc|e]; [|exact Hnew].
  rewrite bind_unfold. destruct (format_friend_code fc) as [code|e]; [|exact Hnew].
  rewrite bind_unfold.
  pose proof Hwf as (_ & _ & Hseq).
  fold (after_creation db (new_profile (profiles_seq db) user_id game_id kwargs now)).
  rewrite (Profile_save_cfc_created db user_id game_id kwargs now code Hseq).
  cbn [snd mret M_ret]. by apply profiles_wf_after_creation.
Qed.

Lemma get_or_create_profile_keeps_wf (db : DB) (user_id game_id : string)
    (kwargs : ProfileKwargs) (now : Z) :
  profiles_wf db →
  profiles_wf (DatabaseManager.get_or_create_profile user_id game_id kwargs now db).2.
Proof.
  intros Hwf. unfold DatabaseManager.get_or_create_profile, atomic.
  rewrite bind_unfold. unfold Profile_objects_get_or_create, objects_get.
  destruct (filter (profile_user_game user_id game_id) (profiles db))
    as [|x [|y l]] eqn:Hfil; [|done|done].
  assert (∀ x, x ∈ profiles db → profile_pair x ≠ (user_id, game_id)) as Hfresh.
  { intros x Hx Heq. apply (filter_nil_not_elem_of _ _ x Hfil); [|done].
    unfold profile_pair in Heq. injection Heq as ? ?. by split. }
  rewrite bind_unfold. unfold Profile_objects_create, objects_exists. rewrite Hfil.
  cbn [mret M_ret]. rewrite bind_unfold. unfold lift.
  cbn [Profile.profile_id new_profile].
  destruct (generate_friend_code (profiles_seq db) game_id) as [fc|e]; [|done].
  rewrite bind_unfold. destruct (format_friend_code fc) as [code|e]; [|done].
  rewrite bind_unfold.
  pose proof Hwf as (_ & _ & Hseq).
  fold (after_creation db (new_profile (profiles_seq db) user_id game_id kwargs now)).
  rewrite (Profile_save_cfc_created db user_id game_id kwargs now code Hseq).
  cbn [snd mret M_ret]. by apply profiles_wf_after_creation.
Qed.
End profile_invariant.

Lemma update_profile_keeps_wf (db : DB) (profile_id : Z) (kwargs : ProfileKwargs) :
  profiles_wf db → profiles_wf (Manager.update_profile profile_id kwargs db).2.
Proof.
  intros (Hpk & Hpair & Hseq). unfold Manager.update_profile.
  destruct (kwargs_empty kwargs); [done|]. unfold objects_update, profiles_wf. cbn.
  assert (∀ r, Profile.profile_id
                 (if decide (profile_pk profile_id r) then patch_profile kwargs r else r)
               = Profile.profile_id r) as Hid.
  { intros r. by destruct (decide _). }
  assert (∀ r, profile_pair
                 (if decide (profile_pk profile_id r) then patch_profile kwargs r else r)
               = profile_pair r) as Hpr.
  { intros r. by destruct (decide _). }
  split_and!.
  - rewrite <- list_fmap_compose.
    rewrite (list_fmap_ext _ Profile.profile_id (profiles db)); [done|].
    intros i r _. apply Hid.
  - rewrite <- list_fmap_compose.
    rewrite (list_fmap_ext _ profile_pair (profiles db)); [done|].
    intros i r _. apply Hpr.
  - apply Forall_fmap. eapply Forall_impl; [exact Hseq|].
    intros r Hr. cbn. by rewrite Hid.
Qed.

Lemma add_to_pending_keeps_wf (db : DB) (profile_id group_id now : Z) :
  pending_wf db → pending_wf (DatabaseManager.add_to_pending profile_id group_id now db).2.
Proof.
  intros Hwf. unfold DatabaseManager.add_to_pending. rewrite bind_unfold. unfold query.
  destruct (objects_get (profile_pk profile_id) (profiles db)) as [p|e]; [|done].
  rewrite bind_unfold. unfold Pending_objects_get_or_create, objects_get.
  destruct (filter (pending_key (Profile.profile_id p) group_id) (pending db))
    as [|x [|y l]] eqn:Hfil; [|done|done].
  cbn. unfold pending_wf. cbn. apply NoDup_snoc_fresh; [done|]. intros x Hx Heq.
  apply (filter_nil_not_elem_of _ _ x Hfil); [|done].
  unfold pending_pair in Heq. cbn in Heq. injection Heq as ? ?. by split.
Qed.

(** A new entry takes the next value of the sequence, which no entry has. *)
Lemma add_to_pending_keeps_pk (db : DB) (profile_id group_id now : Z) :
  pending_pk_wf db →
  pending_pk_wf (DatabaseManager.add_to_pending profile_id group_id now db).2.
Proof.
  intros [Hnd Hseq]. unfold DatabaseManager.add_to_pending. rewrite bind_unfold.
  unfold query.
  destruct (objects_get (profile_pk profile_id) (profiles db)) as [p|e]; [|done].
  rewrite bind_unfold. unfold Pending_objects_get_or_create, objects_get.
  destruct (filter (pending_key (Profile.profile_id p) group_id) (pending db))
    as [|x [|y l]] eqn:Hfil; [|done|done].
  cbn. unfold pending_pk_wf. cbn. split.
  - apply NoDup_snoc_fresh; [done|]. intros x Hx.
    pose proof (proj1 (Forall_forall _ _) Hseq x Hx) as Hlt. cbn in Hlt. cbn. lia.
  - apply Forall_app. split.
    + eapply Forall_impl; [exact Hseq|]. intros x Hx. cbn in *. lia.
    + apply Forall_singleton. cbn. lia.
Qed.

Lemma remove_from_pending_keeps_pk (db : DB) (profile_id group_id : Z) :
  pending_pk_wf db →
  pending_pk_wf (DatabaseManager.remove_from_pending profile_id group_id db).2.
Proof.
  intros [Hnd Hseq]. unfold pending_pk_wf. cbn. split.
  - by apply NoDup_fmap_filter.
  - apply Forall_forall. intros x Hx. apply list_elem_of_filter in Hx as [_ Hx].
    exact (proj1 (Forall_forall _ _) Hseq x Hx).
Qed.

Lemma create_natneg_keeps_wf `{IPv6Validation} (db : DB) (cookie : Z) (addr : string)
    (port now : Z) :
  natneg_wf db → natneg_wf (DatabaseManager.create_natneg cookie addr port now db).2.
Proof.
  intros Hwf. unfold DatabaseManager.create_natneg. rewrite bind_unfold.
  unfold NatNeg_objects_update_or_create.
  destruct (negb _); [done|].
  destruct (ip_column addr) as [stored_addr|e]; [|done].
  destruct (objects_get_cases (natneg_pk cookie) NatNeg.cookie (natneg db))
    as [(old & Hin & Hold & Hfil & ->)|(Hno & Hfil & ->)];
    [done|apply natneg_pk_cookie| |].
  - unfold natneg_wf, objects_update. cbn. rewrite <- list_fmap_compose.
    rewrite (list_fmap_ext _ NatNeg.cookie (natneg db)); [done|].
    intros i r _. cbn. by destruct (decide _).
  - cbn. apply NoDup_snoc_fresh; [done|]. intros x Hx. apply (Hno x Hx).
Qed.

Lemma register_game_server_keeps_wf `{IPv6Validation} (db : DB)
    (server_id game_name : string) (profile_id : Z) (ip_address : string) (port : Z)
    (kwargs : GameServerKwargs) (now : Z) :
  game_servers_wf db →
  game_servers_wf
    (Manager.register_game_server server_id game_name profile_id ip_address port
       kwargs now db).2.
Proof.
  intros Hwf. unfold Manager.register_game_server. rewrite bind_unfold. unfold query.
  destruct (objects_get (profile_pk profile_id) (profiles db)) as [p|e]; [|done].
  rewrite bind_unfold. unfold GameServer_objects_update_or_create.
  destruct (negb _); [done|].
  destruct (ip_column ip_address) as [stored_address|e]; [|done].
  match goal with
  | |- context [objects_update_or_create ?P ?f ?c ?tbl] =>
      destruct (objects_update_or_create_lookup P GameServer.server_id server_id f c
                  (λ r, reflexivity _) (λ r, eq_refl) eq_refl tbl Hwf)
        as (row & is_new & Hres & _ & Hnd & _);
      destruct (objects_update_or_create P f c tbl) as [r tbl'] eqn:Hup
  end.
  cbn [fst snd] in Hres, Hnd. subst r. done.
Qed.

Lemma add_ban_keeps_wf (db : DB) (ban_type identifier reason : string)
    (expires_at : option Z) (banned_by : string) (now : Z) :
  banned_wf db →
  banned_wf (Manager.add_ban ban_type identifier reason expires_at banned_by now db).2.
Proof.
  intros Hwf. unfold Manager.add_ban.
  match goal with
  | |- context [objects_update_or_create ?P ?f ?c ?tbl] =>
      destruct (objects_update_or_create_lookup P banned_pair (ban_type, identifier) f c
                  (banned_key_pair ban_type identifier) (λ r, eq_refl) eq_refl tbl Hwf)
        as (row & is_new & Hres & _ & Hnd & _);
      destruct (objects_update_or_create P f c tbl) as [r tbl'] eqn:Hup
  end.
  cbn [fst snd] in Hres, Hnd. subst r. done.
Qed.

Lemma get_or_create_console_keeps_wf (db : DB) (mac_address : string)
    (kwargs : ConsoleKwargs) (now : Z) :
  consoles_wf db →
  consoles_wf (Manager.get_or_create_console mac_address kwargs now db).2.
Proof.
  intros Hwf. unfold Manager.get_or_create_console, objects_get.
  destruct (filter (console_mac mac_address) (consoles db)) as [|x [|y l]] eqn:Hfil;
    [| |done].
  - unfold consoles_wf. cbn. apply NoDup_snoc_fresh; [done|].
    apply (filter_nil_fresh (console_mac mac_address)); done.
  - unfold consoles_wf, objects_update. cbn [fst snd consoles with_consoles].
    rewrite <- list_fmap_compose.
    rewrite (list_fmap_ext _ Console.mac_address (consoles db)); [done|].
    intros i r _. cbn. by destruct (decide _).
Qed.

(** Every operation writes to one table: its result is the database with
    that table replaced. *)

Section profile_shape.
Context `{FriendCodeCodec}.

Lemma create_profile_shape (db : DB) (user_id game_id : string)
    (kwargs : ProfileKwargs) (now : Z) :
  ∃ tbl seq,
    (DatabaseManager.create_profile user_id game_id kwargs now db).2
      = with_profiles tbl seq db.
Proof.
  unfold DatabaseManager.create_profile.
  rewrite bind_unfold. unfold Profile_objects_create, objects_exists.
  destruct (filter (profile_user_game user_id game_id) (profiles db)) as [|x l].
  - rewrite bind_unfold. unfold lift.
    destruct (generate_friend_code _ game_id) as [fc|e]; [|eexists _, _; reflexivity].
    rewrite bind_unfold.
    destruct (format_friend_code fc) as [code|e]; [|eexists _, _; reflexivity].
    rewrite bind_unfold. unfold Profile_save_cfc.
    destruct (objects_update _ _ _) as [tbl n]. eexists _, _. reflexivity.
  - exists (profiles db), (profiles_seq db). by rewrite with_profiles_id.
Qed.

Lemma get_or_create_profile_shape (db : DB) (user_id game_id : string)
    (kwargs : ProfileKwargs) (now : Z) :
  ∃ tbl seq,
    (DatabaseManager.get_or_create_profile user_id game_id kwargs now db).2
      = with_profiles tbl seq db.
Proof.
  assert (∃ tbl seq, db = with_profiles tbl seq db) as Hsame.
  { exists (profiles db), (profiles_seq db). by rewrite with_profiles_id. }
  unfold DatabaseManager.get_or_create_profile, atomic.
  rewrite bind_unfold. unfold Profile_objects_get_or_create, objects_get.
  destruct (filter (profile_user_game user_id game_id) (profiles db))
    as [|x [|y l]] eqn:Hfil; [|exact Hsame|exact Hsame].
  rewrite bind_unfold. unfold Profile_objects_create, objects_exists. rewrite Hfil.
  cbn [mret M_ret]. rewrite bind_unfold. unfold lift.
  destruct (generate_friend_code _ game_id) as [fc|e]; [|exact Hsame].
  rewrite bind_unfold.
  destruct (format_friend_code fc) as [code|e]; [|exact Hsame].
  rewrite bind_unfold. unfold Profile_save_cfc.
  destruct (objects_update _ _ _) as [tbl n]. eexists _, _. reflexivity.
Qed.
End profile_shape.

Lemma add_to_pending_shape (db : DB) (profile_id group_id now : Z) :
  ∃ tbl seq,
    (DatabaseManager.add_to_pending profile_id group_id now db).2
      = with_pending tbl seq db.
Proof.
  assert (∃ tbl seq, db = with_pending tbl seq db) as Hsame.
  { exists (pending db), (pending_seq db). by destruct db. }
  unfold DatabaseManager.add_to_pending. rewrite bind_unfold. unfold query.
  destruct (objects_get (profile_pk profile_id) (profiles db)) as [p|e]; [|exact Hsame].
  rewrite bind_unfold. unfold Pending_objects_get_or_create, objects_get.
  destruct (filter (pending_key (Profile.profile_id p) group_id) (pending db))
    as [|x [|y l]]; [|exact Hsame|exact Hsame].
  eexists _, _. reflexivity.
Qed.

Lemma create_natneg_shape `{IPv6Validation} (db : DB) (cookie : Z) (addr : string)
    (port now : Z) :
  ∃ tbl, (DatabaseManager.create_natneg cookie addr port now db).2 = with_natneg tbl db.
Proof.
  assert (∃ tbl, db = with_natneg tbl db) as Hsame.
  { exists (natneg db). by destruct db. }
  unfold DatabaseManager.create_natneg. rewrite bind_unfold.
  unfold NatNeg_objects_update_or_create, objects_get.
  destruct (negb _); [exact Hsame|].
  destruct (ip_column addr) as [stored_addr|e]; [|exact Hsame].
  destruct (filter (natneg_pk cookie) (natneg db)) as [|x [|y l]];
    [| |exact Hsame]; eexists; reflexivity.
Qed.

Lemma register_game_server_shape `{IPv6Validation} (db : DB)
    (server_id game_name : string) (profile_id : Z) (ip_address : string) (port : Z)
    (kwargs : GameServerKwargs) (now : Z) :
  ∃ tbl,
    (Manager.register_game_server server_id game_name profile_id ip_address port
       kwargs now db).2 = with_game_servers tbl db.
Proof.
  assert (∃ tbl, db = with_game_servers tbl db) as Hsame.
  { exists (game_servers db). by destruct db. }
  unfold Manager.register_game_server. rewrite bind_unfold. unfold query.
  destruct (objects_get (profile_pk profile_id) (profiles db)) as [p|e];
    [|exact Hsame].
  rewrite bind_unfold. unfold GameServer_objects_update_or_create.
  destruct (negb _); [exact Hsame|].
  destruct (ip_column ip_address) as [stored_address|e]; [|exact Hsame].
  destruct (objects_update_or_create _ _ _ _) as [[[server is_new]|e] tbl];
    eexists; reflexivity.
Qed.

Section constraints.
Context `{FriendCodeCodec} `{IPv6Validation}.
Context (db : DB) (Hwf : db_wf db).

Lemma db_wf_profiles (tbl : list Profile.t) (seq : Z) :
  profiles_wf (with_profiles tbl seq db) → db_wf (with_profiles tbl seq db).
Proof. destruct Hwf as (_ & [? ?] & ? & ? & ? & ?). intros ?. by split_and!. Qed.

Lemma db_wf_pending (tbl : list Pending.t) (seq : Z) :
  pending_pk_wf (with_pending tbl seq db) → pending_wf (with_pending tbl seq db) →
  db_wf (with_pending tbl seq db).
Proof. destruct Hwf as (? & _ & ? & ? & ? & ?). intros ? ?. by split_and!. Qed.

Lemma db_wf_natneg (tbl : list NatNeg.t) :
  natneg_wf (with_natneg tbl db) → db_wf (with_natneg tbl db).
Proof. destruct Hwf as (? & [? ?] & _ & ? & ? & ?). intros ?. by split_and!. Qed.

Lemma db_wf_banned (tbl : list BannedItem.t) :
  banned_wf (with_banned tbl db) → db_wf (with_banned tbl db).
Proof. destruct Hwf as (? & [? ?] & ? & _ & ? & ?). intros ?. by split_and!. Qed.

Lemma db_wf_consoles (tbl : list Console.t) :
  consoles_wf (with_consoles tbl db) → db_wf (with_consoles tbl db).
Proof. destruct Hwf as (? & [? ?] & ? & ? & _ & ?). intros ?. by split_and!. Qed.

Lemma db_wf_game_servers (tbl : list GameServer.t) :
  game_servers_wf (with_game_servers tbl db) → db_wf (with_game_servers tbl db).
Proof. destruct Hwf as (? & [? ?] & ? & ? & ? & _). intros ?. by split_and!. Qed.

(** X29: every writing operation of the manager on profiles, pending
    entries, NAT negotiations, game servers, bans and consoles keeps the
    key constraints that [db_wf] gathers, whether it succeeds or fails:
    the primary keys [profile_id], [Pending.id] and [cookie] stay unique,
    the two auto-increment ones stay below the next value of their
    sequence, and so do the unique columns [mac_address] and [server_id]
    and the [unique_together] pairs of profiles, pending entries and
    bans. *)
Theorem db_constraints_kept :
  (∀ user_id game_id kwargs now,
     db_wf (DatabaseManager.get_or_create_profile user_id game_id kwargs now db).2) ∧
  (∀ user_id game_id kwargs now,
     db_wf (DatabaseManager.create_profile user_id game_id kwargs now db).2) ∧
  (∀ profile_id kwargs, db_wf (Manager.update_profile profile_id kwargs db).2) ∧
  (∀ profile_id group_id now,
     db_wf (DatabaseManager.add_to_pending profile_id group_id now db).2) ∧
  (∀ profile_id group_id,
     db_wf (DatabaseManager.remove_from_pending profile_id group_id db).2) ∧
  (∀ cookie addr port now,
     db_wf (DatabaseManager.create_natneg cookie addr port now db).2) ∧
  (∀ cookie, db_wf (Manager.delete_natneg cookie db).2) ∧
  (∀ server_id game_name profile_id ip_address port kwargs now,
     db_wf (Manager.register_game_server server_id game_name profile_id ip_address
              port kwargs now db).2) ∧
  (∀ ban_type identifier reason expires_at banned_by now,
     db_wf (Manager.add_ban ban_type identifier reason expires_at banned_by now db).2) ∧
  (∀ ban_type identifier, db_wf (Manager.remove_ban ban_type identifier db).2) ∧
  (∀ mac_address kwargs now,
     db_wf (Manager.get_or_create_console mac_address kwargs now db).2).
Proof.
  pose proof Hwf as (Hp & [Hqpk Hq] & Hn & Hb & Hc & Hg).
  split_and!.
  - intros user_id game_id kwargs now.
    pose proof (get_or_create_profile_keeps_wf db user_id game_id kwargs now Hp) as Hkeep.
    destruct (get_or_create_profile_shape db user_id game_id kwargs now)
      as (tbl & seq & Heq).
    rewrite Heq in *. by apply db_wf_profiles.
  - intros user_id game_id kwargs now.
    pose proof (create_profile_keeps_wf db user_id game_id kwargs now Hp) as Hkeep.
    destruct (create_profile_shape db user_id game_id kwargs now) as (tbl & seq & Heq).
    rewrite Heq in *. by apply db_wf_profiles.
  - intros profile_id kwargs.
    pose proof (update_profile_keeps_wf db profile_id kwargs Hp) as Hkeep.
    unfold Manager.update_profile in *. destruct (kwargs_empty kwargs); [done|].
    by apply db_wf_profiles.
  - intros profile_id group_id now.
    pose proof (add_to_pending_keeps_wf db profile_id group_id now Hq) as Hkeep.
    pose proof (add_to_pending_keeps_pk db profile_id group_id now Hqpk) as Hkeep_pk.
    destruct (add_to_pending_shape db profile_id group_id now) as (tbl & seq & Heq).
    rewrite Heq in *. by apply db_wf_pending.
  - intros profile_id group_id. apply db_wf_pending.
    + exact (remove_from_pending_keeps_pk db profile_id group_id Hqpk).
    + by apply NoDup_fmap_filter.
  - intros cookie addr port now.
    pose proof (create_natneg_keeps_wf db cookie addr port now Hn) as Hkeep.
    destruct (create_natneg_shape db cookie addr port now) as (tbl & Heq).
    rewrite Heq in *. by apply db_wf_natneg.
  - intros cookie. apply db_wf_natneg. by apply NoDup_fmap_filter.
  - intros server_id game_name profile_id ip_address port kwargs now.
    pose proof (register_game_server_keeps_wf db server_id game_name profile_id
                  ip_address port kwargs now Hg) as Hkeep.
    destruct (register_game_server_shape db server_id game_name profile_id ip_address
                port kwargs now) as (tbl & Heq).
    rewrite Heq in *. by apply db_wf_game_servers.
  - intros ban_type identifier reason expires_at banned_by now.
    pose proof (add_ban_keeps_wf db ban_type identifier reason expires_at banned_by
                  now Hb) as Hkeep.
    unfold Manager.add_ban in *.
    destruct (objects_update_or_create _ _ _ _) as [[[ban is_new]|e] tbl];
      by apply db_wf_banned.
  - intros ban_type identifier. apply db_wf_banned. by apply NoDup_fmap_filter.
  - intros mac_address kwargs now.
    pose proof (get_or_create_console_keeps_wf db mac_address kwargs now Hc) as Hkeep.
    unfold Manager.get_or_create_console, objects_get in *.
    destruct (filter (console_mac mac_address) (consoles db)) as [|x [|y l]];
      [by apply db_wf_consoles|by apply db_wf_consoles|done].
Qed.
End constraints.

Lemma db_constraints_kept_witness :
  db_wf testdata_db ∧
  db_wf (@DatabaseManager.create_profile spec_codec "123" "ADAJ" no_kwargs 5 testdata_db).2 ∧
  db_wf (DatabaseManager.add_to_pending 1 7 testdata_now testdata_db).2 ∧
  db_wf (@DatabaseManager.create_natneg sample_ipv6 42 "2001:0DB8:0:0:0:0:0:1" 1000
           testdata_now testdata_db).2 ∧
  db_wf (Manager.get_or_create_console "0017ab999999" no_console_kwargs testdata_now
           testdata_db).2.
Proof.
  assert (db_wf testdata_db) as Hwf.
  { unfold db_wf, profiles_wf, pending_pk_wf, pending_wf, natneg_wf, banned_wf,
      consoles_wf, game_servers_wf.
    split_and!; try (apply (bool_decide_unpack _); vm_compute; exact I). }
  split; [exact Hwf|].
  pose proof (@db_constraints_kept spec_codec sample_ipv6 testdata_db Hwf)
    as (_ & Hcreate & _ & Hjoin & _ & Hnatneg & _ & _ & _ & _ & Hconsole).
  split; [exact (Hcreate "123" "ADAJ" no_kwargs 5)|].
  split; [exact (Hjoin 1 7 testdata_now)|].
  split; [exact (Hnatneg 42 "2001:0DB8:0:0:0:0:0:1" 1000 testdata_now)|].
  exact (Hconsole "0017ab999999" no_console_kwargs testdata_now).
Defined.

Lemma objects_create_unique_keeps_key {R K} (P : R → Prop) `{!∀ r, Decision (P r)}
    (key : R → K) (row : R) (tbl : list R) :
  (∀ r, P r ↔ key r = key row) →
  NoDup (key <$> tbl) → NoDup (key <$> (objects_create_unique P row tbl).2).
Proof.
  intros Hkey Hnd. unfold objects_create_unique, objects_exists.
  destruct (filter P tbl) as [|x l] eqn:Hfil; [|done].
  cbn. apply NoDup_snoc_fresh; [done|]. by apply (filter_nil_fresh P).
Qed.

Lemma add_to_whitelist_upsert (st : Store) (user_id : Z) (mac_address notes : string)
    (now : Z) :
  allow_list_wf st →
  ∃ tbl,
    (Manager.add_to_whitelist user_id mac_address notes now st).2
      = with_allow_list tbl st ∧
    NoDup (AllowList.user_id <$> tbl).
Proof.
  intros Hwf. unfold Manager.add_to_whitelist.
  match goal with
  | |- context [objects_update_or_create ?P ?f ?c ?tbl] =>
      destruct (objects_update_or_create_lookup P AllowList.user_id user_id f c
                  (λ r, reflexivity _) (λ r, eq_refl) eq_refl tbl Hwf)
        as (row & is_new & Hres & _ & Hnd & _);
      destruct (objects_update_or_create P f c tbl) as [r tbl'] eqn:Hup
  end.
  cbn [fst snd] in Hres, Hnd. subst r. by exists tbl'.
Qed.

Lemma add_to_denylist_upsert (st : Store) (user_id : Z)
    (game_id reason banned_by : string) (now : Z) :
  deny_list_wf st →
  ∃ tbl,
    (Manager.add_to_denylist user_id game_id reason banned_by now st).2
      = with_deny_list tbl st ∧
    NoDup (deny_pair <$> tbl).
Proof.
  intros Hwf. unfold Manager.add_to_denylist.
  match goal with
  | |- context [objects_update_or_create ?P ?f ?c ?tbl] =>
      destruct (objects_update_or_create_lookup P deny_pair (user_id, game_id) f c
                  (deny_key_pair user_id game_id) (λ r, eq_refl) eq_refl tbl Hwf)
        as (row & is_new & Hres & _ & Hnd & _);
      destruct (objects_update_or_create P f c tbl) as [r tbl'] eqn:Hup
  end.
  cbn [fst snd] in Hres, Hnd. subst r. by exists tbl'.
Qed.

Section store_constraints.
Context `{IPv6Validation}.
Context (st : Store) (Hwf : store_wf st).

Lemma store_wf_sessions (tbl : list Session.t) :
  sessions_wf (with_sessions tbl st) → store_wf (with_sessions tbl st).
Proof. destruct Hwf as (? & _ & ? & ? & ?). intros ?. by split_and!. Qed.

Lemma store_wf_nas_logins (tbl : list NASLogin.t) :
  nas_logins_wf (with_nas_logins tbl st) → store_wf (with_nas_logins tbl st).
Proof. destruct Hwf as (? & ? & _ & ? & ?). intros ?. by split_and!. Qed.

Lemma store_wf_allow_list (tbl : list AllowList.t) :
  allow_list_wf (with_allow_list tbl st) → store_wf (with_allow_list tbl st).
Proof. destruct Hwf as (? & ? & ? & _ & ?). intros ?. by split_and!. Qed.

Lemma store_wf_deny_list (tbl : list DenyList.t) :
  deny_list_wf (with_deny_list tbl st) → store_wf (with_deny_list tbl st).
Proof. destruct Hwf as (? & ? & ? & ? & _). intros ?. by split_and!. Qed.

(** X30: the operations on sessions, NAS logins, the whitelist and the deny
    list keep the uniqueness constraints of the schema, whether they
    succeed or fail. *)
Theorem store_constraints_kept :
  (∀ profile_id random now,
     store_wf (Manager.create_session profile_id random now st).2) ∧
  (∀ session_key, store_wf (Manager.delete_session session_key st).2) ∧
  (∀ max_age_minutes now,
     store_wf (Manager.cleanup_old_sessions max_age_minutes now st).2) ∧
  (∀ user_id auth_token data ip_address now,
     store_wf (Manager.create_nas_login user_id auth_token data ip_address now st).2) ∧
  (∀ user_id mac_address notes now,
     store_wf (Manager.add_to_whitelist user_id mac_address notes now st).2) ∧
  (∀ user_id, store_wf (Manager.remove_from_whitelist user_id st).2) ∧
  (∀ user_id game_id reason banned_by now,
     store_wf (Manager.add_to_denylist user_id game_id reason banned_by now st).2) ∧
  (∀ user_id game_id, store_wf (Manager.remove_from_denylist user_id game_id st).2).
Proof.
  pose proof Hwf as (Hdb & Hs & Hl & Ha & Hd).
  split_and!.
  - intros profile_id random now. unfold Manager.create_session.
    destruct (objects_get (profile_pk profile_id) (profiles (core st))) as [p|e]; [|done].
    pose proof (objects_create_unique_keeps_key
                  (session_pk (Manager.generate_session_key random)) Session.session_key
                  (Session.mk (Manager.generate_session_key random)
                     (Profile.profile_id p) now)
                  (sessions st) (λ r, reflexivity _) Hs) as Hkeep.
    destruct (objects_create_unique _ _ _) as [[s|e] tbl]; by apply store_wf_sessions.
  - intros session_key. apply store_wf_sessions. by apply NoDup_fmap_filter.
  - intros max_age_minutes now. unfold Manager.cleanup_old_sessions.
    destruct (res_bind _ _) as [threshold|e]; [|done].
    apply store_wf_sessions. by apply NoDup_fmap_filter.
  - intros user_id auth_token data ip_address now. unfold Manager.create_nas_login.
    destruct (ip_column ip_address) as [stored_address|e]; [|done].
    pose proof (objects_create_unique_keeps_key (nas_token auth_token) NASLogin.auth_token
                  (NASLogin.mk user_id auth_token data now stored_address)
                  (nas_logins st) (λ r, reflexivity _) Hl) as Hkeep.
    destruct (objects_create_unique _ _ _) as [[r|e] tbl]; by apply store_wf_nas_logins.
  - intros user_id mac_address notes now.
    destruct (add_to_whitelist_upsert st user_id mac_address notes now Ha)
      as (tbl & -> & Hnd).
    by apply store_wf_allow_list.
  - intros user_id. apply store_wf_allow_list. by apply NoDup_fmap_filter.
  - intros user_id game_id reason banned_by now.
    destruct (add_to_denylist_upsert st user_id game_id reason banned_by now Hd)
      as (tbl & -> & Hnd).
    by apply store_wf_deny_list.
  - intros user_id game_id. apply store_wf_deny_list. by apply NoDup_fmap_filter.
Qed.
End store_constraints.

Lemma store_constraints_kept_witness :
  store_wf testdata_store ∧
  store_wf (Manager.create_session 1 other_random testdata_now testdata_store).2 ∧
  store_wf (Manager.add_to_whitelist 42 "0017ab999999" "" testdata_now testdata_store).2 ∧
  store_wf (Manager.cleanup_old_sessions 30 testdata_now testdata_store).2.
Proof.
  assert (store_wf testdata_store) as Hwf.
  { unfold store_wf, db_wf, profiles_wf, pending_pk_wf, pending_wf, natneg_wf, banned_wf,
      consoles_wf, game_servers_wf, sessions_wf, nas_logins_wf, allow_list_wf,
      deny_list_wf.
    split_and!; try (apply (bool_decide_unpack _); vm_compute; exact I). }
  split; [exact Hwf|].
  pose proof (@store_constraints_kept sample_ipv6 testdata_store Hwf)
    as (Hcreate & _ & Hsweep & _ & Hallow & _ & _ & _).
  split; [exact (Hcreate 1 other_random testdata_now)|].
  split; [exact (Hallow 42 "0017ab999999" "" testdata_now)|].
  exact (Hsweep 30 testdata_now).
Defined.
